(** * A shallow embedding of the Contiki/INGA FAT driver (core/cfs/fat/fat.c)

    The driver keeps all of its state in globals: one 512-byte sector
    buffer with its address and dirty flag, the descriptor of the mounted
    volume, the readdir cursor and the two file pools.  The embedding
    threads a record of these globals through a state monad whose
    outcomes also record undefined behaviour of the C program (division
    by zero, out-of-bounds array access, signed overflow) and loops that
    do not finish within the given fuel. *)

From Stdlib Require Import ZArith Lia List String Ascii Bool.
From stdpp Require Import base tactics option list gmap.

Local Open Scope Z_scope.

(** ** Fixed-width C integers *)

Definition u8 (x : Z) : Z := x mod 2^8.
Definition u16 (x : Z) : Z := x mod 2^16.
Definition u32 (x : Z) : Z := x mod 2^32.

Inductive width := W16 | W32.

Definition bits (w : width) : Z :=
  match w with W16 => 16 | W32 => 32 end.

(** Conversion to the signed type of the given width (two's complement). *)
Definition sint (w : width) (x : Z) : Z :=
  (x + 2^(bits w - 1)) mod 2^(bits w) - 2^(bits w - 1).

Definition in_sint (w : width) (x : Z) : bool :=
  (- 2^(bits w - 1) <=? x) && (x <? 2^(bits w - 1)).

(** What fat.h, cfs.h and the C compiler fix and fat.c does not: the width
    of [int] (16 bits on the AVR the driver is written for, 32 elsewhere),
    the width of the signed [cfs_offset_t], and the size of the file
    pools. *)
Class Platform := {
  int_width : width;
  cfs_offset_width : width;
  FAT_FD_POOL_SIZE : Z
}.

(** Arithmetic on [uint8_t]/[uint16_t] operands happens after integer
    promotion: in [unsigned int] when [int] has 16 bits (wrapping modulo
    2^16), in [int] when it has 32 bits, where none of the expressions
    below can overflow. *)
Definition promoted {platform : Platform} (x : Z) : Z :=
  match int_width with W16 => u16 x | W32 => x end.

(** ** Constants of the absent headers *)

(** Modelled from the spec: fat.h is missing; the volume type is one of
    the three classes [determine_fat_type] distinguishes. *)
Inductive fat_type := FAT12 | FAT16 | FAT32.

(** Modelled from the spec: fat.h is missing; [EOC] is the marker
    [add_cluster_to_file] stores at the end of a chain, an end-of-chain
    value for FAT32 whose low 16 bits are one for FAT16. *)
Definition EOC : Z := 0x0FFFFFFF.

(** Modelled from the spec: diskio.h is missing; block I/O answers OK or
    an error code, and [fat_read_block] hands the status out as 0 on
    success. *)
Definition DISKIO_SUCCESS : Z := 0.

(** Modelled from the spec: cfs.h is missing; the flag bits of [cfs_open]
    and the three [whence] values of [cfs_seek]. *)
Definition CFS_READ : Z := 1.
Definition CFS_WRITE : Z := 2.
Definition CFS_APPEND : Z := 4.
Definition CFS_SEEK_SET : Z := 0.
Definition CFS_SEEK_CUR : Z := 1.
Definition CFS_SEEK_END : Z := 2.

Definition ATTR_READ_ONLY : Z := 0x01.
Definition ATTR_HIDDEN : Z := 0x02.
Definition ATTR_SYSTEM : Z := 0x04.
Definition ATTR_VOLUME_ID : Z := 0x08.
Definition ATTR_DIRECTORY : Z := 0x10.
Definition ATTR_ARCHIVE : Z := 0x20.
Definition ATTR_LONG_NAME : Z :=
  Z.lor (Z.lor (Z.lor ATTR_READ_ONLY ATTR_HIDDEN) ATTR_SYSTEM) ATTR_VOLUME_ID.

(** ** The block device *)

(** The device behind [mounted.dev] is an external collaborator.  A read
    is given the caller's buffer and answers a status, the buffer as the
    device leaves it and the device afterwards; a write answers a status
    and the device afterwards. *)
Class BlockDevice (D : Type) := {
  diskio_read_block : D -> Z -> list Z -> Z * list Z * D;
  diskio_write_block : D -> Z -> list Z -> Z * D
}.

(** Calls made to the device, oldest first. *)
Inductive io_event :=
| IoRead (addr : Z)
| IoWrite (addr : Z) (data : list Z).

(** ** Data structures *)

Record FAT_Info := {
  type : fat_type;
  BPB_BytesPerSec : Z;
  BPB_SecPerClus : Z;
  BPB_RsvdSecCnt : Z;
  BPB_NumFATs : Z;
  BPB_RootEntCnt : Z;
  BPB_TotSec : Z;
  BPB_Media : Z;
  BPB_FATSz : Z;
  BPB_RootClus : Z
}.

Record dir_entry := {
  DIR_Name : list Z;
  DIR_Attr : Z;
  DIR_NTRes : Z;
  CrtTimeTenth : Z;
  DIR_CrtTime : Z;
  DIR_CrtDate : Z;
  DIR_LstAccessDate : Z;
  DIR_FstClusHI : Z;
  DIR_WrtTime : Z;
  DIR_WrtDate : Z;
  DIR_FstClusLO : Z;
  DIR_FileSize : Z
}.

Record file := {
  cluster : Z;
  dir_entry_sector : Z;
  dir_entry_offset : Z;
  f_dir_entry : dir_entry;
  nth_cluster : Z;
  n : Z
}.

(** [file] is the pointer into [fat_file_pool]: null or the slot of the
    same index. *)
Record file_desc := {
  offset : Z;
  file_ptr : bool;
  flags : Z
}.

Record file_system := {
  dev : bool;
  info : FAT_Info;
  first_data_sector : Z
}.

Record cfs_dirent := {
  name : list Z;
  size : Z
}.

Record PathResolver := {
  pr_start : Z;
  pr_end : Z;
  pr_path : option (list Z);
  pr_name : list Z
}.

(** *** Little-endian fields and the 32-byte directory entry *)

Definition le16 (b0 b1 : Z) : Z := b0 + Z.shiftl b1 8.

Definition le32 (b0 b1 b2 b3 : Z) : Z :=
  Z.shiftl b3 24 + Z.shiftl b2 16 + Z.shiftl b1 8 + b0.

Definition bytes16 (x : Z) : list Z := [u8 x; u8 (Z.shiftr x 8)].

Definition bytes32 (x : Z) : list Z :=
  [u8 x; u8 (Z.shiftr x 8); u8 (Z.shiftr x 16); u8 (Z.shiftr x 24)].

Definition byte_at (l : list Z) (i : nat) : Z := nth i l 0.

(** Modelled from the spec: fat.h is missing; [struct dir_entry] has the
    layout of the 32-byte on-disk entry, which is what the driver's
    [memcpy] between the sector buffer and the struct relies on. *)
Definition dir_entry_of_bytes (l : list Z) : dir_entry := {|
  DIR_Name := take 11 l;
  DIR_Attr := byte_at l 11;
  DIR_NTRes := byte_at l 12;
  CrtTimeTenth := byte_at l 13;
  DIR_CrtTime := le16 (byte_at l 14) (byte_at l 15);
  DIR_CrtDate := le16 (byte_at l 16) (byte_at l 17);
  DIR_LstAccessDate := le16 (byte_at l 18) (byte_at l 19);
  DIR_FstClusHI := le16 (byte_at l 20) (byte_at l 21);
  DIR_WrtTime := le16 (byte_at l 22) (byte_at l 23);
  DIR_WrtDate := le16 (byte_at l 24) (byte_at l 25);
  DIR_FstClusLO := le16 (byte_at l 26) (byte_at l 27);
  DIR_FileSize := le32 (byte_at l 28) (byte_at l 29) (byte_at l 30) (byte_at l 31)
|}.

Definition bytes_of_dir_entry (d : dir_entry) : list Z :=
  take 11 (DIR_Name d ++ replicate 11 0)
  ++ [u8 (DIR_Attr d); u8 (DIR_NTRes d); u8 (CrtTimeTenth d)]
  ++ bytes16 (DIR_CrtTime d) ++ bytes16 (DIR_CrtDate d)
  ++ bytes16 (DIR_LstAccessDate d) ++ bytes16 (DIR_FstClusHI d)
  ++ bytes16 (DIR_WrtTime d) ++ bytes16 (DIR_WrtDate d)
  ++ bytes16 (DIR_FstClusLO d) ++ bytes32 (DIR_FileSize d).

Definition set_first_cluster (d : dir_entry) (hi lo : Z) : dir_entry := {|
  DIR_Name := DIR_Name d; DIR_Attr := DIR_Attr d; DIR_NTRes := DIR_NTRes d;
  CrtTimeTenth := CrtTimeTenth d; DIR_CrtTime := DIR_CrtTime d;
  DIR_CrtDate := DIR_CrtDate d; DIR_LstAccessDate := DIR_LstAccessDate d;
  DIR_FstClusHI := hi;
  DIR_WrtTime := DIR_WrtTime d; DIR_WrtDate := DIR_WrtDate d;
  DIR_FstClusLO := lo;
  DIR_FileSize := DIR_FileSize d
|}.

(** ** Monad of the driver: global state, undefined behaviour, fuel *)

Inductive outcome (S A : Type) :=
| Ok (a : A) (s : S)
| Undefined
| OutOfFuel.

Arguments Ok {S A} a s.
Arguments Undefined {S A}.
Arguments OutOfFuel {S A}.

Section Driver.

Context {D : Type}.

(** The globals of fat.c, the device they talk to and the log of the
    device calls made so far. *)
Record State := {
  device : D;
  io_log : list io_event;
  sector_buffer : list Z;
  sector_buffer_addr : Z;
  sector_buffer_dirty : Z;
  cfs_readdir_offset : Z;
  mounted : file_system;
  fat_file_pool : list file;
  fat_fd_pool : list file_desc
}.

Definition M (A : Type) : Type := State -> outcome State A.

Definition ret {A} (a : A) : M A := fun s => Ok a s.

Definition bind {A B} (m : M A) (k : A -> M B) : M B :=
  fun s =>
    match m s with
    | Ok a s' => k a s'
    | Undefined => Undefined
    | OutOfFuel => OutOfFuel
    end.

Definition undefined {A} : M A := fun _ => Undefined.
Definition out_of_fuel {A} : M A := fun _ => OutOfFuel.
Definition gets {A} (f : State -> A) : M A := fun s => Ok (f s) s.
Definition modify (f : State -> State) : M unit := fun s => Ok tt (f s).

End Driver.

Arguments State D : clear implicits.
Arguments M D A : clear implicits.

Notation "x <- c1 ;; c2" := (bind c1 (fun x => c2))
  (at level 20, c1 at level 99, c2 at level 200, only parsing).
Notation "' pat <- c1 ;; c2" := (bind c1 (fun x => match x with pat => c2 end))
  (at level 20, pat pattern, c1 at level 99, c2 at level 200, only parsing).
Notation "c1 ;;; c2" := (bind c1 (fun _ => c2))
  (at level 100, c2 at level 200, only parsing, right associativity).

Section Fat.

Context {D : Type} {blockdev : BlockDevice D} {platform : Platform}.

Local Abbreviation State := (State D).
Local Abbreviation M := (M D).

(** *** Assignments to the globals *)

Definition with_device (d : D) (s : State) : State :=
  Build_State d (io_log s) (sector_buffer s) (sector_buffer_addr s)
    (sector_buffer_dirty s) (cfs_readdir_offset s) (mounted s)
    (fat_file_pool s) (fat_fd_pool s).

Definition with_io_log (l : list io_event) (s : State) : State :=
  Build_State (device s) l (sector_buffer s) (sector_buffer_addr s)
    (sector_buffer_dirty s) (cfs_readdir_offset s) (mounted s)
    (fat_file_pool s) (fat_fd_pool s).

Definition with_sector_buffer (b : list Z) (s : State) : State :=
  Build_State (device s) (io_log s) b (sector_buffer_addr s)
    (sector_buffer_dirty s) (cfs_readdir_offset s) (mounted s)
    (fat_file_pool s) (fat_fd_pool s).

Definition with_sector_buffer_addr (a : Z) (s : State) : State :=
  Build_State (device s) (io_log s) (sector_buffer s) a
    (sector_buffer_dirty s) (cfs_readdir_offset s) (mounted s)
    (fat_file_pool s) (fat_fd_pool s).

Definition with_sector_buffer_dirty (d : Z) (s : State) : State :=
  Build_State (device s) (io_log s) (sector_buffer s) (sector_buffer_addr s)
    d (cfs_readdir_offset s) (mounted s)
    (fat_file_pool s) (fat_fd_pool s).

Definition with_cfs_readdir_offset (o : Z) (s : State) : State :=
  Build_State (device s) (io_log s) (sector_buffer s) (sector_buffer_addr s)
    (sector_buffer_dirty s) o (mounted s)
    (fat_file_pool s) (fat_fd_pool s).

Definition with_mounted (m : file_system) (s : State) : State :=
  Build_State (device s) (io_log s) (sector_buffer s) (sector_buffer_addr s)
    (sector_buffer_dirty s) (cfs_readdir_offset s) m
    (fat_file_pool s) (fat_fd_pool s).

Definition with_fat_file_pool (p : list file) (s : State) : State :=
  Build_State (device s) (io_log s) (sector_buffer s) (sector_buffer_addr s)
    (sector_buffer_dirty s) (cfs_readdir_offset s) (mounted s)
    p (fat_fd_pool s).

Definition with_fat_fd_pool (p : list file_desc) (s : State) : State :=
  Build_State (device s) (io_log s) (sector_buffer s) (sector_buffer_addr s)
    (sector_buffer_dirty s) (cfs_readdir_offset s) (mounted s)
    (fat_file_pool s) p.

Definition mounted_info : M FAT_Info := gets (fun s => info (mounted s)).

(** *** Arrays: an index outside the array is undefined behaviour *)

Definition in_bounds (i len : Z) : bool := (0 <=? i) && (i <? len).

(** [sector_buffer[i]] *)
Definition sb_get (i : Z) : M Z := fun s =>
  if in_bounds i 512 then
    match sector_buffer s !! Z.to_nat i with
    | Some v => Ok v s
    | None => Undefined
    end
  else Undefined.

(** [sector_buffer[i] = v], the value converted to [uint8_t] *)
Definition sb_set (i v : Z) : M unit := fun s =>
  if in_bounds i 512 && (i <? Z.of_nat (length (sector_buffer s))) then
    Ok tt (with_sector_buffer (<[Z.to_nat i := u8 v]> (sector_buffer s)) s)
  else Undefined.

(** [memcpy(dst, &sector_buffer[i], len)] *)
Definition sb_get_range (i len : Z) : M (list Z) := fun s =>
  if (0 <=? i) && (i + len <=? 512)
     && (i + len <=? Z.of_nat (length (sector_buffer s))) then
    Ok (take (Z.to_nat len) (drop (Z.to_nat i) (sector_buffer s))) s
  else Undefined.

(** [memcpy(&sector_buffer[i], src, sizeof src)] *)
Definition sb_set_range (i : Z) (src : list Z) : M unit := fun s =>
  if (0 <=? i) && (i + Z.of_nat (length src) <=? 512)
     && (i + Z.of_nat (length src) <=? Z.of_nat (length (sector_buffer s))) then
    Ok tt (with_sector_buffer
             (list_inserts (Z.to_nat i) src (sector_buffer s)) s)
  else Undefined.

Definition get_file (fd : Z) : M file := fun s =>
  if 0 <=? fd then
    match fat_file_pool s !! Z.to_nat fd with
    | Some f => Ok f s
    | None => Undefined
    end
  else Undefined.

Definition set_file (fd : Z) (f : file) : M unit := fun s =>
  if (0 <=? fd) && (fd <? Z.of_nat (length (fat_file_pool s))) then
    Ok tt (with_fat_file_pool (<[Z.to_nat fd := f]> (fat_file_pool s)) s)
  else Undefined.

Definition get_fd (fd : Z) : M file_desc := fun s =>
  if 0 <=? fd then
    match fat_fd_pool s !! Z.to_nat fd with
    | Some f => Ok f s
    | None => Undefined
    end
  else Undefined.

Definition set_fd (fd : Z) (f : file_desc) : M unit := fun s =>
  if (0 <=? fd) && (fd <? Z.of_nat (length (fat_fd_pool s))) then
    Ok tt (with_fat_fd_pool (<[Z.to_nat fd := f]> (fat_fd_pool s)) s)
  else Undefined.

(** Unsigned division and remainder of C; a zero divisor is undefined. *)
Definition udiv (a b : Z) : M Z :=
  if b =? 0 then undefined else ret (a / b).

Definition umod (a b : Z) : M Z :=
  if b =? 0 then undefined else ret (a mod b).

(** *** The device calls, with their log *)

(** [diskio_read_block( mounted.dev, addr, sector_buffer )] *)
Definition dev_read (addr : Z) : M Z := fun s =>
  let '(st, buf, d) := diskio_read_block (device s) addr (sector_buffer s) in
  Ok st (with_sector_buffer buf
           (with_io_log (io_log s ++ [IoRead addr]) (with_device d s))).

(** [diskio_write_block( mounted.dev, addr, sector_buffer )] *)
Definition dev_write (addr : Z) : M Z := fun s =>
  let '(st, d) := diskio_write_block (device s) addr (sector_buffer s) in
  Ok st (with_io_log (io_log s ++ [IoWrite addr (sector_buffer s)])
           (with_device d s)).

(** ** Sector buffer functions *)

(** The status of the write is only looked at by a debug print. *)
Definition fat_flush : M unit :=
  dirty <- gets sector_buffer_dirty ;;
  if dirty =? 0 then ret tt
  else
    addr <- gets sector_buffer_addr ;;
    _ <- dev_write addr ;;
    modify (with_sector_buffer_dirty 0).

Definition fat_read_block (sector_addr : Z) : M Z :=
  addr <- gets sector_buffer_addr ;;
  if (addr =? sector_addr) && negb (sector_addr =? 0) then ret 0
  else
    fat_flush ;;;
    modify (with_sector_buffer_addr sector_addr) ;;;
    st <- dev_read sector_addr ;;
    ret (u8 st).

(** ** FAT entry functions *)

Definition eoc_value (t : fat_type) (fat_entry : Z) : bool :=
  match t with
  | FAT16 => 0xFFF8 <=? fat_entry
  | FAT32 => 0x0FFFFFF8 <=? Z.land fat_entry 0x0FFFFFFF
  | FAT12 => false
  end.

Definition is_EOC (fat_entry : Z) : M bool :=
  i <- mounted_info ;;
  ret (eoc_value (type i) fat_entry).

(** The out-parameter [*ent_offset] keeps the caller's value when the
    volume is neither FAT16 nor FAT32; every caller passes 0. *)
Definition calc_fat_block (cur_cluster : Z) (ent_offset : Z) : M (Z * Z) :=
  i <- mounted_info ;;
  let N := cur_cluster in
  let ent_offset :=
    match type i with
    | FAT16 => u32 (N * 2)
    | FAT32 => u32 (N * 4)
    | FAT12 => ent_offset
    end in
  q <- udiv ent_offset (BPB_BytesPerSec i) ;;
  let fat_sec_num := u32 (BPB_RsvdSecCnt i + q) in
  ent_offset <- umod ent_offset (BPB_BytesPerSec i) ;;
  ret (fat_sec_num, ent_offset).

Definition read_fat_entry (cluster_num : Z) : M Z :=
  '(fat_sec_num, ent_offset) <- calc_fat_block cluster_num 0 ;;
  _ <- fat_read_block fat_sec_num ;;
  i <- mounted_info ;;
  match type i with
  | FAT16 =>
      b1 <- sb_get (ent_offset + 1) ;;
      b0 <- sb_get ent_offset ;;
      ret (u32 (Z.shiftl b1 8 + b0))
  | FAT32 =>
      b3 <- sb_get (ent_offset + 3) ;;
      b2 <- sb_get (ent_offset + 2) ;;
      b1 <- sb_get (ent_offset + 1) ;;
      b0 <- sb_get (ent_offset + 0) ;;
      ret (Z.land (u32 (le32 b0 b1 b2 b3)) 0x0FFFFFFF)
  | FAT12 => ret EOC
  end.

Definition write_fat_entry (cluster_num value : Z) : M unit :=
  '(fat_sec_num, ent_offset) <- calc_fat_block cluster_num 0 ;;
  _ <- fat_read_block fat_sec_num ;;
  i <- mounted_info ;;
  match type i with
  | FAT16 =>
      sb_set (ent_offset + 1) (u8 (Z.shiftr value 8)) ;;;
      sb_set ent_offset (u8 value)
  | FAT32 =>
      old <- sb_get (ent_offset + 3) ;;
      sb_set (ent_offset + 3)
        (Z.land (u8 (Z.shiftr value 24)) 0x0FFF + Z.land 0xF000 old) ;;;
      sb_set (ent_offset + 2) (u8 (Z.shiftr value 16)) ;;;
      sb_set (ent_offset + 1) (u8 (Z.shiftr value 8)) ;;;
      sb_set ent_offset (u8 value)
  | FAT12 => ret tt
  end ;;;
  modify (with_sector_buffer_dirty 1).

(** ** Cluster chain functions *)

(** One sector of [_get_free_cluster_16]: the loop from [i] on, [k] entries
    left.  The entry is assembled high byte first, as the source does. *)
Fixpoint _get_free_cluster_16_from (k : nat) (i : Z) : M Z :=
  match k with
  | O => ret 512
  | S k' =>
      hi <- sb_get i ;;
      lo <- sb_get (i + 1) ;;
      let entry := u16 (Z.shiftl hi 8 + lo) in
      if entry =? 0 then ret i else _get_free_cluster_16_from k' (i + 2)
  end.

Definition _get_free_cluster_16 : M Z := _get_free_cluster_16_from 256 0.

Fixpoint _get_free_cluster_32_from (k : nat) (i : Z) : M Z :=
  match k with
  | O => ret 512
  | S k' =>
      b3 <- sb_get (i + 3) ;;
      b2 <- sb_get (i + 2) ;;
      b1 <- sb_get (i + 1) ;;
      b0 <- sb_get i ;;
      let entry := u32 (le32 b0 b1 b2 b3) in
      if Z.land entry 0x0FFFFFFF =? 0 then ret i
      else _get_free_cluster_32_from k' (i + 4)
  end.

Definition _get_free_cluster_32 : M Z := _get_free_cluster_32_from 128 0.

(** The do-while of [get_free_cluster]; [i] only changes on FAT16 and
    FAT32. *)
Fixpoint get_free_cluster_scan (fuel : nat) (fat_sec_num i : Z) : M (Z * Z) :=
  match fuel with
  | O => out_of_fuel
  | S fuel' =>
      _ <- fat_read_block fat_sec_num ;;
      inf <- mounted_info ;;
      i <- match type inf with
           | FAT16 => _get_free_cluster_16
           | FAT32 => _get_free_cluster_32
           | FAT12 => ret i
           end ;;
      let fat_sec_num := u32 (fat_sec_num + 1) in
      if i =? 512 then get_free_cluster_scan fuel' fat_sec_num i
      else ret (fat_sec_num, i)
  end.

Definition get_free_cluster (fuel : nat) (start_cluster : Z) : M Z :=
  '(fat_sec_num, _) <- calc_fat_block start_cluster 0 ;;
  '(fat_sec_num, i) <- get_free_cluster_scan fuel fat_sec_num 0 ;;
  inf <- mounted_info ;;
  let ent_offset :=
    u32 (u32 (u32 (fat_sec_num - 1) - BPB_RsvdSecCnt inf)
         * BPB_BytesPerSec inf + i) in
  ret (match type inf with
       | FAT16 => ent_offset / 2
       | FAT32 => ent_offset / 4
       | FAT12 => ent_offset
       end).

Fixpoint find_nth_cluster_from (k : nat) (cluster : Z) : M Z :=
  match k with
  | O => ret cluster
  | S k' =>
      cluster <- read_fat_entry cluster ;;
      find_nth_cluster_from k' cluster
  end.

Definition find_nth_cluster (start_cluster n : Z) : M Z :=
  find_nth_cluster_from (Z.to_nat n) start_cluster.

Definition first_cluster_of (d : dir_entry) : Z :=
  u32 (Z.shiftl (DIR_FstClusHI d) 16 + DIR_FstClusLO d).

(** The while loop of [reset_cluster_chain]; it answers the value of
    [cluster] on exit. *)
Fixpoint reset_cluster_chain_walk (fuel : nat) (cluster next_cluster : Z)
  : M Z :=
  match fuel with
  | O => out_of_fuel
  | S fuel' =>
      e <- is_EOC cluster ;;
      if negb e && (2 <=? cluster) then
        write_fat_entry cluster 0 ;;;
        let cluster := next_cluster in
        next_cluster <- read_fat_entry cluster ;;
        reset_cluster_chain_walk fuel' cluster next_cluster
      else ret cluster
  end.

Definition reset_cluster_chain (fuel : nat) (dir_ent : dir_entry) : M unit :=
  let cluster := first_cluster_of dir_ent in
  next_cluster <- read_fat_entry cluster ;;
  cluster <- reset_cluster_chain_walk fuel cluster next_cluster ;;
  write_fat_entry cluster 0.

(** [CLUSTER_TO_SECTOR] and [SECTOR_TO_CLUSTER], in [uint32_t]. *)
Definition CLUSTER_TO_SECTOR (cluster_num : Z) : M Z :=
  m <- gets mounted ;;
  ret (u32 (u32 (u32 (cluster_num - 2) * BPB_SecPerClus (info m))
            + first_data_sector m)).

Definition SECTOR_TO_CLUSTER (sector_num : Z) : M Z :=
  m <- gets mounted ;;
  q <- udiv (u32 (sector_num - first_data_sector m)) (BPB_SecPerClus (info m)) ;;
  ret (u32 (q + 2)).

(** ** Path resolver functions *)

(** [path[i]] of a C string given without its terminating NUL; reading
    behind the terminator is out of bounds. *)
Definition path_at (path : list Z) (i : Z) : M Z := fun s =>
  if (0 <=? i) && (i <=? Z.of_nat (length path)) then
    Ok (nth (Z.to_nat i) path 0) s
  else Undefined.

Definition toupper (c : Z) : Z :=
  if (97 <=? c) && (c <=? 122) then c - 32 else c.

(** The for loop of [_make_valid_name] with [k] iterations left. *)
Fixpoint _make_valid_name_from (k : nat) (path : list Z) (start : Z)
    (i idx : Z) (dot_found : bool) (name : list Z) : M (Z * list Z) :=
  match k with
  | O => ret (0, name)
  | S k' =>
      if 11 <=? idx then ret (2, name)
      else
        c <- path_at path (start + i) ;;
        if c =? 46 then
          if dot_found then ret (3, name)
          else _make_valid_name_from k' path start (u8 (i + 1)) (u8 (7 + 1))
                 true name
        else if negb dot_found && (7 <? idx) then ret (4, name)
        else _make_valid_name_from k' path start (u8 (i + 1)) (u8 (idx + 1))
               dot_found (<[Z.to_nat idx := toupper c]> name)
  end.

(** [start] and [end] arrive converted to [uint8_t]; the answer carries the
    eleven bytes of [name]. *)
Definition _make_valid_name (path : list Z) (start end_ : Z) : M (Z * list Z) :=
  _make_valid_name_from (Z.to_nat (end_ - start)) path start 0 0 false
    (replicate 11 0x20).

Definition pr_reset : PathResolver :=
  {| pr_start := 0; pr_end := 0; pr_path := None; pr_name := replicate 11 0 |}.

(** The for loop of [pr_get_next_path_part]; [k] bounds the characters
    left before the terminator. *)
Fixpoint pr_scan (k : nat) (path : list Z) (start end_ i : Z) (nm : list Z)
  : M (Z * PathResolver) :=
  let rsolv e n :=
    {| pr_start := start; pr_end := e; pr_path := Some path; pr_name := n |} in
  c <- path_at path i ;;
  if c =? 0 then ret (1, rsolv end_ nm)
  else
    let end_ := if c =? 47 then end_ else u16 (end_ + 1) in
    ce <- path_at path end_ ;;
    if (ce =? 47) || (ce =? 0) then
      '(r, nm) <- _make_valid_name path (u8 start) (u8 end_) ;;
      ret (r, rsolv end_ nm)
    else
      match k with
      | O => out_of_fuel
      | S k' => pr_scan k' path start end_ (u16 (i + 1)) nm
      end.

Definition pr_get_next_path_part (rsolv : PathResolver) : M (Z * PathResolver) :=
  match pr_path rsolv with
  | None => ret (2, rsolv)
  | Some path =>
      let start := pr_end rsolv in
      let end_ := u16 (pr_end rsolv + 1) in
      c <- path_at path start ;;
      let start := if c =? 47 then u16 (start + 1) else start in
      pr_scan (length path) path start end_ start (pr_name rsolv)
  end.

Definition pr_is_current_path_part_a_file (rsolv : PathResolver) : M bool :=
  match pr_path rsolv with
  | None => undefined
  | Some path =>
      c <- path_at path (pr_end rsolv) ;;
      ret (if c =? 47 then false else if c =? 0 then true else false)
  end.

(** [fat_next_block] *)
Definition fat_next_block : M Z :=
  fat_flush ;;;
  addr <- gets sector_buffer_addr ;;
  inf <- mounted_info ;;
  r <- umod (u32 (addr + 1)) (BPB_SecPerClus inf) ;;
  if r =? 0 then
    c <- SECTOR_TO_CLUSTER addr ;;
    entry <- read_fat_entry c ;;
    e <- is_EOC entry ;;
    if e then ret 128
    else
      sec <- CLUSTER_TO_SECTOR entry ;;
      fat_read_block sec
  else fat_read_block (u32 (addr + 1)).

(** ** Mount related functions *)

Definition determine_fat_type (inf : FAT_Info) : option fat_type :=
  if BPB_BytesPerSec inf =? 0 then None
  else
    let RootDirSectors :=
      u16 (promoted (BPB_RootEntCnt inf * 32 + (BPB_BytesPerSec inf - 1))
           / BPB_BytesPerSec inf) in
    let DataSec :=
      u32 (BPB_TotSec inf
           - u32 (u32 (BPB_RsvdSecCnt inf + u32 (BPB_NumFATs inf * BPB_FATSz inf))
                  + RootDirSectors)) in
    if BPB_SecPerClus inf =? 0 then None
    else
      let CountofClusters := DataSec / BPB_SecPerClus inf in
      if CountofClusters <? 4085 then Some FAT12
      else if CountofClusters <? 65525 then Some FAT16
      else Some FAT32.

(** The for loop of [is_a_power_of_2] with [k] iterations left. *)
Fixpoint is_a_power_of_2_from (k : nat) (test value : Z) : Z :=
  match k with
  | O => 1
  | S k' =>
      if test =? value then 0
      else is_a_power_of_2_from k' (u32 (Z.shiftl test 1)) value
  end.

Definition is_a_power_of_2 (value : Z) : Z :=
  if value =? 0 then 0 else is_a_power_of_2_from 32 1 value.

(** [parse_bootsector]: the error flags and the fields stored in [info],
    whose [type] it leaves alone.  A buffer shorter than a sector is read
    out of bounds. *)
Definition parse_bootsector (buffer : list Z) (info0 : FAT_Info)
  : option (Z * FAT_Info) :=
  if Z.of_nat (length buffer) <? 512 then None
  else
    let b i := byte_at buffer i in
    let BytesPerSec := u16 (Z.shiftl (b 12%nat) 8 + b 11%nat) in
    let SecPerClus := u8 (b 13%nat) in
    let RsvdSecCnt := u16 (b 14%nat + Z.shiftl (b 15%nat) 8) in
    let NumFATs := u8 (b 16%nat) in
    let RootEntCnt := u16 (b 17%nat + Z.shiftl (b 18%nat) 8) in
    let TotSec16 := u32 (b 19%nat + Z.shiftl (b 20%nat) 8) in
    let TotSec :=
      if TotSec16 =? 0 then u32 (le32 (b 32%nat) (b 33%nat) (b 34%nat) (b 35%nat))
      else TotSec16 in
    let Media := u8 (b 21%nat) in
    let FATSz16 := u32 (b 22%nat + Z.shiftl (b 23%nat) 8) in
    let FATSz :=
      if FATSz16 =? 0 then u32 (le32 (b 36%nat) (b 37%nat) (b 38%nat) (b 39%nat))
      else FATSz16 in
    let RootClus := u32 (le32 (b 44%nat) (b 45%nat) (b 46%nat) (b 47%nat)) in
    let ret :=
      (if is_a_power_of_2 BytesPerSec =? 0 then 0 else 1)
      + (if is_a_power_of_2 SecPerClus =? 0 then 0 else 2)
      + (if 32 * 1024 <? promoted (BytesPerSec * SecPerClus) then 4 else 0)
      + (if 2 <? NumFATs then 8 else 0)
      + (if TotSec =? 0 then 16 else 0)
      + (if FATSz =? 0 then 32 else 0)
      + (if negb (b 510%nat =? 0x55) || negb (b 511%nat =? 0xaa) then 64 else 0) in
    Some (u8 ret,
          {| type := type info0;
             BPB_BytesPerSec := BytesPerSec; BPB_SecPerClus := SecPerClus;
             BPB_RsvdSecCnt := RsvdSecCnt; BPB_NumFATs := NumFATs;
             BPB_RootEntCnt := RootEntCnt; BPB_TotSec := TotSec;
             BPB_Media := Media; BPB_FATSz := FATSz;
             BPB_RootClus := RootClus |}).

Definition set_type (t : fat_type) (inf : FAT_Info) : FAT_Info :=
  {| type := t;
     BPB_BytesPerSec := BPB_BytesPerSec inf; BPB_SecPerClus := BPB_SecPerClus inf;
     BPB_RsvdSecCnt := BPB_RsvdSecCnt inf; BPB_NumFATs := BPB_NumFATs inf;
     BPB_RootEntCnt := BPB_RootEntCnt inf; BPB_TotSec := BPB_TotSec inf;
     BPB_Media := BPB_Media inf; BPB_FATSz := BPB_FATSz inf;
     BPB_RootClus := BPB_RootClus inf |}.

Definition lift_option {A} (o : option A) : M A :=
  match o with Some a => ret a | None => undefined end.

(** The inner loop of [fat_sync_fats]: [fat_number] is a [uint8_t], so
    with 255 FATs the bound is never exceeded. *)
Definition sync_mirrors (inf : FAT_Info) (fat_block : Z) : M unit :=
  if BPB_NumFATs inf =? 255 then out_of_fuel
  else
    fold_right
      (fun fat_number k =>
         _ <- dev_write
                (u32 (u32 (fat_block + BPB_RsvdSecCnt inf)
                      + u32 ((fat_number - 1) * BPB_FATSz inf))) ;;
         k)
      (ret tt) (seqZ 2 (BPB_NumFATs inf - 1)).

Fixpoint fat_sync_fats_from (k : nat) (fat_block : Z) : M unit :=
  match k with
  | O => ret tt
  | S k' =>
      inf <- mounted_info ;;
      _ <- dev_read (u32 (fat_block + BPB_RsvdSecCnt inf)) ;;
      sync_mirrors inf fat_block ;;;
      fat_sync_fats_from k' (fat_block + 1)
  end.

Definition fat_sync_fats : M unit :=
  fat_flush ;;;
  inf <- mounted_info ;;
  fat_sync_fats_from (Z.to_nat (BPB_FATSz inf)) 0.

Definition set_file_ptr (p : bool) (d : file_desc) : file_desc :=
  {| offset := offset d; file_ptr := p; flags := flags d |}.

(** The invalidation loop of [fat_umount_device]; its index is a
    [uint8_t]. *)
Definition invalidate_fds : M unit :=
  if 256 <=? FAT_FD_POOL_SIZE then out_of_fuel
  else
    fold_right
      (fun i k => d <- get_fd i ;; set_fd i (set_file_ptr false d) ;;; k)
      (ret tt) (seqZ 0 FAT_FD_POOL_SIZE).

Definition fat_umount_device : M unit :=
  fat_flush ;;;
  fat_sync_fats ;;;
  invalidate_fds ;;;
  modify (fun s =>
    with_mounted {| dev := false; info := info (mounted s);
                    first_data_sector := first_data_sector (mounted s) |} s).

Definition fat_mount_device : M Z :=
  was <- gets (fun s => dev (mounted s)) ;;
  (if was then fat_umount_device else ret tt) ;;;
  _ <- dev_read 0 ;;
  buffer <- gets sector_buffer ;;
  m <- gets mounted ;;
  '(r, inf) <- lift_option (parse_bootsector buffer (info m)) ;;
  modify (with_mounted {| dev := dev m; info := inf;
                          first_data_sector := first_data_sector m |}) ;;;
  if negb (r =? 0) then ret 1
  else
    t <- lift_option (determine_fat_type inf) ;;
    let inf := set_type t inf in
    modify (with_mounted {| dev := dev m; info := inf;
                            first_data_sector := first_data_sector m |}) ;;;
    match t with
    | FAT12 => ret 2
    | _ =>
        RootDirSectors <-
          udiv (promoted (BPB_RootEntCnt inf * 32 + (BPB_BytesPerSec inf - 1)))
               (BPB_BytesPerSec inf) ;;
        modify (with_mounted
                  {| dev := true; info := inf;
                     first_data_sector :=
                       u32 (u32 (BPB_RsvdSecCnt inf
                                 + u32 (BPB_NumFATs inf * BPB_FATSz inf))
                            + RootDirSectors) |}) ;;;
        ret 0
    end.

(** ** Directory entry functions *)

(** The out-parameters of [lookup], [add_directory_entry_to_current] and
    [get_dir_entry]: the entry, its sector and its offset. *)
Definition dir_loc : Type := dir_entry * Z * Z.

(** One sector of [lookup]: the slots from [i] on, [k] slots left.  The
    answer is 0 with the entry found, 1 at the end-of-directory mark, or 3
    when the sector is exhausted (the for loop falls through). *)
Fixpoint lookup_sector (k : nat) (nm : list Z) (i : Z) (out : dir_loc)
  : M (Z * dir_loc) :=
  match k with
  | O => ret (3, out)
  | S k' =>
      slot <- sb_get_range i 11 ;;
      if bool_decide (take 11 nm = slot) then
        raw <- sb_get_range i 32 ;;
        addr <- gets sector_buffer_addr ;;
        ret (0, (dir_entry_of_bytes raw, addr, i))
      else
        b <- sb_get i ;;
        if b =? 0x00 then ret (1, out)
        else lookup_sector k' nm (i + 32) out
  end.

Fixpoint lookup (fuel : nat) (nm : list Z) (out : dir_loc) : M (Z * dir_loc) :=
  match fuel with
  | O => out_of_fuel
  | S fuel' =>
      '(r, out) <- lookup_sector 16 nm 0 out ;;
      if r =? 3 then
        nb <- fat_next_block ;;
        if negb (nb =? 0) then ret (2, out) else lookup fuel' nm out
      else ret (r, out)
  end.

(** One sector of [add_directory_entry_to_current]: [Some i] is the free
    slot taken. *)
Fixpoint add_entry_sector (k : nat) (i : Z) (dir_ent : dir_entry)
  : M (option Z) :=
  match k with
  | O => ret None
  | S k' =>
      b <- sb_get i ;;
      if (b =? 0x00) || (b =? 0xE5) then
        sb_set_range i (bytes_of_dir_entry dir_ent) ;;;
        modify (with_sector_buffer_dirty 1) ;;;
        ret (Some i)
      else add_entry_sector k' (i + 32) dir_ent
  end.

Fixpoint add_directory_entry_to_current (fuel : nat) (out : dir_loc)
  : M (Z * dir_loc) :=
  match fuel with
  | O => out_of_fuel
  | S fuel' =>
      let '(dir_ent, _, _) := out in
      slot <- add_entry_sector 16 0 dir_ent ;;
      match slot with
      | Some i =>
          addr <- gets sector_buffer_addr ;;
          ret (1, (dir_ent, addr, i))
      | None =>
          r <- fat_next_block ;;
          if negb (r =? 0) then
            if r =? 128 then
              addr <- gets sector_buffer_addr ;;
              c <- SECTOR_TO_CLUSTER addr ;;
              free_cluster <- get_free_cluster fuel' c ;;
              addr <- gets sector_buffer_addr ;;
              c <- SECTOR_TO_CLUSTER addr ;;
              write_fat_entry c free_cluster ;;;
              write_fat_entry free_cluster EOC ;;;
              sec <- CLUSTER_TO_SECTOR free_cluster ;;
              st <- fat_read_block sec ;;
              if st =? 0 then
                sb_set_range 0 (bytes_of_dir_entry dir_ent) ;;;
                modify (with_sector_buffer_dirty 1) ;;;
                addr <- gets sector_buffer_addr ;;
                ret (1, (dir_ent, addr, 0))
              else ret (0, out)
            else ret (0, out)
          else add_directory_entry_to_current fuel' out
      end
  end.

(** [memset( dir_ent, 0, ... )], the name of the path part, attribute 0 *)
Definition fresh_dir_entry (nm : list Z) : dir_entry :=
  {| DIR_Name := take 11 nm; DIR_Attr := 0; DIR_NTRes := 0; CrtTimeTenth := 0;
     DIR_CrtTime := 0; DIR_CrtDate := 0; DIR_LstAccessDate := 0;
     DIR_FstClusHI := 0; DIR_WrtTime := 0; DIR_WrtDate := 0;
     DIR_FstClusLO := 0; DIR_FileSize := 0 |}.

(** The for loop of [get_dir_entry]; [k] bounds the tests of its
    condition, which calls [pr_get_next_path_part] before it looks at
    [i]. *)
Fixpoint get_dir_entry_loop (k : nat) (fuel : nat) (create : bool)
    (first_root_dir_sec_num : Z) (i : Z) (pr : PathResolver)
    (file_sector_num : Z) (out : dir_loc) : M (Z * dir_loc) :=
  match k with
  | O => out_of_fuel
  | S k' =>
      '(r, pr) <- pr_get_next_path_part pr ;;
      if (r =? 0) && (i <? 255) then
        _ <- fat_read_block file_sector_num ;;
        '(l, out) <- lookup fuel (pr_name pr) out ;;
        if negb (l =? 0) then
          is_file <- pr_is_current_path_part_a_file pr ;;
          if is_file && create then
            let '(_, sec, off) := out in
            add_directory_entry_to_current fuel
              (fresh_dir_entry (pr_name pr), sec, off)
          else ret (0, out)
        else
          let '(dir_ent, _, _) := out in
          file_sector_num <- CLUSTER_TO_SECTOR
            (u32 (DIR_FstClusLO dir_ent + Z.shiftl (DIR_FstClusHI dir_ent) 16)) ;;
          get_dir_entry_loop k' fuel create first_root_dir_sec_num
            (u8 (i + 1)) pr file_sector_num out
      else
        if file_sector_num =? first_root_dir_sec_num then ret (0, out)
        else ret (1, out)
  end.

Definition get_dir_entry (fuel : nat) (path : list Z) (out : dir_loc)
    (create : bool) : M (Z * dir_loc) :=
  let pr := {| pr_start := pr_start pr_reset; pr_end := pr_end pr_reset;
               pr_path := Some path; pr_name := pr_name pr_reset |} in
  inf <- mounted_info ;;
  first_root_dir_sec_num <-
    match type inf with
    | FAT16 => ret (u32 (BPB_RsvdSecCnt inf
                         + u32 (BPB_NumFATs inf * BPB_FATSz inf)))
    | FAT32 => CLUSTER_TO_SECTOR (BPB_RootClus inf)
    | FAT12 => ret 0
    end ;;
  get_dir_entry_loop 256 fuel create first_root_dir_sec_num 0 pr
    first_root_dir_sec_num out.

Definition set_dir_entry (d : dir_entry) (f : file) : file :=
  {| cluster := cluster f; dir_entry_sector := dir_entry_sector f;
     dir_entry_offset := dir_entry_offset f; f_dir_entry := d;
     nth_cluster := nth_cluster f; n := n f |}.

Definition set_hint (first nth k : Z) (f : file) : file :=
  {| cluster := first; dir_entry_sector := dir_entry_sector f;
     dir_entry_offset := dir_entry_offset f; f_dir_entry := f_dir_entry f;
     nth_cluster := nth; n := k |}.

Definition update_dir_entry (fd : Z) : M unit :=
  f <- get_file fd ;;
  st <- fat_read_block (dir_entry_sector f) ;;
  if negb (st =? 0) then ret tt
  else
    sb_set_range (dir_entry_offset f) (bytes_of_dir_entry (f_dir_entry f)) ;;;
    modify (with_sector_buffer_dirty 1).

Definition remove_dir_entry (dir_entry_sector dir_entry_offset : Z) : M unit :=
  st <- fat_read_block dir_entry_sector ;;
  if negb (st =? 0) then ret tt
  else
    sb_set_range dir_entry_offset (replicate 32 0) ;;;
    sb_set dir_entry_offset 0xE5 ;;;
    modify (with_sector_buffer_dirty 1).

(** The while loop of [add_cluster_to_file] over its locals [cluster]
    and [n], here [cur] and [nxt]. *)
Fixpoint add_cluster_walk (fuel : nat) (fd : Z) (cur nxt : Z) : M Z :=
  match fuel with
  | O => out_of_fuel
  | S fuel' =>
      e <- is_EOC nxt ;;
      if e then ret cur
      else
        let cur := nxt in
        nxt <- read_fat_entry cur ;;
        f <- get_file fd ;;
        set_file fd (set_hint (cluster f) (nth_cluster f) (u32 (n f + 1)) f) ;;;
        add_cluster_walk fuel' fd cur nxt
  end.

Definition add_cluster_to_file (fuel : nat) (fd : Z) : M unit :=
  free_cluster <- get_free_cluster fuel 0 ;;
  f <- get_file fd ;;
  let cur := nth_cluster f in
  let nxt := cur in
  if cluster f =? 0 then
    write_fat_entry free_cluster EOC ;;;
    set_file fd (set_dir_entry
                   (set_first_cluster (f_dir_entry f)
                      (u16 (Z.shiftr free_cluster 16)) (u16 free_cluster)) f) ;;;
    update_dir_entry fd ;;;
    f <- get_file fd ;;
    set_file fd (set_hint free_cluster free_cluster 0 f)
  else
    cur <- add_cluster_walk fuel fd cur nxt ;;
    write_fat_entry cur free_cluster ;;;
    write_fat_entry free_cluster EOC ;;;
    f <- get_file fd ;;
    set_file fd (set_hint (cluster f) free_cluster (n f) f).

(** ** FAT implementation functions *)

Definition load_next_sector_of_file (fuel : nat) (fd clusters clus_offset : Z)
    (write : bool) : M Z :=
  f <- get_file fd ;;
  c <- (if clusters =? n f then ret (nth_cluster f)
        else if clusters =? u32 (n f + 1) then read_fat_entry (nth_cluster f)
        else find_nth_cluster (cluster f) clusters) ;;
  e <- is_EOC c ;;
  c <- (if (c =? 0) || e then
          if write then
            add_cluster_to_file fuel fd ;;;
            f <- get_file fd ;;
            ret (Some (nth_cluster f))
          else ret None
        else
          f <- get_file fd ;;
          set_file fd (set_hint (cluster f) c clusters f) ;;;
          ret (Some c)) ;;
  match c with
  | None => ret 1
  | Some c =>
      sec <- CLUSTER_TO_SECTOR c ;;
      fat_read_block (u32 (sec + clus_offset))
  end.

(** ** Helper functions *)

Definition _is_file (dir_ent : dir_entry) : bool :=
  if negb (Z.land (DIR_Attr dir_ent) ATTR_DIRECTORY =? 0) then false
  else if negb (Z.land (DIR_Attr dir_ent) ATTR_VOLUME_ID =? 0) then false
  else true.

(** The loop of [make_readable_entry] from [i] on; [dirent->name] is
    written at [j]. *)
Fixpoint make_readable_entry_from (k : nat) (dir : dir_entry) (i j : Z)
    (nm : list Z) : M (list Z) :=
  match k with
  | O => ret nm
  | S k' =>
      let c := byte_at (DIR_Name dir) (Z.to_nat i) in
      '(j, nm) <-
        (if c =? 0x20 then ret (j, nm)
         else if j <? Z.of_nat (length nm)
              then ret (u8 (j + 1), <[Z.to_nat j := c]> nm)
              else undefined) ;;
      '(j, nm) <-
        (if i =? 7 then
           if j <? Z.of_nat (length nm)
           then ret (u8 (j + 1), <[Z.to_nat j := 46]> nm)
           else undefined
         else ret (j, nm)) ;;
      make_readable_entry_from k' dir (i + 1) j nm
  end.

Definition make_readable_entry (dir : dir_entry) (dirent : cfs_dirent)
  : M cfs_dirent :=
  nm <- make_readable_entry_from 11 dir 0 0 (name dirent) ;;
  ret {| name := nm; size := size dirent |}.

(** ** CFS frontend functions *)

(** Signed arithmetic in [cfs_offset_t]; overflow is undefined. *)
Definition offset_add (a b : Z) : M Z :=
  if in_sint cfs_offset_width (a + b) then ret (a + b) else undefined.

(** [offset / d] and [offset % d] for a [uint16_t] or [uint8_t] divisor:
    unsigned when both operands end up in the 16-bit [unsigned int],
    signed and truncating otherwise. *)
Definition offset_div (a d : Z) : M Z :=
  if d =? 0 then undefined
  else match int_width, cfs_offset_width with
       | W16, W16 => ret (u16 a / d)
       | _, _ => ret (Z.quot a d)
       end.

Definition offset_rem (a d : Z) : M Z :=
  if d =? 0 then undefined
  else match int_width, cfs_offset_width with
       | W16, W16 => ret (u16 a mod d)
       | _, _ => ret (Z.rem a d)
       end.

Definition set_offset (o : Z) (d : file_desc) : file_desc :=
  {| offset := o; file_ptr := file_ptr d; flags := flags d |}.

(** The copy loop of [cfs_read] inside one sector: from [i] while
    [i < 512 && j < len]; [k] bounds its iterations. *)
Fixpoint cfs_read_copy (k : nat) (fd : Z) (i j len : Z) (buffer : list Z)
  : M (Z * list Z) :=
  match k with
  | O => ret (j, buffer)
  | S k' =>
      if (i <? 512) && (j <? len) then
        b <- sb_get i ;;
        if j <? Z.of_nat (length buffer) then
          d <- get_fd fd ;;
          o <- offset_add (offset d) 1 ;;
          set_fd fd (set_offset o d) ;;;
          cfs_read_copy k' fd (u16 (i + 1)) (u16 (j + 1)) len
            (<[Z.to_nat j := b]> buffer)
        else undefined
      else ret (j, buffer)
  end.

(** The while loop of [cfs_read]. *)
Fixpoint cfs_read_loop (fuel : nat) (fd : Z) (offset clusters clus_offset : Z)
    (j len : Z) (buffer : list Z) : M (Z * list Z) :=
  match fuel with
  | O => out_of_fuel
  | S fuel' =>
      st <- load_next_sector_of_file fuel' fd clusters clus_offset false ;;
      if st =? 0 then
        '(j, buffer) <- cfs_read_copy 512 fd (u16 offset) j len buffer ;;
        inf <- mounted_info ;;
        r <- umod (clus_offset + 1) (BPB_SecPerClus inf) ;;
        let '(clus_offset, clusters) :=
          if r =? 0 then (0, u32 (clusters + 1))
          else (u8 (clus_offset + 1), clusters) in
        if len <=? j then ret (j, buffer)
        else cfs_read_loop fuel' fd offset clusters clus_offset j len buffer
      else ret (j, buffer)
  end.

(** [cfs_read]: the answer and the caller's buffer afterwards.  The three
    initialisers run before the range check of [fd]. *)
Definition cfs_read (fuel : nat) (fd : Z) (buf : list Z) (len : Z)
  : M (Z * list Z) :=
  d <- get_fd fd ;;
  inf <- mounted_info ;;
  r <- offset_rem (offset d) (BPB_BytesPerSec inf) ;;
  let offset0 := u32 r in
  q <- offset_div (offset d) (BPB_BytesPerSec inf) ;;
  q1 <- offset_div q (BPB_SecPerClus inf) ;;
  let clusters := u32 q1 in
  r1 <- offset_rem q (BPB_SecPerClus inf) ;;
  let clus_offset := u8 r1 in
  if (fd <? 0) || (FAT_FD_POOL_SIZE <=? fd) then ret (-1, buf)
  else
    f <- get_file fd ;;
    if cluster f =? 0 then ret (0, buf)
    else if Z.land (flags d) CFS_READ =? 0 then ret (-1, buf)
    else
      '(j, buf) <- cfs_read_loop fuel fd offset0 clusters clus_offset 0 len buf ;;
      ret (sint int_width j, buf).

(** [cfs_seek]; the comparison with [DIR_FileSize] is made in [uint32_t],
    the operand the offset is converted to. *)
Definition cfs_seek (fd offset_ whence : Z) : M Z :=
  if (fd <? 0) || (FAT_FD_POOL_SIZE <=? fd) then ret (-1)
  else
    d <- get_fd fd ;;
    f <- get_file fd ;;
    let file_size := DIR_FileSize (f_dir_entry f) in
    o <- (if whence =? CFS_SEEK_SET then ret offset_
          else if whence =? CFS_SEEK_CUR then offset_add (offset d) offset_
          else if whence =? CFS_SEEK_END then
            ret (sint cfs_offset_width (u32 (u32 (file_size - 1) + offset_)))
          else ret (offset d)) ;;
    let o := if file_size <=? u32 o
             then sint cfs_offset_width (u32 (file_size - 1)) else o in
    let o := if o <? 0 then 0 else o in
    set_fd fd (set_offset o d) ;;;
    ret o.

(** The locals [dir_ent], [sector] and [offset] of [cfs_remove] and
    [cfs_opendir] start out uninitialised; they are only read after
    [get_dir_entry] has filled them. *)
Definition uninitialised : dir_loc := (fresh_dir_entry [], 0, 0).

Definition cfs_remove (fuel : nat) (name_ : list Z) : M Z :=
  '(found, (dir_ent, sector, offset_)) <-
     get_dir_entry fuel name_ uninitialised false ;;
  if found =? 0 then ret (-1)
  else if _is_file dir_ent then
    reset_cluster_chain fuel dir_ent ;;;
    remove_dir_entry sector offset_ ;;;
    fat_flush ;;;
    ret 0
  else ret (-1).

(** [cfs_readdir]: [dirp] holds the directory's entry as [cfs_opendir]
    copied it; the answer comes with the caller's [dirent] afterwards. *)
Definition cfs_readdir (dirp : dir_entry) (dirent : cfs_dirent)
  : M (Z * cfs_dirent) :=
  let dir_ent := dirp in
  k <- gets cfs_readdir_offset ;;
  inf <- mounted_info ;;
  let dir_off := u32 (promoted (k * 32)) in
  q <- udiv dir_off (BPB_SecPerClus inf) ;;
  let cluster_num := u16 q in
  c <- find_nth_cluster (first_cluster_of dir_ent) cluster_num ;;
  if c =? 0 then ret (-1, dirent)
  else
    sec <- CLUSTER_TO_SECTOR c ;;
    q <- udiv dir_off (BPB_BytesPerSec inf) ;;
    st <- fat_read_block (u32 (sec + q)) ;;
    if negb (st =? 0) then ret (-1, dirent)
    else
      r <- umod dir_off (BPB_BytesPerSec inf) ;;
      raw <- sb_get_range r 32 ;;
      let entry := dir_entry_of_bytes raw in
      dirent <- make_readable_entry entry dirent ;;
      let dirent :=
        {| name := name dirent;
           size := sint cfs_offset_width (DIR_FileSize entry) |} in
      k <- gets cfs_readdir_offset ;;
      modify (with_cfs_readdir_offset (u16 (k + 1))) ;;;
      ret (0, dirent).

End Fat.

(** ** A RAM disk and a small volume to run the driver on *)

(** Modelled from the spec: the block device driver is missing; its
    contract is a read and a write of one 512-byte sector that answer OK or
    an I/O error.  The RAM disk holds the sectors present in a finite map;
    any other address is an I/O error that changes neither the caller's
    buffer nor the disk. *)
#[export] Instance ramdisk : BlockDevice (gmap Z (list Z)) := {|
  diskio_read_block d addr buf :=
    match d !! addr with
    | Some b => (DISKIO_SUCCESS, b, d)
    | None => (1, buf, d)
    end;
  diskio_write_block d addr buf :=
    match d !! addr with
    | Some _ => (DISKIO_SUCCESS, <[addr := buf]> d)
    | None => (1, d)
    end
|}.

(** The AVR target: 16-bit [int], [cfs_offset_t] a 32-bit [long]. *)
Definition avr : Platform :=
  {| int_width := W16; cfs_offset_width := W32; FAT_FD_POOL_SIZE := 2 |}.

(** A 32-bit host with the default [cfs_offset_t], [int]. *)
Definition host32 : Platform :=
  {| int_width := W32; cfs_offset_width := W32; FAT_FD_POOL_SIZE := 2 |}.

Definition c_str (s : string) : list Z :=
  map (fun a => Z.of_N (N_of_ascii a)) (list_ascii_of_string s).

(** A sector from its leading bytes, zero-filled to 512. *)
Definition sector_of (l : list Z) : list Z := take 512 (l ++ replicate 512 0).

Definition fat32_sector (entries : list Z) : list Z :=
  sector_of (concat (map bytes32 entries)).

Definition dir_sector (entries : list dir_entry) : list Z :=
  sector_of (concat (map bytes_of_dir_entry entries)).

Definition plain_file (nm : string) (first_cluster sz : Z) : dir_entry :=
  set_first_cluster
    {| DIR_Name := c_str nm; DIR_Attr := ATTR_ARCHIVE; DIR_NTRes := 0;
       CrtTimeTenth := 0; DIR_CrtTime := 0; DIR_CrtDate := 0;
       DIR_LstAccessDate := 0; DIR_FstClusHI := 0; DIR_WrtTime := 0;
       DIR_WrtDate := 0; DIR_FstClusLO := 0; DIR_FileSize := sz |}
    (Z.shiftr first_cluster 16) (u16 first_cluster).

(** The geometry of the demo volume: 512-byte sectors, 8 per cluster, 32
    reserved sectors, two FATs of 256 sectors, so that cluster 2 starts at
    sector 544. *)
Definition demo_info : FAT_Info :=
  {| type := FAT32; BPB_BytesPerSec := 512; BPB_SecPerClus := 8;
     BPB_RsvdSecCnt := 32; BPB_NumFATs := 2; BPB_RootEntCnt := 0;
     BPB_TotSec := 0x200000; BPB_Media := 0xF8; BPB_FATSz := 256;
     BPB_RootClus := 2 |}.

Definition demo_mounted : file_system :=
  {| dev := true; info := demo_info; first_data_sector := 544 |}.

(** Its first FAT sector: the root directory occupies clusters 2 to 6,
    FOO.TXT clusters 7 and 8; entry 9 carries a non-zero reserved
    nibble. *)
Definition demo_fat : list Z :=
  fat32_sector
    [0x0FFFFFF8; 0x0FFFFFFF; 3; 4; 5; 6; 0x0FFFFFFF; 8; 0x0FFFFFFF;
     0xF0000000].

Definition demo_root : list Z :=
  dir_sector [plain_file "FOO     TXT" 7 5000; plain_file "BAR     TXT" 0 0].

(** First sector of cluster 6, the last cluster of the root directory. *)
Definition demo_root_tail : list Z :=
  dir_sector [plain_file "ZIG     TXT" 0 0; plain_file "ZAG     TXT" 0 0].

Definition demo_disk : gmap Z (list Z) :=
  <[32 := demo_fat]> (<[544 := demo_root]> (<[576 := demo_root_tail]> ∅)).

Definition closed_file : file :=
  {| cluster := 0; dir_entry_sector := 0; dir_entry_offset := 0;
     f_dir_entry := fresh_dir_entry []; nth_cluster := 0; n := 0 |}.

Definition closed_fd : file_desc :=
  {| offset := 0; file_ptr := false; flags := 0 |}.

Definition demo_state : State (gmap Z (list Z)) :=
  {| device := demo_disk; io_log := []; sector_buffer := replicate 512 0;
     sector_buffer_addr := 0; sector_buffer_dirty := 0;
     cfs_readdir_offset := 0; mounted := demo_mounted;
     fat_file_pool := [closed_file; closed_file];
     fat_fd_pool := [closed_fd; closed_fd] |}.

(** Number of write calls in a device log. *)
Definition is_write (e : io_event) : bool :=
  match e with IoWrite _ _ => true | IoRead _ => false end.

Definition device_writes (l : list io_event) : nat :=
  length (List.filter is_write l).

(** ** The sector cache over the RAM disk, and cluster chains *)

(** What sector [a] of the device holds once the buffer is written back:
    the buffer itself when it is dirty at [a], the stored sector
    otherwise; nothing when the device has no such sector. *)
Definition view (s : State (gmap Z (list Z))) (a : Z) : option (list Z) :=
  match device s !! a with
  | None => None
  | Some b =>
      if bool_decide (sector_buffer_dirty s <> 0 /\ sector_buffer_addr s = a)
      then Some (sector_buffer s) else Some b
  end.

(** A clean buffer with a non-zero address holds what the device has
    there. *)
Definition coherent (s : State (gmap Z (list Z))) : Prop :=
  sector_buffer_dirty s = 0 -> sector_buffer_addr s <> 0 ->
  forall b, device s !! sector_buffer_addr s = Some b -> sector_buffer s = b.

(** [s1] shows the same volume as [s], through a coherent cache. *)
Definition stable (s s1 : State (gmap Z (list Z))) : Prop :=
  coherent s1 /\ mounted s1 = mounted s /\ forall a, view s1 a = view s a.

Definition entry_size (t : fat_type) : Z :=
  match t with FAT16 => 2 | FAT32 => 4 | FAT12 => 0 end.

(** Where [calc_fat_block] finds the entry of cluster [c]. *)
Definition fat_sector (inf : FAT_Info) (c : Z) : Z :=
  u32 (BPB_RsvdSecCnt inf + u32 (c * entry_size (type inf)) / BPB_BytesPerSec inf).

Definition fat_offset (inf : FAT_Info) (c : Z) : Z :=
  u32 (c * entry_size (type inf)) mod BPB_BytesPerSec inf.

(** The entry at [off] of a FAT sector, as [read_fat_entry] decodes it. *)
Definition decode_entry (t : fat_type) (b : list Z) (off : Z) : option Z :=
  match t with
  | FAT16 =>
      match b !! Z.to_nat (off + 1), b !! Z.to_nat off with
      | Some b1, Some b0 => Some (u32 (Z.shiftl b1 8 + b0))
      | _, _ => None
      end
  | FAT32 =>
      match b !! Z.to_nat (off + 3), b !! Z.to_nat (off + 2),
            b !! Z.to_nat (off + 1), b !! Z.to_nat off with
      | Some b3, Some b2, Some b1, Some b0 =>
          Some (Z.land (u32 (le32 b0 b1 b2 b3)) 0x0FFFFFFF)
      | _, _, _, _ => None
      end
  | FAT12 => Some EOC
  end.

(** The sector after [write_fat_entry] has stored [v] at [off]. *)
Definition put_entry (t : fat_type) (off v : Z) (b : list Z) : list Z :=
  match t with
  | FAT16 =>
      <[Z.to_nat off := u8 v]> (<[Z.to_nat (off + 1) := u8 (Z.shiftr v 8)]> b)
  | FAT32 =>
      <[Z.to_nat off := u8 v]>
        (<[Z.to_nat (off + 1) := u8 (Z.shiftr v 8)]>
           (<[Z.to_nat (off + 2) := u8 (Z.shiftr v 16)]>
              (<[Z.to_nat (off + 3) := u8 (Z.shiftr v 24)]> b)))
  | FAT12 => b
  end.

(** The FAT entry of cluster [c] on the volume. *)
Definition fat_entry (s : State (gmap Z (list Z))) (c : Z) : option Z :=
  match view s (fat_sector (info (mounted s)) c) with
  | Some b => decode_entry (type (info (mounted s))) b (fat_offset (info (mounted s)) c)
  | None => None
  end.

(** Cluster numbers that can belong to a file. *)
Definition data_cluster (t : fat_type) (c : Z) : Prop :=
  2 <= c /\ c < match t with FAT16 => 0xFFF8 | FAT32 => 0x0FFFFFF8 | FAT12 => 0 end.

(** [chain s c cs e]: following the FAT from cluster [c] visits exactly
    the clusters [cs], and the entry of the last one holds the
    end-of-chain value [e]. *)
Inductive chain (s : State (gmap Z (list Z))) : Z -> list Z -> Z -> Prop :=
| chain_last c e :
    data_cluster (type (info (mounted s))) c ->
    fat_entry s c = Some e ->
    eoc_value (type (info (mounted s))) e = true -> 0 <= e < 2^28 ->
    chain s c [c] e
| chain_next c c' cs e :
    data_cluster (type (info (mounted s))) c ->
    fat_entry s c = Some c' ->
    chain s c' cs e ->
    chain s c (c :: cs) e.

(** The geometry the FAT lemmas rely on: 512-byte sectors and a reserved
    area that fits its 16-bit field. *)
Definition vol_ok (inf : FAT_Info) : Prop :=
  BPB_BytesPerSec inf = 512 /\ 0 <= BPB_RsvdSecCnt inf < 2^16.

(** A computation that leaves the globals alone, and one that leaves the
    volume as it is seen through the cache. *)
Definition pure_m {D A} (m : M D A) : Prop :=
  forall s a s1, m s = Ok a s1 -> s1 = s.

Definition preserving {A} (m : M (gmap Z (list Z)) A) : Prop :=
  forall s a s1, coherent s -> m s = Ok a s1 -> stable s s1.

(** The mathematical property [is_a_power_of_2] is meant to test. *)
Definition is_pow2 (v : Z) : Prop := exists k, 0 <= k /\ v = 2^k.

(** The state an outcome ends in; [d] when there is none. *)
Definition state_of {S A} (o : outcome S A) (d : S) : S :=
  match o with Ok _ s => s | _ => d end.

(** *** Boot sectors *)

(** A FAT32-style boot sector: 16-bit total and FAT sizes zero, the 32-bit
    fields set, no fixed root directory, signature in place. *)
Definition boot_sector (bps spc rsvd nfats totsec fatsz rootclus : Z) : list Z :=
  list_inserts 11
    (bytes16 bps ++ [spc] ++ bytes16 rsvd ++ [nfats; 0; 0; 0; 0; 0xF8; 0; 0])
    (list_inserts 32 (bytes32 totsec ++ bytes32 fatsz)
       (list_inserts 44 (bytes32 rootclus)
          (list_inserts 510 [0x55; 0xaa] (replicate 512 0)))).

Definition no_info : FAT_Info :=
  {| type := FAT12; BPB_BytesPerSec := 0; BPB_SecPerClus := 0;
     BPB_RsvdSecCnt := 0; BPB_NumFATs := 0; BPB_RootEntCnt := 0;
     BPB_TotSec := 0; BPB_Media := 0; BPB_FATSz := 0; BPB_RootClus := 0 |}.

(** The driver before any mount, in front of a device whose sector 0 is
    [boot]. *)
Definition unmounted_state (boot : list Z) : State (gmap Z (list Z)) :=
  {| device := <[0 := boot]> ∅; io_log := []; sector_buffer := replicate 512 0;
     sector_buffer_addr := 0; sector_buffer_dirty := 0;
     cfs_readdir_offset := 0;
     mounted := {| dev := false; info := no_info; first_data_sector := 0 |};
     fat_file_pool := [closed_file; closed_file];
     fat_fd_pool := [closed_fd; closed_fd] |}.

(** The geometry of the demo volume, and the same with 1024-byte
    sectors. *)
Definition boot_512 : list Z := boot_sector 512 8 32 2 0x200000 256 2.
Definition boot_1024 : list Z := boot_sector 1024 1 32 2 0x200000 0x4000 2.

(** *** File handles *)

(** Slot 0 open on the ten-byte file FOO.TXT, cursor at 4. *)
Definition seek_file : file :=
  {| cluster := 7; dir_entry_sector := 544; dir_entry_offset := 0;
     f_dir_entry := plain_file "FOO     TXT" 7 10; nth_cluster := 7; n := 0 |}.

Definition seek_state : State (gmap Z (list Z)) :=
  with_fat_fd_pool
    [{| offset := 4; file_ptr := true; flags := CFS_READ |}; closed_fd]
    (with_fat_file_pool [seek_file; closed_file] demo_state).

Definition write_only_fd : file_desc :=
  {| offset := 0; file_ptr := true; flags := CFS_WRITE |}.

(** Slot 0 open for writing only, on an empty file and on FOO.TXT. *)
Definition empty_write_only_state : State (gmap Z (list Z)) :=
  with_fat_fd_pool [write_only_fd; closed_fd] demo_state.

Definition write_only_state : State (gmap Z (list Z)) :=
  with_fat_fd_pool [write_only_fd; closed_fd]
    (with_fat_file_pool [seek_file; closed_file] demo_state).

(** *** Directory reading and removal on the demo volume *)

Definition root_dirp : dir_entry := plain_file "" 2 0.

Definition blank_dirent : cfs_dirent := {| name := replicate 13 0; size := 0 |}.

Definition foo_path : list Z := c_str "foo.txt".

Definition foo_entry : dir_entry := plain_file "FOO     TXT" 7 5000.

(** The demo volume after the path FOO.TXT is resolved, after its chain
    is reset, and after [cfs_remove]. *)
Definition resolved_state : State (gmap Z (list Z)) :=
  state_of (get_dir_entry 10 foo_path uninitialised false demo_state)
    demo_state.

Definition reset_state : State (gmap Z (list Z)) :=
  state_of (reset_cluster_chain 10 foo_entry demo_state) demo_state.

Definition removed_state : State (gmap Z (list Z)) :=
  state_of (cfs_remove 10 foo_path demo_state) demo_state.

(** The driver after mounting the two boot sectors on the AVR. *)
Definition mounted_512 : State (gmap Z (list Z)) :=
  state_of (fat_mount_device (platform := avr) (unmounted_state boot_512))
    (unmounted_state boot_512).

Definition mounted_1024 : State (gmap Z (list Z)) :=
  state_of (fat_mount_device (platform := avr) (unmounted_state boot_1024))
    (unmounted_state boot_1024).


(** ** The rest of the driver: open, close, write, directories, helpers *)

Section FatMore.

Context {D : Type} {blockdev : BlockDevice D} {platform : Platform}.

Local Abbreviation State := (State D).
Local Abbreviation M := (M D).

Definition _cfs_flags_ok (flags_ : Z) (dir_ent : dir_entry) : bool :=
  if (negb (Z.land flags_ CFS_APPEND =? 0) || negb (Z.land flags_ CFS_WRITE =? 0))
     && negb (Z.land (DIR_Attr dir_ent) ATTR_READ_ONLY =? 0)
  then false else true.

(** The search of [cfs_open] for a free descriptor from index [i] on,
    [k] slots left; its index is a [uint8_t], so a pool of 256 or more
    slots without a free one among the first 256 is searched for ever. *)
Fixpoint find_free_fd (k : nat) (i : Z) : M Z :=
  match k with
  | O => if 256 <=? FAT_FD_POOL_SIZE then out_of_fuel else ret (-1)
  | S k' =>
      if i <? FAT_FD_POOL_SIZE then
        d <- get_fd i ;;
        if file_ptr d then find_free_fd k' (i + 1) else ret i
      else ret (-1)
  end.

Definition set_dir_entry_loc (sec off : Z) (f : file) : file :=
  {| cluster := cluster f; dir_entry_sector := sec; dir_entry_offset := off;
     f_dir_entry := f_dir_entry f; nth_cluster := nth_cluster f; n := n f |}.

(** [cfs_open]: [get_dir_entry] writes the sector and offset of the entry
    straight into the slot of the file pool, also when the open fails
    afterwards. *)
Definition cfs_open (fuel : nat) (name_ : list Z) (flags_ : Z) : M Z :=
  fd <- find_free_fd 256 0 ;;
  if fd =? -1 then ret fd
  else
    f <- get_file fd ;;
    let create :=
      negb (Z.land flags_ CFS_WRITE =? 0) || negb (Z.land flags_ CFS_APPEND =? 0) in
    '(found, (dir_ent, sec, off)) <-
       get_dir_entry fuel name_
         (fresh_dir_entry [], dir_entry_sector f, dir_entry_offset f) create ;;
    f <- get_file fd ;;
    set_file fd (set_dir_entry_loc sec off f) ;;;
    if found =? 0 then ret (-1)
    else if negb (_is_file dir_ent) then ret (-1)
    else if negb (_cfs_flags_ok flags_ dir_ent) then ret (-1)
    else
      f <- get_file fd ;;
      let first := u32 (DIR_FstClusLO dir_ent + Z.shiftl (DIR_FstClusHI dir_ent) 16) in
      set_file fd (set_dir_entry dir_ent (set_hint first first 0 f)) ;;;
      set_fd fd {| offset := 0; file_ptr := true; flags := u8 flags_ |} ;;;
      (if negb (Z.land flags_ CFS_APPEND =? 0)
       then _ <- cfs_seek fd CFS_SEEK_END 0 ;; ret tt
       else ret tt) ;;;
      ret fd.

Definition cfs_close (fd : Z) : M unit :=
  if (fd <? 0) || (FAT_FD_POOL_SIZE <=? fd) then ret tt
  else
    d <- get_fd fd ;;
    if negb (file_ptr d) then ret tt
    else
      update_dir_entry fd ;;;
      fat_flush ;;;
      d <- get_fd fd ;;
      set_fd fd (set_file_ptr false d).

Definition set_file_size (sz : Z) (d : dir_entry) : dir_entry :=
  {| DIR_Name := DIR_Name d; DIR_Attr := DIR_Attr d; DIR_NTRes := DIR_NTRes d;
     CrtTimeTenth := CrtTimeTenth d; DIR_CrtTime := DIR_CrtTime d;
     DIR_CrtDate := DIR_CrtDate d; DIR_LstAccessDate := DIR_LstAccessDate d;
     DIR_FstClusHI := DIR_FstClusHI d;
     DIR_WrtTime := DIR_WrtTime d; DIR_WrtDate := DIR_WrtDate d;
     DIR_FstClusLO := DIR_FstClusLO d;
     DIR_FileSize := sz |}.

(** The copy loop of [cfs_write] inside one sector: from [i] while
    [i < BPB_BytesPerSec && j < len]; [k] bounds its iterations. *)
Fixpoint cfs_write_copy (k : nat) (fd : Z) (i j len : Z) (buffer : list Z)
  : M Z :=
  match k with
  | O => ret j
  | S k' =>
      inf <- mounted_info ;;
      if (i <? BPB_BytesPerSec inf) && (j <? len) then
        if (0 <=? j) && (j <? Z.of_nat (length buffer)) then
          sb_set i (nth (Z.to_nat j) buffer 0) ;;;
          d <- get_fd fd ;;
          f <- get_file fd ;;
          let sz := DIR_FileSize (f_dir_entry f) in
          (if u32 (offset d) =? sz
           then set_file fd (set_dir_entry (set_file_size (u32 (sz + 1)) (f_dir_entry f)) f)
           else if sz <? u32 (offset d)
           then set_file fd (set_dir_entry (set_file_size (u32 (offset d)) (f_dir_entry f)) f)
           else ret tt) ;;;
          o <- offset_add (offset d) 1 ;;
          set_fd fd (set_offset o d) ;;;
          cfs_write_copy k' fd (u16 (i + 1)) (u16 (j + 1)) len buffer
        else undefined
      else ret j
  end.

(** The while loop of [cfs_write]. *)
Fixpoint cfs_write_loop (fuel : nat) (fd : Z) (offset_ clusters clus_offset : Z)
    (j len : Z) (buffer : list Z) : M Z :=
  match fuel with
  | O => out_of_fuel
  | S fuel' =>
      st <- load_next_sector_of_file fuel' fd clusters clus_offset true ;;
      if st =? 0 then
        j <- cfs_write_copy (Z.to_nat 65536) fd offset_ j len buffer ;;
        modify (with_sector_buffer_dirty 1) ;;;
        inf <- mounted_info ;;
        r <- umod (clus_offset + 1) (BPB_SecPerClus inf) ;;
        let clus_offset := u8 r in
        let clusters := if clus_offset =? 0 then u32 (clusters + 1) else clusters in
        if len <=? j then ret j
        else cfs_write_loop fuel' fd 0 clusters clus_offset j len buffer
      else ret j
  end.

(** [cfs_write]; it tests neither [fd] nor the flags. *)
Definition cfs_write (fuel : nat) (fd : Z) (buf : list Z) (len : Z) : M Z :=
  d <- get_fd fd ;;
  inf <- mounted_info ;;
  r <- umod (u32 (offset d)) (BPB_BytesPerSec inf) ;;
  let offset0 := u16 r in
  q <- offset_div (offset d) (BPB_BytesPerSec inf) ;;
  q1 <- offset_div q (BPB_SecPerClus inf) ;;
  let clusters := u32 q1 in
  r1 <- offset_rem q (BPB_SecPerClus inf) ;;
  let clus_offset := u8 r1 in
  j <- cfs_write_loop fuel fd offset0 clusters clus_offset 0 len buf ;;
  ret (sint int_width j).

(** [cfs_opendir]: the answer and the caller's [dirp] afterwards. *)
Definition cfs_opendir (fuel : nat) (dirp : dir_entry) (name_ : list Z)
  : M (Z * dir_entry) :=
  '(dir_cluster, (dir_ent, _, _)) <- get_dir_entry fuel name_ uninitialised false ;;
  modify (with_cfs_readdir_offset 0) ;;;
  if dir_cluster =? 0 then ret (-1, dirp) else ret (0, dir_ent).

Definition cfs_closedir (dirp : dir_entry) : M unit :=
  modify (with_cfs_readdir_offset 0).

Definition fat_file_size (fd : Z) : M Z :=
  if (fd <? 0) || (FAT_FD_POOL_SIZE <=? fd) then ret 0
  else
    d <- get_fd fd ;;
    if negb (file_ptr d) then ret 0
    else
      f <- get_file fd ;;
      ret (DIR_FileSize (f_dir_entry f)).

Definition get_fat_info : M FAT_Info := mounted_info.

(** The while loop of [round_down_to_power_of_2]; after 32 shifts [po2]
    is 0 and the loop is over. *)
Fixpoint round_down_from (k : nat) (po2 value : Z) : Z :=
  match k with
  | O => po2
  | S k' =>
      if value <? po2 then round_down_from k' (Z.shiftr po2 1) value
      else po2
  end.

Definition round_down_to_power_of_2 (value : Z) : Z :=
  round_down_from 33 (u32 (Z.shiftl 1 31)) value.

End FatMore.

(** ** What a call leaves alone *)

(** [keeps R m]: every completed run of [m] relates the state before to
    the state after by [R]. *)
Definition keeps {D A} (R : State D -> State D -> Prop) (m : M D A) : Prop :=
  forall s a s1, m s = Ok a s1 -> R s s1.

(** Only the device, its log and the sector buffer may differ: the volume
    descriptor, both pools and the directory cursor are the same. *)
Definition cache_only {D} (s s1 : State D) : Prop :=
  mounted s1 = mounted s /\ fat_file_pool s1 = fat_file_pool s /\
  fat_fd_pool s1 = fat_fd_pool s /\
  cfs_readdir_offset s1 = cfs_readdir_offset s.

(** The buffer is said to hold the same sector. *)
Definition same_address {D} (s s1 : State D) : Prop :=
  sector_buffer_addr s1 = sector_buffer_addr s.

(** ** A small volume with both FATs on the device *)

(** One reserved sector, two FATs of two sectors each (sectors 1-2 and
    3-4), the second one out of date. *)
Definition mirror_info : FAT_Info :=
  {| type := FAT16; BPB_BytesPerSec := 512; BPB_SecPerClus := 1;
     BPB_RsvdSecCnt := 1; BPB_NumFATs := 2; BPB_RootEntCnt := 16;
     BPB_TotSec := 0x2000; BPB_Media := 0xF8; BPB_FATSz := 2;
     BPB_RootClus := 0 |}.

Definition mirror_disk : gmap Z (list Z) :=
  <[1 := sector_of [0xF8; 0xFF; 0xFF; 0xFF; 3; 0; 0xFF; 0xFF]]>
    (<[2 := sector_of [7; 7]]>
       (<[3 := sector_of []]> (<[4 := sector_of []]> ∅))).

Definition mirror_state : State (gmap Z (list Z)) :=
  with_sector_buffer_addr 9
    (with_mounted {| dev := true; info := mirror_info; first_data_sector := 6 |}
       (with_device mirror_disk demo_state)).

(** The demo volume with the sector behind the root directory's first
    one, that first sector in the buffer; and the driver looking at the
    last sector of the directory's last cluster. *)
Definition demo_state_545 : State (gmap Z (list Z)) :=
  with_sector_buffer demo_root
    (with_sector_buffer_addr 544
       (with_device (<[545 := demo_root_tail]> demo_disk) demo_state)).

Definition demo_state_583 : State (gmap Z (list Z)) :=
  with_sector_buffer_addr 583 demo_state.

(** The driver before a mount, its buffer still labelled with the sector
    it held last. *)
Definition stale_state : State (gmap Z (list Z)) :=
  with_sector_buffer_addr 544 (unmounted_state boot_512).

Definition mounted_stale : State (gmap Z (list Z)) :=
  state_of (fat_mount_device (platform := avr) stale_state) stale_state.

(** The name field and the first byte of slot [j] of the sector in the
    buffer, as [lookup] compares them. *)
Definition slot_name {D} (s : State D) (j : nat) : list Z :=
  take 11 (drop (32 * j) (sector_buffer s)).

Definition slot_mark {D} (s : State D) (j : nat) : option Z :=
  sector_buffer s !! (32 * j)%nat.

(** The device, its log, the buffer's address and dirty flag, the
    directory cursor and the volume descriptor are the same. *)
Definition copy_only {D} (s s1 : State D) : Prop :=
  device s1 = device s /\ io_log s1 = io_log s /\
  sector_buffer_addr s1 = sector_buffer_addr s /\
  sector_buffer_dirty s1 = sector_buffer_dirty s /\
  cfs_readdir_offset s1 = cfs_readdir_offset s /\
  mounted s1 = mounted s.

(** Slot 0 open for reading on FOO.TXT as in [seek_state], with the
    first sector of the file's cluster 7 on the device. *)
Definition write_state : State (gmap Z (list Z)) :=
  with_device (<[584 := sector_of (c_str "0123456789")]> demo_disk) seek_state.

(** The same with the second sector of cluster 7 on the device and the
    cursor two bytes before the end of the first. *)
Definition read_state : State (gmap Z (list Z)) :=
  with_fat_fd_pool
    [{| offset := 510; file_ptr := true; flags := CFS_READ |}; closed_fd]
    (with_device (<[585 := replicate 510 1 ++ [2; 3]]> (device write_state))
       write_state).

(** The size the copy loop of [cfs_write] leaves in the record once [m]
    bytes are copied from cursor [o] into a file of recorded size [sz]:
    each round compares the cursor with the size before it moves the
    cursor on. *)
Definition written_size (sz o m : Z) : Z :=
  if m =? 0 then sz
  else if o <=? sz then Z.max sz (o + m) else o + m - 1.

(** *** A two-gigabyte volume whose root directory has grown *)

(** 512-byte sectors, 8 per cluster, 32 reserved sectors and two FATs of
    4096 sectors, one entry for each of the 524288 clusters: cluster 2
    starts at sector 8224 and cluster 261121 at sector 2097176. *)
Definition big_info : FAT_Info :=
  {| type := FAT32; BPB_BytesPerSec := 512; BPB_SecPerClus := 8;
     BPB_RsvdSecCnt := 32; BPB_NumFATs := 2; BPB_RootEntCnt := 0;
     BPB_TotSec := 0x400000; BPB_Media := 0xF8; BPB_FATSz := 4096;
     BPB_RootClus := 2 |}.

Definition big_mounted : file_system :=
  {| dev := true; info := big_info; first_data_sector := 8224 |}.

(** The root directory occupies cluster 2 and, since it outgrew it,
    cluster 261121; FOO.TXT has clusters 7 and 8. *)
Definition big_fat : list Z :=
  fat32_sector [0x0FFFFFF8; 0x0FFFFFFF; 261121; 0; 0; 0; 0; 8; 0x0FFFFFFF].

(** The FAT sector of clusters 261120 to 261247. *)
Definition big_fat_2072 : list Z := fat32_sector [0; 0x0FFFFFFF].

Definition old_entry : dir_entry := plain_file "OLD     LOG" 0 0.

(** A directory sector with all sixteen slots taken, and the last sector
    of the root directory, with FOO.TXT in its last slot. *)
Definition full_dir_sector : list Z := dir_sector (replicate 16 old_entry).

Definition big_root_last : list Z :=
  dir_sector (replicate 15 old_entry ++ [foo_entry]).

Definition put_sectors (addrs : list Z) (b : list Z) (d : gmap Z (list Z))
  : gmap Z (list Z) :=
  foldr (fun a => <[a := b]>) d addrs.

Definition big_disk : gmap Z (list Z) :=
  <[32 := big_fat]>
    (<[2072 := big_fat_2072]>
       (put_sectors (seqZ 8224 8) full_dir_sector
          (put_sectors (seqZ 2097176 7) full_dir_sector
             (<[2097183 := big_root_last]> ∅)))).

Definition big_state : State (gmap Z (list Z)) :=
  with_mounted big_mounted (with_device big_disk demo_state).

(** The volume after the path FOO.TXT is resolved, after the file's chain
    is reset, and after [cfs_remove]. *)
Definition big_resolved : State (gmap Z (list Z)) :=
  state_of (get_dir_entry 20 foo_path uninitialised false big_state) big_state.

Definition big_reset : State (gmap Z (list Z)) :=
  state_of (reset_cluster_chain 20 foo_entry big_resolved) big_resolved.

Definition big_removed : State (gmap Z (list Z)) :=
  state_of (cfs_remove 20 foo_path big_state) big_state.

(** The directory entry at byte [off] of sector [sec], as the volume
    shows it. *)
Definition entry_at (s : State (gmap Z (list Z))) (sec : Z) (off : nat)
  : option dir_entry :=
  (fun b => dir_entry_of_bytes (take 32 (drop off b))) <$> view s sec.

(** * Properties *)

(** ** Running the monad *)

Section Monad.

Context {D : Type}.

Lemma bind_Ok_inv {A B} (m : M D A) (k : A -> M D B) s b s2 :
  bind m k s = Ok b s2 -> exists a s1, m s = Ok a s1 /\ k a s1 = Ok b s2.
Proof.
  unfold bind. destruct (m s) as [a s1| |]; [eauto|discriminate|discriminate].
Qed.

Lemma bind_Ok {A B} (m : M D A) (k : A -> M D B) s a s1 :
  m s = Ok a s1 -> bind m k s = k a s1.
Proof. unfold bind. now intros ->. Qed.

Lemma bind_gets {A B} (f : State D -> A) (k : A -> M D B) s :
  bind (gets f) k s = k (f s) s.
Proof. reflexivity. Qed.

Lemma modify_inv (f : State D -> State D) s s1 :
  modify f s = Ok tt s1 -> s1 = f s.
Proof. now intros [= <-]. Qed.

End Monad.

Ltac monad_inv H :=
  lazymatch type of H with
  | bind _ _ _ = Ok _ _ =>
      let a := fresh "a" in
      let s := fresh "s" in
      let H1 := fresh "H" in
      apply bind_Ok_inv in H; destruct H as (a & s & H1 & H);
      monad_inv H1; monad_inv H
  | ret _ _ = Ok _ _ => unfold ret in H; injection H as ? ?; subst
  | gets _ _ = Ok _ _ => unfold gets in H; injection H as ? ?; subst
  | modify _ _ = Ok _ _ => unfold modify in H; injection H as ? ?; subst
  | undefined _ = Ok _ _ => discriminate H
  | out_of_fuel _ = Ok _ _ => discriminate H
  | udiv _ ?b _ = Ok _ _ =>
      unfold udiv in H; destruct (Z.eqb_spec b 0); [discriminate H|monad_inv H]
  | umod _ ?b _ = Ok _ _ =>
      unfold umod in H; destruct (Z.eqb_spec b 0); [discriminate H|monad_inv H]
  | _ => idtac
  end.

(** ** The sector buffer *)

Section SectorBuffer.

Context {D : Type} {blockdev : BlockDevice D}.

Implicit Types s : State D.

Lemma fat_flush_clean s :
  sector_buffer_dirty s = 0 -> fat_flush s = Ok tt s.
Proof.
  intros Hd. unfold fat_flush, bind, gets. now rewrite Hd.
Qed.

Lemma fat_flush_dirty s :
  sector_buffer_dirty s <> 0 ->
  fat_flush s =
    Ok tt (with_sector_buffer_dirty 0
             (with_io_log
                (io_log s ++ [IoWrite (sector_buffer_addr s) (sector_buffer s)])
                (with_device
                   (snd (diskio_write_block (device s) (sector_buffer_addr s)
                           (sector_buffer s))) s))).
Proof.
  intros Hd. unfold fat_flush, bind, gets, dev_write, modify.
  destruct (Z.eqb_spec (sector_buffer_dirty s) 0) as [E|_]; [contradiction|].
  now destruct (diskio_write_block _ _ _).
Qed.

Lemma device_writes_snoc l a b :
  device_writes (l ++ [IoWrite a b]) = S (device_writes l).
Proof.
  unfold device_writes. rewrite List.filter_app, length_app. simpl. lia.
Qed.

(** C8: two calls of [fat_flush] in a row write the device exactly once
    when the buffer starts dirty (the first call writes the buffer at its
    address and clears the flag, the second writes nothing) and not at all
    when it starts clean. *)
Theorem fat_flush_twice_writes_once s :
  exists s1,
    fat_flush s = Ok tt s1 /\ fat_flush s1 = Ok tt s1 /\
    (fat_flush ;;; fat_flush) s = Ok tt s1 /\
    sector_buffer_dirty s1 = 0 /\
    if sector_buffer_dirty s =? 0
    then s1 = s
    else io_log s1 = io_log s ++ [IoWrite (sector_buffer_addr s) (sector_buffer s)]
         /\ device_writes (io_log s1) = S (device_writes (io_log s)).
Proof.
  destruct (Z.eqb_spec (sector_buffer_dirty s) 0) as [E|N].
  - exists s. rewrite (fat_flush_clean s E).
    unfold bind. rewrite (fat_flush_clean s E).
    repeat split; auto using fat_flush_clean.
  - eexists. rewrite (fat_flush_dirty s N).
    split; [reflexivity|]. split; [now apply fat_flush_clean|].
    split.
    + unfold bind. rewrite (fat_flush_dirty s N). now apply fat_flush_clean.
    + split; [reflexivity|]. split; [reflexivity|].
      simpl. apply device_writes_snoc.
Qed.

(** C9: [fat_flush] clears the dirty flag and returns normally whatever
    status the device write answers: the state it leaves does not depend
    on the status, nothing is handed to the caller, and a further flush
    finds nothing to write, so a failed write-back is never retried. *)
Theorem fat_flush_swallows_write_status s :
  exists s',
    fat_flush s = Ok tt s' /\ sector_buffer_dirty s' = 0 /\
    fat_flush s' = Ok tt s' /\
    sector_buffer s' = sector_buffer s /\
    sector_buffer_addr s' = sector_buffer_addr s /\
    forall st d',
      sector_buffer_dirty s <> 0 ->
      diskio_write_block (device s) (sector_buffer_addr s) (sector_buffer s)
        = (st, d') ->
      s' = with_sector_buffer_dirty 0
             (with_io_log
                (io_log s ++ [IoWrite (sector_buffer_addr s) (sector_buffer s)])
                (with_device d' s)).
Proof.
  destruct (Z.eq_dec (sector_buffer_dirty s) 0) as [E|N].
  - exists s. rewrite (fat_flush_clean s E). repeat split; auto.
    intros; contradiction.
  - eexists. rewrite (fat_flush_dirty s N).
    split; [reflexivity|]. split; [reflexivity|].
    split; [now apply fat_flush_clean|].
    split; [reflexivity|]. split; [reflexivity|].
    intros st d' _ Hw. now rewrite Hw.
Qed.

End SectorBuffer.

(** A write-back to a sector the RAM disk does not have: the data is
    gone, the flag is clear, the disk is as before. *)
Example fat_flush_lost_write :
  let s := with_sector_buffer_dirty 1
             (with_sector_buffer_addr 99 demo_state) in
  exists s', fat_flush s = Ok tt s' /\
    device s' = device s /\ sector_buffer_dirty s' = 0 /\
    io_log s' = [IoWrite 99 (replicate 512 0)].
Proof.
  eexists. split; [vm_compute; reflexivity|]. repeat split.
Qed.

(** ** Mounting *)

Lemma is_a_power_of_2_from_spec (k : nat) : forall j v,
  0 <= j -> j + Z.of_nat k <= 32 ->
  is_a_power_of_2_from k (2^j) v = 0 <-> exists i, j <= i < j + Z.of_nat k /\ v = 2^i.
Proof.
  induction k as [|k IH]; intros j v Hj Hk; simpl.
  - split; [discriminate|]. intros (i & Hi & _). lia.
  - destruct (Z.eqb_spec (2^j) v) as [E|N].
    + split; [|reflexivity]. intros _. exists j. split; [lia|now rewrite E].
    + assert (E2 : u32 (Z.shiftl (2^j) 1) = 2^(j+1) \/ k = 0%nat).
      { destruct k; [now right|left].
        rewrite Z.shiftl_mul_pow2 by lia. rewrite <- Z.pow_add_r by lia.
        unfold u32. apply Z.mod_small. split; [apply Z.pow_nonneg; lia|].
        apply Z.pow_lt_mono_r; lia. }
      destruct E2 as [->| ->].
      * rewrite IH by lia. split; intros (i & Hi & Ei).
        -- exists i. split; [lia|assumption].
        -- exists i. split; [|assumption].
           assert (i <> j) by (intros ->; congruence). lia.
      * simpl. split; [discriminate|]. intros (i & Hi & Ei).
        assert (i = j) by lia. subst. congruence.
Qed.

Lemma is_a_power_of_2_spec v :
  is_a_power_of_2 v = 0 <-> v = 0 \/ exists i, 0 <= i < 32 /\ v = 2^i.
Proof.
  unfold is_a_power_of_2. destruct (Z.eqb_spec v 0) as [->|N].
  - split; auto.
  - change 1 with (2^0) at 1. rewrite (is_a_power_of_2_from_spec 32 0 v) by lia.
    split; [intros (i & Hi & E); right; exists i; split; [lia|assumption]|].
    intros [?|(i & Hi & E)]; [contradiction|]. exists i. split; [lia|assumption].
Qed.

Lemma is_a_power_of_2_pow2 v :
  v <> 0 -> is_a_power_of_2 v = 0 -> is_pow2 v.
Proof.
  intros N H. apply is_a_power_of_2_spec in H as [?|(i & Hi & E)]; [contradiction|].
  exists i. split; [lia|assumption].
Qed.


Section Mount.
Context {D : Type} {blockdev : BlockDevice D} {platform : Platform}.
Implicit Types s : State D.

Lemma parse_bootsector_type buffer i0 f inf :
  parse_bootsector buffer i0 = Some (f, inf) ->
  forall i1, parse_bootsector buffer i1 = Some (f, set_type (type i1) inf).
Proof.
  unfold parse_bootsector. destruct (_ <? 512); [discriminate|].
  intros [= <- <-] i1. reflexivity.
Qed.

Lemma set_type_same inf : set_type (type inf) inf = inf.
Proof. now destruct inf. Qed.

Lemma parse_bootsector_flags buffer i0 f inf :
  parse_bootsector buffer i0 = Some (f, inf) ->
  let bps := BPB_BytesPerSec inf in
  let spc := BPB_SecPerClus inf in
  0 <= bps < 2^16 /\ 0 <= spc < 2^8 /\
  (f = 0 ->
     is_a_power_of_2 bps = 0 /\ is_a_power_of_2 spc = 0 /\
     promoted (bps * spc) <= 32768 /\ BPB_NumFATs inf <= 2) /\
  (is_a_power_of_2 bps <> 0 \/ is_a_power_of_2 spc <> 0 \/
   32768 < promoted (bps * spc) \/ 2 < BPB_NumFATs inf -> f <> 0).
Proof.
  unfold parse_bootsector. destruct (_ <? 512); [discriminate|].
  intros [= <- <-]. cbn [BPB_BytesPerSec BPB_SecPerClus BPB_NumFATs].
  set (bps := u16 _). set (spc := u8 (byte_at buffer 13)).
  set (nf := u8 (byte_at buffer 16)).
  assert (Hb : 0 <= bps < 2^16) by (apply Z.mod_pos_bound; lia).
  assert (Hs : 0 <= spc < 2^8) by (apply Z.mod_pos_bound; lia).
  split; [exact Hb|]. split; [exact Hs|].
  match goal with |- context [u8 ?x] =>
    match x with context [is_a_power_of_2] => set (sum := x) end end.
  assert (Hsum : u8 sum = sum).
  { unfold u8. apply Z.mod_small. subst sum.
    repeat match goal with |- context [if ?c then _ else _] => destruct c end; lia. }
  rewrite Hsum. subst sum.
  destruct (Z.eqb_spec (is_a_power_of_2 bps) 0);
  destruct (Z.eqb_spec (is_a_power_of_2 spc) 0);
  destruct (Z.ltb_spec (32 * 1024) (promoted (bps * spc)));
  destruct (Z.ltb_spec 2 nf);
  (split; [intros Hf|intros Hv Hf];
   repeat match type of Hf with context [if ?c then _ else _] => destruct c end;
   try lia; try (repeat split; lia)).
Qed.

Lemma promoted_fits x :
  0 <= x < 2 ^ bits int_width -> promoted x = x.
Proof.
  unfold promoted. destruct int_width; [|reflexivity].
  intros Hx. apply Z.mod_small. exact Hx.
Qed.

(** C2, amended: when [fat_mount_device] accepts a boot sector (answer 0),
    the fields it parsed from the sector satisfy: [BPB_BytesPerSec] and
    [BPB_SecPerClus] are powers of two (the sector size need not be 512),
    [BPB_NumFATs] is at most 2, and the bytes per cluster are at most
    32768 whenever their product fits the [int] the check multiplies in.
    A boot sector with a non-zero sector size or cluster size that is not
    a power of two, with more than two FATs, or with more than 32768
    bytes per cluster (the product fitting) is answered with 1. *)
Theorem fat_mount_device_checks_bpb s r s' :
  fat_mount_device s = Ok r s' ->
  let bpb := info (mounted s') in
  let bps := BPB_BytesPerSec bpb in
  let spc := BPB_SecPerClus bpb in
  (exists flags, parse_bootsector (sector_buffer s') bpb = Some (flags, bpb)) /\
  (r = 0 ->
     is_pow2 bps /\ is_pow2 spc /\ BPB_NumFATs bpb <= 2 /\
     (bps * spc < 2 ^ bits int_width -> bps * spc <= 32768)) /\
  ((bps <> 0 /\ ~ is_pow2 bps) \/ (spc <> 0 /\ ~ is_pow2 spc) \/
   2 < BPB_NumFATs bpb \/ 32768 < bps * spc < 2 ^ bits int_width -> r = 1).
Proof.
  intros Hm. unfold fat_mount_device in Hm.
  apply bind_Ok_inv in Hm as (was & sa & Hwas & Hm). injection Hwas as <- <-.
  apply bind_Ok_inv in Hm as ([] & s0 & _ & Hm).
  apply bind_Ok_inv in Hm as (st & s1 & Hrd & Hm).
  apply bind_Ok_inv in Hm as (buffer & sb & Hb & Hm). injection Hb as <- <-.
  apply bind_Ok_inv in Hm as (m & sm & Hmm & Hm). injection Hmm as <- <-.
  apply bind_Ok_inv in Hm as ([f inf] & sp & Hp & Hm).
  unfold lift_option in Hp.
  destruct (parse_bootsector _ _) as [[f' inf']|] eqn:Hp'; [|discriminate Hp].
  injection Hp as -> -> <-. rename Hp' into Hp.
  apply bind_Ok_inv in Hm as ([] & s2 & Hs2 & Hm). injection Hs2 as <-.
  set (buf := sector_buffer s1) in *.
  pose proof (parse_bootsector_flags _ _ _ _ Hp) as (Hb & Hs & Hok & Hbad).
  assert (Hviol : forall bps spc nf,
    bps = BPB_BytesPerSec inf -> spc = BPB_SecPerClus inf -> nf = BPB_NumFATs inf ->
    (bps <> 0 /\ ~ is_pow2 bps) \/ (spc <> 0 /\ ~ is_pow2 spc) \/
    2 < nf \/ 32768 < bps * spc < 2 ^ bits int_width -> f <> 0).
  { intros bps spc nf -> -> -> V. apply Hbad.
    destruct V as [[N V]|[[N V]|[V|V]]].
    - left. intros E. apply V. now apply is_a_power_of_2_pow2.
    - right; left. intros E. apply V. now apply is_a_power_of_2_pow2.
    - right; right; right. exact V.
    - right; right; left. rewrite promoted_fits; [lia|]. split; [nia|lia]. }
  destruct (Z.eqb_spec f 0) as [->|Nf]; cbn [negb] in Hm.
  - apply bind_Ok_inv in Hm as (t & s3 & Hdt & Hm). unfold lift_option in Hdt.
    destruct (determine_fat_type inf) as [t'|] eqn:Ht; [|discriminate Hdt].
    injection Hdt as -> <-.
    apply bind_Ok_inv in Hm as ([] & s4 & Hs4 & Hm). injection Hs4 as <-.
    assert (Hnz : BPB_BytesPerSec inf <> 0 /\ BPB_SecPerClus inf <> 0).
    { unfold determine_fat_type in Ht.
      destruct (Z.eqb_spec (BPB_BytesPerSec inf) 0); [discriminate|].
      destruct (Z.eqb_spec (BPB_SecPerClus inf) 0); [discriminate|]. auto. }
    destruct (Hok eq_refl) as (P1 & P2 & P3 & P4).
    assert (Hinfo : info (mounted s') = set_type t inf
                    /\ sector_buffer s' = buf).
    { destruct t; monad_inv Hm; auto. }
    destruct Hinfo as (Hi & Hsb). cbv zeta. rewrite Hi, Hsb.
    split; [|split].
    + exists 0. apply (parse_bootsector_type _ _ _ _ Hp (set_type t inf)).
    + intros _. cbn [set_type BPB_BytesPerSec BPB_SecPerClus BPB_NumFATs].
      repeat split.
      * now apply is_a_power_of_2_pow2.
      * now apply is_a_power_of_2_pow2.
      * exact P4.
      * intros Hfit. rewrite promoted_fits in P3; [exact P3|]. split; [nia|lia].
    + intros V. exfalso.
      refine (Hviol _ _ _ eq_refl eq_refl eq_refl _ eq_refl).
      exact V.
  - injection Hm as <- <-. cbn.
    split; [|split].
    + exists f. rewrite <- (set_type_same inf) at 2.
      apply (parse_bootsector_type _ _ _ _ Hp inf).
    + discriminate.
    + reflexivity.
Qed.

End Mount.

(** C2 as stated fails: on the AVR the driver mounts a volume whose boot
    sector announces 1024-byte sectors. *)
Lemma fat_mount_device_accepts_1024 :
  ~ (forall s s' : State (gmap Z (list Z)),
       fat_mount_device (platform := avr) s = Ok 0 s' ->
       let bpb := info (mounted s') in
       BPB_BytesPerSec bpb = 512 /\ is_pow2 (BPB_SecPerClus bpb) /\
       BPB_NumFATs bpb <= 2 /\
       BPB_BytesPerSec bpb * BPB_SecPerClus bpb <= 32768).
Proof.
  intros H.
  assert (E : fat_mount_device (platform := avr) (unmounted_state boot_1024)
              = Ok 0 mounted_1024) by (vm_compute; reflexivity).
  apply H in E. destruct E as (E & _). vm_compute in E. discriminate E.
Qed.

Lemma fat_mount_device_checks_bpb_witness :
  fat_mount_device (platform := avr) (unmounted_state boot_512) = Ok 0 mounted_512 /\
  let bpb := info (mounted mounted_512) in
  let bps := BPB_BytesPerSec bpb in
  let spc := BPB_SecPerClus bpb in
  (exists flags, parse_bootsector (platform := avr) (sector_buffer mounted_512) bpb
                 = Some (flags, bpb)) /\
  (0 = 0 ->
     is_pow2 bps /\ is_pow2 spc /\ BPB_NumFATs bpb <= 2 /\
     (bps * spc < 2 ^ bits (int_width (Platform := avr)) -> bps * spc <= 32768)) /\
  ((bps <> 0 /\ ~ is_pow2 bps) \/ (spc <> 0 /\ ~ is_pow2 spc) \/
   2 < BPB_NumFATs bpb \/
   32768 < bps * spc < 2 ^ bits (int_width (Platform := avr)) -> 0 = 1).
Proof.
  split; [vm_compute; reflexivity|].
  apply (fat_mount_device_checks_bpb (platform := avr)
           (unmounted_state boot_512) 0 mounted_512).
  vm_compute. reflexivity.
Defined.
(** ** Path names *)

(** C7: the tokens foo.txt, FOO.TXT and Foo.TxT are all canonicalized
    with answer 0 to the same eleven bytes, FOO, five spaces, TXT: lower
    case is folded to upper case, and after the dot at index 3 the write
    index continues at 8, the start of the extension. *)
Theorem make_valid_name_foo_txt (D : Type) (s : State D) :
  _make_valid_name (c_str "foo.txt"%string) 0 7 s = Ok (0, c_str "FOO     TXT"%string) s /\
  _make_valid_name (c_str "FOO.TXT"%string) 0 7 s = Ok (0, c_str "FOO     TXT"%string) s /\
  _make_valid_name (c_str "Foo.TxT"%string) 0 7 s = Ok (0, c_str "FOO     TXT"%string) s /\
  length (c_str "FOO     TXT"%string) = 11%nat /\
  (forall p, In p [c_str "foo.txt"%string; c_str "FOO.TXT"%string; c_str "Foo.TxT"%string] ->
     _make_valid_name_from 4 p 0 3 3 false (c_str "FOO        "%string) s
     = _make_valid_name_from 3 p 0 4 8 true (c_str "FOO        "%string) s).
Proof.
  repeat split; try reflexivity.
  intros p [<-|[<-|[<-|[]]]]; reflexivity.
Qed.

(** ** FAT32 entries *)

(** C1: on the demo volume the entry of cluster 9 holds 0xF0000000.
    Writing 5 to it leaves the bytes 05 00 00 00: the reserved upper four
    bits of the word on disk are overwritten, not kept.  Writing
    0xF0000009 to the entry of cluster 7 stores the upper four bits of the
    value as well. *)
Theorem write_fat_entry_overwrites_reserved_bits :
  let old := take 4 (drop 36 demo_fat) in
  old = [0; 0; 0; 0xF0] /\
  (exists s', write_fat_entry 9 5 demo_state = Ok tt s' /\
     take 4 (drop 36 (sector_buffer s')) = [5; 0; 0; 0] /\
     sector_buffer_dirty s' = 1) /\
  (exists s', write_fat_entry 7 0xF0000009 demo_state = Ok tt s' /\
     take 4 (drop 28 (sector_buffer s')) = [9; 0; 0; 0xF0]).
Proof.
  split; [reflexivity|]. split; eexists; (split; [vm_compute; reflexivity|]).
  - split; reflexivity.
  - reflexivity.
Qed.

(** ** Seeking *)

(** C3: on a ten-byte file a seek to a negative position does not end at
    0: [SET] to -3, [CUR] by -7 from 4 and [END] by -12 all leave the
    cursor at 9, the last byte, because the comparison with the file size
    is unsigned and runs before the test for a negative offset. *)
Theorem cfs_seek_negative_target :
  (exists s', cfs_seek (platform:=avr) 0 (-3) CFS_SEEK_SET seek_state = Ok 9 s') /\
  (exists s', cfs_seek (platform:=host32) 0 (-3) CFS_SEEK_SET seek_state = Ok 9 s') /\
  (exists s', cfs_seek (platform:=avr) 0 (-7) CFS_SEEK_CUR seek_state = Ok 9 s') /\
  (exists s', cfs_seek (platform:=avr) 0 (-12) CFS_SEEK_END seek_state = Ok 9 s').
Proof.
  repeat split; eexists; vm_compute; reflexivity.
Qed.

(** ** Reading *)

(** C4 as stated fails: an empty file opened without READ is read with
    answer 0, not -1. *)
Lemma cfs_read_empty_file_without_READ :
  ~ (forall (fuel : nat) (fd : Z) (buf : list Z) (len : Z)
            (s : State (gmap Z (list Z))) (d : file_desc),
        0 <= fd < FAT_FD_POOL_SIZE (Platform := avr) ->
        fat_fd_pool s !! Z.to_nat fd = Some d ->
        Z.land (flags d) CFS_READ = 0 ->
        exists s', cfs_read (platform := avr) fuel fd buf len s = Ok (-1, buf) s').
Proof.
  intros H.
  destruct (H 1%nat 0 [0; 0] 2 empty_write_only_state write_only_fd)
    as [s' E]; [vm_compute; split; congruence|reflexivity|reflexivity|].
  vm_compute in E. discriminate E.
Qed.

Section Read.
Context {D : Type} {blockdev : BlockDevice D} {platform : Platform}.
Implicit Types s : State D.

Lemma get_fd_Ok s fd d :
  0 <= fd -> fat_fd_pool s !! Z.to_nat fd = Some d -> get_fd fd s = Ok d s.
Proof.
  intros Hfd Hd. unfold get_fd. destruct (Z.leb_spec 0 fd); [|lia]. now rewrite Hd.
Qed.

Lemma get_file_Ok s fd f :
  0 <= fd -> fat_file_pool s !! Z.to_nat fd = Some f -> get_file fd s = Ok f s.
Proof.
  intros Hfd Hd. unfold get_file. destruct (Z.leb_spec 0 fd); [|lia]. now rewrite Hd.
Qed.

Lemma offset_rem_Ok a d s : d <> 0 -> exists r, offset_rem a d s = Ok r s.
Proof.
  intros Hd. unfold offset_rem. destruct (Z.eqb_spec d 0); [contradiction|].
  destruct int_width, cfs_offset_width; eexists; reflexivity.
Qed.

Lemma offset_div_Ok a d s : d <> 0 -> exists r, offset_div a d s = Ok r s.
Proof.
  intros Hd. unfold offset_div. destruct (Z.eqb_spec d 0); [contradiction|].
  destruct int_width, cfs_offset_width; eexists; reflexivity.
Qed.

(** C4, amended: for a file descriptor of the pool whose flags lack
    READ, on a mounted volume, [cfs_read] transfers nothing and leaves
    every global as it was; it answers -1 when the file has a first
    cluster and 0 when the file is empty, the empty-file test coming
    before the test of the flags. *)
Theorem cfs_read_without_READ fuel fd buf len s d f :
  0 <= fd < FAT_FD_POOL_SIZE ->
  fat_fd_pool s !! Z.to_nat fd = Some d ->
  fat_file_pool s !! Z.to_nat fd = Some f ->
  BPB_BytesPerSec (info (mounted s)) <> 0 ->
  BPB_SecPerClus (info (mounted s)) <> 0 ->
  Z.land (flags d) CFS_READ = 0 ->
  cfs_read fuel fd buf len s = Ok (if cluster f =? 0 then 0 else -1, buf) s.
Proof.
  intros Hfd Hd Hf Hb Hc Hfl. unfold cfs_read.
  rewrite (bind_Ok _ _ _ _ _ (get_fd_Ok s fd d (proj1 Hfd) Hd)).
  unfold mounted_info. rewrite bind_gets.
  destruct (offset_rem_Ok (offset d) _ s Hb) as [r Hr].
  rewrite (bind_Ok _ _ _ _ _ Hr).
  destruct (offset_div_Ok (offset d) _ s Hb) as [q Hq].
  rewrite (bind_Ok _ _ _ _ _ Hq).
  destruct (offset_div_Ok q _ s Hc) as [q1 Hq1].
  rewrite (bind_Ok _ _ _ _ _ Hq1).
  destruct (offset_rem_Ok q _ s Hc) as [r1 Hr1].
  rewrite (bind_Ok _ _ _ _ _ Hr1).
  destruct (Z.ltb_spec fd 0); [lia|].
  destruct (Z.leb_spec FAT_FD_POOL_SIZE fd); [lia|]. cbn [orb].
  rewrite (bind_Ok _ _ _ _ _ (get_file_Ok s fd f (proj1 Hfd) Hf)).
  destruct (cluster f =? 0); [reflexivity|].
  rewrite Hfl. reflexivity.
Qed.
End Read.

Lemma cfs_read_without_READ_witness :
  cfs_read (platform := avr) 1 0 [0; 0] 2 write_only_state
    = Ok (-1, [0; 0]) write_only_state /\
  cfs_read (platform := avr) 1 0 [0; 0] 2 empty_write_only_state
    = Ok (0, [0; 0]) empty_write_only_state.
Proof.
  split.
  - apply (cfs_read_without_READ (platform := avr) 1 0 [0; 0] 2 write_only_state
             write_only_fd seek_file);
      try reflexivity; try (vm_compute; congruence).
    vm_compute. split; congruence.
  - apply (cfs_read_without_READ (platform := avr) 1 0 [0; 0] 2
             empty_write_only_state write_only_fd closed_file);
      try reflexivity; try (vm_compute; congruence).
    vm_compute. split; congruence.
Defined.

(** ** Reading a directory *)

(** C5: with eight sectors per cluster and the cursor at entry 1,
    [cfs_readdir] walks four clusters down the chain of the root
    directory (32 / 8, not 32 / (8 * 512) = 0) and answers the entry at
    offset 32 of sector 576, the first sector of cluster 6, ZAG.TXT; entry
    1 of the directory is BAR.TXT, at offset 32 of sector 544. *)
Theorem cfs_readdir_second_entry :
  let s1 := with_cfs_readdir_offset 1 demo_state in
  (exists s' nm,
     cfs_readdir (platform := avr) root_dirp blank_dirent s1
       = Ok (0, {| name := nm; size := 0 |}) s' /\
     take 7 nm = c_str "ZAG.TXT"%string /\
     sector_buffer_addr s' = 576 /\
     take 2 (io_log s') = [IoRead 32; IoRead 576]) /\
  (exists s', find_nth_cluster 2 4 s1 = Ok 6 s') /\
  (exists s', CLUSTER_TO_SECTOR 6 s1 = Ok 576 s') /\
  (1 * 32) / (BPB_SecPerClus demo_info * 512) = 0 /\
  (exists s', CLUSTER_TO_SECTOR 2 s1 = Ok 544 s') /\
  DIR_Name (dir_entry_of_bytes (take 32 (drop 32 demo_root))) = c_str "BAR     TXT"%string.
Proof.
  cbv zeta. split; [|repeat split; try (eexists; vm_compute; reflexivity); reflexivity].
  eexists. eexists. split; [vm_compute; reflexivity|].
  repeat split; reflexivity.
Qed.

(** ** The sector cache over the RAM disk *)

Section Cache.
Implicit Types s : State (gmap Z (list Z)).

Lemma stable_refl s : coherent s -> stable s s.
Proof. intros H. repeat split; auto. Qed.

Lemma stable_trans s s1 s2 : stable s s1 -> stable s1 s2 -> stable s s2.
Proof.
  intros (_ & M1 & V1) (C2 & M2 & V2). split; [assumption|].
  split; [congruence|]. intros a. now rewrite V2.
Qed.

Lemma fat_flush_spec s s1 :
  coherent s -> fat_flush s = Ok tt s1 ->
  stable s s1 /\ sector_buffer_dirty s1 = 0 /\
  sector_buffer_addr s1 = sector_buffer_addr s /\
  sector_buffer s1 = sector_buffer s.
Proof.
  intros Hc Hf. unfold fat_flush in Hf. rewrite bind_gets in Hf.
  destruct (Z.eqb_spec (sector_buffer_dirty s) 0) as [E|N].
  - injection Hf as <-. auto using stable_refl.
  - rewrite bind_gets in Hf. unfold bind, dev_write in Hf. cbn in Hf.
    destruct (device s !! sector_buffer_addr s) as [b0|] eqn:Hl;
      injection Hf as <-; cbn; (split; [|auto]); (split; [|split; [reflexivity|]]).
    + intros _ _ b. cbn. rewrite lookup_insert_eq. congruence.
    + intros a. unfold view. cbn.
      destruct (decide (sector_buffer_addr s = a)) as [<-|Na].
      * rewrite lookup_insert_eq, Hl.
        rewrite bool_decide_eq_false_2 by (intros [? _]; congruence).
        rewrite bool_decide_eq_true_2 by auto. reflexivity.
      * rewrite lookup_insert_ne by assumption.
        destruct (device s !! a); [|reflexivity].
        rewrite !bool_decide_eq_false_2; [reflexivity| |]; intros [? ?]; congruence.
    + intros _ _ b. cbn. congruence.
    + intros a. unfold view. cbn.
      destruct (device s !! a) eqn:Hla; [|reflexivity].
      rewrite !bool_decide_eq_false_2; [reflexivity| |]; intros [? ?]; congruence.
Qed.

Lemma fat_read_block_spec s a st s1 :
  coherent s -> fat_read_block a s = Ok st s1 ->
  stable s s1 /\ sector_buffer_addr s1 = a /\
  (forall b, view s a = Some b -> st = 0 /\ sector_buffer s1 = b).
Proof.
  intros Hc Hr. unfold fat_read_block in Hr. rewrite bind_gets in Hr.
  destruct (Z.eqb_spec (sector_buffer_addr s) a) as [E|N];
    [destruct (Z.eqb_spec a 0) as [Z0|NZ]|]; cbn [andb negb] in Hr.
  2:{ injection Hr as <- <-. split; [auto using stable_refl|]. split; [assumption|].
      intros b Hv. split; [reflexivity|]. unfold view in Hv.
      destruct (device s !! a) as [b0|] eqn:Hl; [|discriminate].
      destruct (bool_decide _) eqn:Hd.
      - congruence.
      - injection Hv as <-. apply Hc; [|congruence|congruence].
        apply bool_decide_eq_false in Hd.
        destruct (Z.eq_dec (sector_buffer_dirty s) 0); [assumption|]. exfalso; auto. }
  all: apply bind_Ok_inv in Hr as ([] & s' & Hf & Hr);
    apply (fat_flush_spec _ _ Hc) in Hf as (Hst & Hd & Ha & Hb);
    apply bind_Ok_inv in Hr as ([] & s'' & Hm & Hr); injection Hm as <-;
    apply bind_Ok_inv in Hr as (st0 & s3 & Hrd & Hr); injection Hr as <- <-;
    unfold dev_read in Hrd; cbn in Hrd;
    destruct Hst as (Hc' & Hm' & Hv');
    destruct (device s' !! a) as [b0|] eqn:Hl; injection Hrd as <- <-; cbn.
  all: (split; [split; [|split; [assumption|]]|split; [reflexivity|]]).
  all: try (intros _ _ b; cbn; congruence).
  all: try (intros x; rewrite <- Hv'; unfold view; cbn;
            destruct (device s' !! x); [|reflexivity];
            rewrite !bool_decide_eq_false_2; [reflexivity| |]; intros [? ?]; congruence).
  all: intros b Hv; rewrite <- Hv' in Hv; unfold view in Hv; rewrite Hl in Hv;
       try discriminate.
  all: rewrite bool_decide_eq_false_2 in Hv by (intros [? ?]; congruence);
       injection Hv as <-; auto.
Qed.

End Cache.

Create HintDb fat_pure.
Create HintDb fat_keep.

Section Pure.
Context {D : Type} {blockdev : BlockDevice D} {platform : Platform}.

Lemma pure_ret {A} (a : A) : pure_m (D := D) (ret a).
Proof. intros s x s1 [= _ <-]. reflexivity. Qed.

Lemma pure_gets {A} (f : State D -> A) : pure_m (gets f).
Proof. intros s x s1 [= _ <-]. reflexivity. Qed.

Lemma pure_undefined {A} : pure_m (D := D) (@undefined D A).
Proof. intros s x s1 [=]. Qed.

Lemma pure_out_of_fuel {A} : pure_m (D := D) (@out_of_fuel D A).
Proof. intros s x s1 [=]. Qed.

Lemma pure_bind {A B} (m : M D A) (k : A -> M D B) :
  pure_m m -> (forall a, pure_m (k a)) -> pure_m (bind m k).
Proof.
  intros Hm Hk s b s2 H. apply bind_Ok_inv in H as (a & s1 & H1 & H2).
  apply Hm in H1 as ->. now apply Hk in H2.
Qed.

Lemma pure_udiv a b : pure_m (D := D) (udiv a b).
Proof. unfold udiv. destruct (b =? 0); [apply pure_undefined|apply pure_ret]. Qed.

Lemma pure_umod a b : pure_m (D := D) (umod a b).
Proof. unfold umod. destruct (b =? 0); [apply pure_undefined|apply pure_ret]. Qed.

Lemma pure_sb_get i : pure_m (D := D) (sb_get i).
Proof.
  intros s x s1. unfold sb_get. destruct (in_bounds i 512); [|discriminate].
  destruct (_ !! _); [|discriminate]. now intros [= _ <-].
Qed.

Lemma pure_sb_get_range i len : pure_m (D := D) (sb_get_range i len).
Proof.
  intros s x s1. unfold sb_get_range. destruct (_ && _); [|discriminate].
  now intros [= _ <-].
Qed.

Lemma pure_path_at p i : pure_m (D := D) (path_at p i).
Proof.
  intros s x s1. unfold path_at. destruct (_ && _); [|discriminate].
  now intros [= _ <-].
Qed.

Lemma pure_mounted_info : pure_m (D := D) mounted_info.
Proof. apply pure_gets. Qed.

End Pure.

#[export] Hint Resolve pure_ret pure_gets pure_undefined pure_out_of_fuel
  pure_udiv pure_umod pure_sb_get pure_sb_get_range pure_path_at
  pure_mounted_info : fat_pure.

Ltac pure_step :=
  lazymatch goal with
  | |- pure_m (bind _ _) => apply pure_bind; [|intros ?]
  | |- pure_m (if ?c then _ else _) => destruct c
  | |- pure_m (match ?x with _ => _ end) => destruct x
  | |- pure_m _ => solve [auto with fat_pure]
  end.

Ltac pure_tac := repeat pure_step.

Section Pure2.
Context {D : Type} {blockdev : BlockDevice D} {platform : Platform}.

Lemma pure_is_EOC e : pure_m (D := D) (is_EOC e).
Proof. unfold is_EOC. pure_tac. Qed.

Lemma pure_calc_fat_block c o : pure_m (D := D) (calc_fat_block c o).
Proof. unfold calc_fat_block. pure_tac. Qed.

Lemma pure_CLUSTER_TO_SECTOR c : pure_m (D := D) (CLUSTER_TO_SECTOR c).
Proof. unfold CLUSTER_TO_SECTOR. pure_tac. Qed.

Lemma pure_SECTOR_TO_CLUSTER c : pure_m (D := D) (SECTOR_TO_CLUSTER c).
Proof. unfold SECTOR_TO_CLUSTER. pure_tac. Qed.

Lemma pure__make_valid_name_from k : forall p st i idx dot nm,
  pure_m (D := D) (_make_valid_name_from k p st i idx dot nm).
Proof. induction k; intros; simpl; pure_tac. Qed.

Lemma pure__make_valid_name p st e : pure_m (D := D) (_make_valid_name p st e).
Proof. apply pure__make_valid_name_from. Qed.

Hint Resolve pure__make_valid_name : fat_pure.

Lemma pure_pr_scan k : forall p st e i nm, pure_m (D := D) (pr_scan k p st e i nm).
Proof. induction k; intros; simpl; pure_tac. Qed.

Lemma pure_pr_get_next_path_part pr : pure_m (D := D) (pr_get_next_path_part pr).
Proof.
  unfold pr_get_next_path_part. destruct (pr_path pr); [|pure_tac].
  apply pure_bind; [pure_tac|intros]. apply pure_pr_scan.
Qed.

Lemma pure_pr_is_current_path_part_a_file pr :
  pure_m (D := D) (pr_is_current_path_part_a_file pr).
Proof. unfold pr_is_current_path_part_a_file. pure_tac. Qed.

Lemma pure_lookup_sector k : forall nm i out,
  pure_m (D := D) (lookup_sector k nm i out).
Proof. induction k; intros; simpl; pure_tac. Qed.

End Pure2.

#[export] Hint Resolve pure_is_EOC pure_calc_fat_block pure_CLUSTER_TO_SECTOR
  pure_SECTOR_TO_CLUSTER pure__make_valid_name pure_pr_get_next_path_part
  pure_pr_is_current_path_part_a_file pure_lookup_sector : fat_pure.

Section Keep.
Implicit Types s : State (gmap Z (list Z)).
Context {platform : Platform}.

Lemma preserving_pure {A} (m : M _ A) : pure_m m -> preserving m.
Proof. intros Hp s a s1 Hc H. apply Hp in H as ->. now apply stable_refl. Qed.

Lemma preserving_bind {A B} (m : M _ A) (k : A -> M _ B) :
  preserving m -> (forall a, preserving (k a)) -> preserving (bind m k).
Proof.
  intros Hm Hk s b s2 Hc H. apply bind_Ok_inv in H as (a & s1 & H1 & H2).
  pose proof (Hm _ _ _ Hc H1) as St. eapply stable_trans; [exact St|].
  eapply Hk; [apply St|exact H2].
Qed.

Lemma preserving_fat_flush : preserving fat_flush.
Proof. intros s [] s1 Hc H. now apply fat_flush_spec in H. Qed.

Lemma preserving_fat_read_block a : preserving (fat_read_block a).
Proof. intros s st s1 Hc H. now apply fat_read_block_spec in H. Qed.

End Keep.

#[export] Hint Resolve preserving_fat_flush preserving_fat_read_block : fat_keep.

Ltac keep_step :=
  lazymatch goal with
  | |- preserving (bind _ _) => apply preserving_bind; [|intros ?]
  | |- preserving (if ?c then _ else _) => destruct c
  | |- preserving (match ?x with _ => _ end) => destruct x
  | |- preserving _ =>
      first [ solve [auto with fat_keep]
            | solve [apply preserving_pure; auto with fat_pure] ]
  end.

Ltac keep_tac := repeat keep_step.

Section Keep2.
Implicit Types s : State (gmap Z (list Z)).
Context {platform : Platform}.

Lemma preserving_read_fat_entry c : preserving (read_fat_entry c).
Proof. unfold read_fat_entry. keep_tac. Qed.

Hint Resolve preserving_read_fat_entry : fat_keep.

Lemma preserving_fat_next_block : preserving fat_next_block.
Proof. unfold fat_next_block. keep_tac. Qed.

Hint Resolve preserving_fat_next_block : fat_keep.

Lemma preserving_lookup fuel : forall nm out, preserving (lookup fuel nm out).
Proof. induction fuel; intros; simpl; keep_tac. Qed.

Hint Resolve preserving_lookup : fat_keep.

Lemma preserving_get_dir_entry_loop k : forall fuel root i pr sec out,
  preserving (get_dir_entry_loop k fuel false root i pr sec out).
Proof.
  induction k; intros; simpl; repeat first [rewrite andb_false_r | keep_step].
Qed.

Lemma preserving_get_dir_entry fuel path out :
  preserving (get_dir_entry fuel path out false).
Proof.
  unfold get_dir_entry. keep_tac; apply preserving_get_dir_entry_loop.
Qed.

End Keep2.

Section Entries.
Context {D : Type} {blockdev : BlockDevice D}.
Implicit Types s : State D.

Lemma u8_u8 x : u8 (u8 x) = u8 x.
Proof. unfold u8. apply Z.mod_mod. lia. Qed.

(** The byte [write_fat_entry] stores at [ent_offset+3] on FAT32 is the
    top byte of the value: the mask 0x0FFF keeps all of it and the mask
    0xF000 keeps nothing of the old byte. *)
Lemma fat32_top_byte x old :
  u8 (Z.land (u8 (Z.shiftr x 24)) 0x0FFF + Z.land 0xF000 old) = u8 (Z.shiftr x 24).
Proof.
  set (y := Z.shiftr x 24).
  assert (Hy : 0 <= u8 y < 2^8) by (apply Z.mod_pos_bound; lia).
  assert (E1 : Z.land (u8 y) 0x0FFF = u8 y).
  { change 0x0FFF with (Z.ones 12). rewrite Z.land_ones by lia.
    apply Z.mod_small. lia. }
  assert (E2 : Z.land 0xF000 old mod 2^8 = 0).
  { rewrite <- Z.land_ones by lia. rewrite <- Z.land_assoc, (Z.land_comm old).
    rewrite Z.land_assoc. reflexivity. }
  rewrite E1. unfold u8 at 1. rewrite Z.add_mod by lia. rewrite E2, Z.add_0_r.
  rewrite Z.mod_mod by lia. apply u8_u8.
Qed.

Lemma sb_set_inv i v s s1 :
  sb_set i v s = Ok tt s1 ->
  s1 = with_sector_buffer (<[Z.to_nat i := u8 v]> (sector_buffer s)) s /\
  0 <= i < 512 /\ i < Z.of_nat (length (sector_buffer s)).
Proof.
  unfold sb_set, in_bounds. intros H.
  destruct (Z.leb_spec 0 i); [|discriminate].
  destruct (Z.ltb_spec i 512); [|discriminate].
  destruct (Z.ltb_spec i (Z.of_nat (length (sector_buffer s)))); [|discriminate].
  injection H as <-. auto with lia.
Qed.

Lemma sb_get_inv i v s s1 :
  sb_get i s = Ok v s1 ->
  s1 = s /\ 0 <= i < 512 /\ sector_buffer s !! Z.to_nat i = Some v.
Proof.
  unfold sb_get, in_bounds. intros H.
  destruct (Z.leb_spec 0 i); [|discriminate].
  destruct (Z.ltb_spec i 512); [|discriminate]. cbn in H.
  destruct (_ !! _) eqn:E; [|discriminate]. injection H as <- <-. auto with lia.
Qed.

Lemma calc_fat_block_inv c s sec off s1 :
  calc_fat_block c 0 s = Ok (sec, off) s1 ->
  s1 = s /\ sec = fat_sector (info (mounted s)) c /\
  off = fat_offset (info (mounted s)) c /\
  BPB_BytesPerSec (info (mounted s)) <> 0.
Proof.
  intros H. unfold calc_fat_block in H. unfold mounted_info in H.
  rewrite bind_gets in H.
  apply bind_Ok_inv in H as (q & s2 & Hq & H).
  unfold udiv in Hq. destruct (Z.eqb_spec (BPB_BytesPerSec (info (mounted s))) 0) as [|N];
    [discriminate|]. injection Hq as <- <-.
  unfold bind, umod in H.
  destruct (Z.eqb_spec (BPB_BytesPerSec (info (mounted s))) 0); [contradiction|].
  injection H as <- <- <-. unfold fat_sector, fat_offset, entry_size.
  destruct (type (info (mounted s))); rewrite ?Z.mul_0_r; auto.
Qed.

Lemma calc_fat_block_Ok c s :
  BPB_BytesPerSec (info (mounted s)) <> 0 ->
  calc_fat_block c 0 s
  = Ok (fat_sector (info (mounted s)) c, fat_offset (info (mounted s)) c) s.
Proof.
  intros N. unfold calc_fat_block, mounted_info. rewrite bind_gets.
  unfold bind, udiv, umod.
  destruct (Z.eqb_spec (BPB_BytesPerSec (info (mounted s))) 0); [contradiction|].
  unfold ret, fat_sector, fat_offset, entry_size.
  destruct (type (info (mounted s))); rewrite ?Z.mul_0_r; reflexivity.
Qed.

Lemma is_EOC_run c s : is_EOC c s = Ok (eoc_value (type (info (mounted s))) c) s.
Proof. reflexivity. Qed.

(** [fat_read_block] never touches the volume descriptor. *)
Lemma fat_flush_mounted s s1 : fat_flush s = Ok tt s1 -> mounted s1 = mounted s.
Proof.
  unfold fat_flush. rewrite bind_gets. destruct (_ =? 0).
  - now intros [= <-].
  - rewrite bind_gets. unfold bind, dev_write.
    destruct (diskio_write_block _ _ _). now intros [= <-].
Qed.

Lemma fat_read_block_mounted a s st s1 :
  fat_read_block a s = Ok st s1 -> mounted s1 = mounted s.
Proof.
  unfold fat_read_block. rewrite bind_gets. destruct (_ && _).
  - now intros [= _ <-].
  - intros H. apply bind_Ok_inv in H as ([] & s2 & Hf & H).
    apply fat_flush_mounted in Hf. unfold bind, modify, dev_read in H. cbn in H.
    destruct (diskio_read_block _ _ _) as [[? ?] ?]. injection H as _ <-. exact Hf.
Qed.

(** What [write_fat_entry] leaves behind: the sector of the entry is
    loaded, the bytes of the entry hold the value, the buffer is dirty. *)
Lemma write_fat_entry_effect c v s s1 :
  write_fat_entry c v s = Ok tt s1 ->
  let inf := info (mounted s) in
  let off := fat_offset inf c in
  exists st s',
    fat_read_block (fat_sector inf c) s = Ok st s' /\
    s1 = with_sector_buffer_dirty 1
           (with_sector_buffer (put_entry (type inf) off v (sector_buffer s')) s') /\
    BPB_BytesPerSec inf <> 0 /\
    (type inf <> FAT12 ->
       0 <= off /\ off + entry_size (type inf) <= 512 /\
       off + entry_size (type inf) <= Z.of_nat (length (sector_buffer s'))).
Proof.
  intros H. cbv zeta. unfold write_fat_entry in H.
  apply bind_Ok_inv in H as ([sec off] & s0 & Hc & H).
  apply calc_fat_block_inv in Hc as (-> & -> & -> & Hb).
  apply bind_Ok_inv in H as (st & s' & Hr & H).
  exists st, s'. split; [exact Hr|].
  pose proof (fat_read_block_mounted _ _ _ _ Hr) as Hm.
  unfold mounted_info in H. rewrite bind_gets in H. rewrite Hm in H.
  apply bind_Ok_inv in H as ([] & s2 & Hw & H). injection H as <-.
  set (off := fat_offset (info (mounted s)) c) in *.
  destruct (type (info (mounted s))) eqn:Ht; cbn [put_entry entry_size].
  - injection Hw as <-. repeat split; auto; congruence.
  - apply bind_Ok_inv in Hw as ([] & s3 & H1 & H0).
    apply sb_set_inv in H1 as (-> & B1 & L1).
    apply sb_set_inv in H0 as (-> & B0 & L0). cbn in L0 |- *.
    rewrite !u8_u8. repeat split; auto; lia.
  - apply bind_Ok_inv in Hw as (old & s3 & Hg & Hw).
    apply sb_get_inv in Hg as (-> & _ & _).
    apply bind_Ok_inv in Hw as ([] & s3 & H3 & Hw).
    apply sb_set_inv in H3 as (-> & B3 & L3).
    apply bind_Ok_inv in Hw as ([] & s4 & H2 & Hw).
    apply sb_set_inv in H2 as (-> & B2 & L2).
    apply bind_Ok_inv in Hw as ([] & s5 & H1 & H0).
    apply sb_set_inv in H1 as (-> & B1 & L1).
    apply sb_set_inv in H0 as (-> & B0 & L0). cbn in L0 |- *.
    rewrite fat32_top_byte, !u8_u8. repeat split; auto; lia.
Qed.

End Entries.

Section Volume.
Implicit Types s : State (gmap Z (list Z)).

Lemma view_buffer_update s b' :
  let s1 := with_sector_buffer_dirty 1 (with_sector_buffer b' s) in
  coherent s1 /\ mounted s1 = mounted s /\
  (forall a, a <> sector_buffer_addr s -> view s1 a = view s a) /\
  view s1 (sector_buffer_addr s)
  = match device s !! sector_buffer_addr s with Some _ => Some b' | None => None end.
Proof.
  cbv zeta. split; [intros H; discriminate H|]. split; [reflexivity|]. split.
  - intros a Na. unfold view. cbn. destruct (device s !! a); [|reflexivity].
    rewrite !bool_decide_eq_false_2; [reflexivity| |]; intros [? ?]; congruence.
  - unfold view. cbn. destruct (device s !! _); [|reflexivity].
    rewrite bool_decide_eq_true_2; [reflexivity|]. split; [lia|reflexivity].
Qed.

Lemma write_fat_entry_spec c v s s1 :
  coherent s -> write_fat_entry c v s = Ok tt s1 ->
  let inf := info (mounted s) in
  let sec := fat_sector inf c in
  let off := fat_offset inf c in
  coherent s1 /\ mounted s1 = mounted s /\
  (forall a, a <> sec -> view s1 a = view s a) /\
  view s1 sec = put_entry (type inf) off v <$> view s sec /\
  (type inf <> FAT12 ->
     0 <= off /\ off + entry_size (type inf) <= 512 /\
     forall b, view s sec = Some b -> off + entry_size (type inf) <= Z.of_nat (length b)).
Proof.
  intros Hc H. cbv zeta.
  apply write_fat_entry_effect in H as (st & s' & Hr & -> & Hb & Hoff).
  apply (fat_read_block_spec _ _ _ _ Hc) in Hr as ((Hc' & Hm' & Hv') & Ha & Hbuf).
  pose proof (view_buffer_update s' (put_entry (type (info (mounted s)))
    (fat_offset (info (mounted s)) c) v (sector_buffer s'))) as (U1 & U2 & U3 & U4).
  rewrite Ha in U3, U4.
  split; [exact U1|]. split; [congruence|]. split; [|split].
  - intros a Na. rewrite U3 by assumption. apply Hv'.
  - rewrite U4. destruct (view s _) as [b|] eqn:Hvs.
    + destruct (Hbuf b eq_refl) as (_ & ->).
      rewrite <- Hv' in Hvs. unfold view in Hvs.
      destruct (device s' !! _); [reflexivity|discriminate].
    + rewrite <- Hv' in Hvs. unfold view in Hvs.
      destruct (device s' !! _); [|reflexivity].
      destruct (bool_decide _); discriminate.
  - intros Nt. destruct (Hoff Nt) as (O1 & O2 & O3). split; [exact O1|].
    split; [exact O2|]. intros b Hvs. destruct (Hbuf b Hvs) as (_ & <-). exact O3.
Qed.

Lemma read_fat_entry_value c v s s1 :
  coherent s -> read_fat_entry c s = Ok v s1 ->
  forall b, view s (fat_sector (info (mounted s)) c) = Some b ->
  decode_entry (type (info (mounted s))) b (fat_offset (info (mounted s)) c) = Some v.
Proof.
  intros Hc H b Hv. unfold read_fat_entry in H.
  apply bind_Ok_inv in H as ([sec off] & s0 & Hcb & H).
  apply calc_fat_block_inv in Hcb as (-> & -> & -> & Hb).
  apply bind_Ok_inv in H as (st & s' & Hr & H).
  apply (fat_read_block_spec _ _ _ _ Hc) in Hr as ((_ & Hm' & _) & _ & Hbuf).
  destruct (Hbuf b Hv) as (_ & Eb).
  unfold mounted_info in H. rewrite bind_gets in H. rewrite Hm' in H.
  set (off := fat_offset (info (mounted s)) c) in *.
  destruct (type (info (mounted s))); cbn [decode_entry].
  - now injection H as <-.
  - apply bind_Ok_inv in H as (b1 & s2 & H1 & H).
    apply sb_get_inv in H1 as (-> & _ & L1).
    apply bind_Ok_inv in H as (b0 & s2 & H0 & H).
    apply sb_get_inv in H0 as (-> & _ & L0).
    injection H as <- _. rewrite Eb in L1, L0. now rewrite L1, L0.
  - apply bind_Ok_inv in H as (b3 & s2 & H3 & H).
    apply sb_get_inv in H3 as (-> & _ & L3).
    apply bind_Ok_inv in H as (b2 & s2 & H2 & H).
    apply sb_get_inv in H2 as (-> & _ & L2).
    apply bind_Ok_inv in H as (b1 & s2 & H1 & H).
    apply sb_get_inv in H1 as (-> & _ & L1).
    apply bind_Ok_inv in H as (b0 & s2 & H0 & H).
    apply sb_get_inv in H0 as (-> & _ & L0).
    injection H as <- _. rewrite Eb, ?Z.add_0_r in *. now rewrite L3, L2, L1, L0.
Qed.

Lemma sb_get_Ok i v (s : State (gmap Z (list Z))) :
  0 <= i < 512 -> sector_buffer s !! Z.to_nat i = Some v -> sb_get i s = Ok v s.
Proof.
  intros Hi Hl. unfold sb_get, in_bounds.
  destruct (Z.leb_spec 0 i); [|lia]. destruct (Z.ltb_spec i 512); [|lia].
  cbn. now rewrite Hl.
Qed.

Lemma fat_read_block_total a s : exists st s1, fat_read_block a s = Ok st s1.
Proof.
  unfold fat_read_block. rewrite bind_gets. destruct (_ && _); [eauto|].
  assert (Hf : exists s1, fat_flush s = Ok tt s1).
  { unfold fat_flush. rewrite bind_gets. destruct (_ =? 0); [eauto|].
    rewrite bind_gets. unfold bind, dev_write. cbn.
    destruct (device s !! _); eauto. }
  destruct Hf as [s1 Hf]. rewrite (bind_Ok _ _ _ _ _ Hf).
  unfold bind, modify, dev_read. cbn. destruct (device s1 !! a); eauto.
Qed.

Lemma read_fat_entry_Ok c v s :
  coherent s -> BPB_BytesPerSec (info (mounted s)) <> 0 ->
  0 <= fat_offset (info (mounted s)) c ->
  fat_offset (info (mounted s)) c + entry_size (type (info (mounted s))) <= 512 ->
  fat_entry s c = Some v ->
  exists s1, read_fat_entry c s = Ok v s1 /\ stable s s1.
Proof.
  intros Hc Hb Ho1 Ho2 He. unfold fat_entry in He.
  destruct (view s _) as [b|] eqn:Hv; [|discriminate].
  assert (exists s1, read_fat_entry c s = Ok v s1) as [s1 H].
  { unfold read_fat_entry. rewrite (bind_Ok _ _ _ _ _ (calc_fat_block_Ok c s Hb)).
    destruct (fat_read_block_total (fat_sector (info (mounted s)) c) s) as (st & s' & Hr).
    rewrite (bind_Ok _ _ _ _ _ Hr).
    pose proof (fat_read_block_spec _ _ _ _ Hc Hr) as ((_ & Hm' & _) & _ & Hbuf).
    destruct (Hbuf b Hv) as (_ & Eb).
    unfold mounted_info. rewrite bind_gets, Hm'.
    set (off := fat_offset (info (mounted s)) c) in *.
    revert Ho2 He.
    destruct (type (info (mounted s))); cbn [decode_entry entry_size]; intros Ho2 He.
    - injection He as <-. eauto.
    - destruct (b !! Z.to_nat (off + 1)) as [b1|] eqn:L1; [|discriminate].
      destruct (b !! Z.to_nat off) as [b0|] eqn:L0; [|discriminate].
      injection He as <-. rewrite <- Eb in L1, L0.
      rewrite (bind_Ok _ _ _ _ _ (sb_get_Ok (off + 1) _ s' ltac:(lia) L1)).
      rewrite (bind_Ok _ _ _ _ _ (sb_get_Ok off _ s' ltac:(lia) L0)). eauto.
    - destruct (b !! Z.to_nat (off + 3)) as [b3|] eqn:L3; [|discriminate].
      destruct (b !! Z.to_nat (off + 2)) as [b2|] eqn:L2; [|discriminate].
      destruct (b !! Z.to_nat (off + 1)) as [b1|] eqn:L1; [|discriminate].
      destruct (b !! Z.to_nat off) as [b0|] eqn:L0; [|discriminate].
      injection He as <-. rewrite <- Eb in L3, L2, L1, L0.
      rewrite (bind_Ok _ _ _ _ _ (sb_get_Ok (off + 3) _ s' ltac:(lia) L3)).
      rewrite (bind_Ok _ _ _ _ _ (sb_get_Ok (off + 2) _ s' ltac:(lia) L2)).
      rewrite (bind_Ok _ _ _ _ _ (sb_get_Ok (off + 1) _ s' ltac:(lia) L1)).
      rewrite Z.add_0_r.
      rewrite (bind_Ok _ _ _ _ _ (sb_get_Ok off _ s' ltac:(lia) L0)). eauto. }
  exists s1. split; [exact H|]. exact (preserving_read_fat_entry c s v s1 Hc H).
Qed.

End Volume.

Section Chains.
Implicit Types s : State (gmap Z (list Z)).

Lemma decode_put_same t off b :
  t <> FAT12 -> 0 <= off -> off + entry_size t <= Z.of_nat (length b) ->
  decode_entry t (put_entry t off 0 b) off = Some 0.
Proof.
  intros Ht Ho Hl. destruct t; [contradiction| |]; cbn [decode_entry put_entry entry_size] in *.
  - rewrite list_lookup_insert_ne by lia.
    rewrite list_lookup_insert_eq by lia.
    rewrite list_lookup_insert_eq by (rewrite length_insert; lia). reflexivity.
  - rewrite !(list_lookup_insert_ne _ _ (Z.to_nat (off + 3))) by lia.
    rewrite list_lookup_insert_eq by lia.
    rewrite !(list_lookup_insert_ne _ _ (Z.to_nat (off + 2))) by lia.
    rewrite list_lookup_insert_eq by (rewrite !length_insert; lia).
    rewrite !(list_lookup_insert_ne _ _ (Z.to_nat (off + 1))) by lia.
    rewrite list_lookup_insert_eq by (rewrite !length_insert; lia).
    rewrite list_lookup_insert_eq by (rewrite !length_insert; lia). reflexivity.
Qed.

Lemma decode_put_other t off off' v b :
  0 <= off -> 0 <= off' ->
  off' + entry_size t <= off \/ off + entry_size t <= off' ->
  decode_entry t (put_entry t off v b) off' = decode_entry t b off'.
Proof.
  intros Ho Ho' Hd. destruct t; cbn [decode_entry put_entry entry_size] in *.
  - reflexivity.
  - now rewrite !list_lookup_insert_ne by lia.
  - now rewrite !list_lookup_insert_ne by lia.
Qed.

Lemma fat_location inf c :
  vol_ok inf -> type inf <> FAT12 -> 0 <= c < 2^28 ->
  fat_sector inf c = BPB_RsvdSecCnt inf + (c * entry_size (type inf)) / 512 /\
  fat_offset inf c = (c * entry_size (type inf)) mod 512 /\
  0 <= fat_offset inf c /\ fat_offset inf c + entry_size (type inf) <= 512.
Proof.
  intros (Hb & Hr) Ht Hc. unfold fat_sector, fat_offset. rewrite Hb.
  assert (He : entry_size (type inf) = 2 \/ entry_size (type inf) = 4)
    by (destruct (type inf); [contradiction|auto|auto]).
  assert (E : u32 (c * entry_size (type inf)) = c * entry_size (type inf))
    by (unfold u32; apply Z.mod_small; lia).
  rewrite E. unfold u32. rewrite Z.mod_small by (split; [|]; Z.div_mod_to_equations; lia).
  split; [reflexivity|]. split; [reflexivity|].
  Z.div_mod_to_equations; lia.
Qed.

Lemma fat_location_inj inf c c' :
  vol_ok inf -> type inf <> FAT12 -> 0 <= c < 2^28 -> 0 <= c' < 2^28 -> c <> c' ->
  fat_sector inf c <> fat_sector inf c' \/
  fat_offset inf c' + entry_size (type inf) <= fat_offset inf c \/
  fat_offset inf c + entry_size (type inf) <= fat_offset inf c'.
Proof.
  intros Hv Ht Hc Hc' N.
  destruct (fat_location inf c Hv Ht Hc) as (-> & -> & _).
  destruct (fat_location inf c' Hv Ht Hc') as (-> & -> & _).
  assert (He : entry_size (type inf) = 2 \/ entry_size (type inf) = 4)
    by (destruct (type inf); [contradiction|auto|auto]).
  Z.div_mod_to_equations; lia.
Qed.

Lemma stable_fat_entry s s1 c : stable s s1 -> fat_entry s1 c = fat_entry s c.
Proof. intros (_ & Hm & Hv). unfold fat_entry. now rewrite Hm, Hv. Qed.

Lemma write_fat_entry_frame c v s s1 c' :
  coherent s -> vol_ok (info (mounted s)) -> type (info (mounted s)) <> FAT12 ->
  write_fat_entry c v s = Ok tt s1 ->
  0 <= c < 2^28 -> 0 <= c' < 2^28 -> c' <> c ->
  fat_entry s1 c' = fat_entry s c'.
Proof.
  intros Hc Hv Ht Hw Rc Rc' N.
  destruct (write_fat_entry_spec _ _ _ _ Hc Hw) as (_ & Hm & Hf & Hs & Ho).
  unfold fat_entry. rewrite Hm.
  destruct (Z.eq_dec (fat_sector (info (mounted s)) c') (fat_sector (info (mounted s)) c))
    as [E|Ne].
  - rewrite E, Hs. destruct (view s _) as [b|]; [cbn|reflexivity].
    destruct (fat_location _ c Hv Ht Rc) as (_ & _ & O1 & _).
    destruct (fat_location _ c' Hv Ht Rc') as (_ & _ & O1' & _).
    apply decode_put_other; [assumption|assumption|].
    destruct (fat_location_inj _ c c' Hv Ht Rc Rc' ltac:(congruence)) as [?|[?|?]];
      [congruence|auto|auto].
  - now rewrite Hf.
Qed.

Lemma write_fat_entry_zero c s s1 :
  coherent s -> type (info (mounted s)) <> FAT12 ->
  write_fat_entry c 0 s = Ok tt s1 ->
  is_Some (fat_entry s c) -> fat_entry s1 c = Some 0.
Proof.
  intros Hc Ht Hw [v Hv].
  destruct (write_fat_entry_spec _ _ _ _ Hc Hw) as (_ & Hm & _ & Hs & Ho).
  unfold fat_entry in *. rewrite Hm, Hs.
  destruct (view s _) as [b|]; [cbn|discriminate].
  destruct (Ho Ht) as (O1 & _ & O3). apply decode_put_same; auto.
Qed.

Lemma data_cluster_range t x :
  data_cluster t x -> 0 <= x < 2^28 /\ eoc_value t x = false /\ t <> FAT12.
Proof.
  unfold data_cluster. intros (H2 & Hx). destruct t; [lia| |]; cbn.
  - split; [lia|]. split; [|discriminate]. apply Z.leb_gt. lia.
  - split; [lia|]. split; [|discriminate]. apply Z.leb_gt.
    change 0x0FFFFFFF with (Z.ones 28). rewrite Z.land_ones by lia.
    rewrite Z.mod_small by lia. lia.
Qed.

Lemma chain_members s c cs e :
  chain s c cs e ->
  (exists cs', cs = c :: cs') /\
  forall x, x ∈ cs ->
    data_cluster (type (info (mounted s))) x /\ is_Some (fat_entry s x).
Proof.
  induction 1 as [c e Hd He _ _|c c' cs e Hd He _ (_ & IH)].
  - split; [eauto|]. intros x Hx. apply list_elem_of_singleton in Hx as ->. eauto.
  - split; [eauto|]. intros x Hx. apply elem_of_cons in Hx as [->|Hx]; eauto.
Qed.

Lemma chain_end s c cs e :
  chain s c cs e ->
  eoc_value (type (info (mounted s))) e = true /\ 0 <= e < 2^28 /\ e ∉ cs.
Proof.
  intros Hch. assert (He : eoc_value (type (info (mounted s))) e = true /\ 0 <= e < 2^28)
    by (induction Hch; auto).
  destruct He as (He & Hr). split; [exact He|]. split; [exact Hr|].
  intros Hin. apply (chain_members _ _ _ _ Hch) in Hin as (Hd & _).
  apply data_cluster_range in Hd as (_ & Hd & _). congruence.
Qed.

Lemma chain_frame s s1 c cs e :
  chain s c cs e -> mounted s1 = mounted s ->
  (forall x, x ∈ cs -> fat_entry s1 x = fat_entry s x) ->
  chain s1 c cs e.
Proof.
  intros Hch Hm. induction Hch as [c e Hd He Hee Hr|c c' cs e Hd He _ IH]; intros Hf.
  - apply chain_last; rewrite ?Hm; auto. rewrite Hf; [exact He|]. apply list_elem_of_singleton. reflexivity.
  - apply chain_next with c'; rewrite ?Hm; auto.
    + rewrite Hf; [exact He|]. apply elem_of_cons; auto.
    + apply IH. intros x Hx. apply Hf. apply elem_of_cons; auto.
Qed.

Lemma walk_spec cs : forall e fuel s c nxt t s1,
  coherent s -> vol_ok (info (mounted s)) ->
  chain s c cs e -> NoDup cs -> fat_entry s c = Some nxt ->
  reset_cluster_chain_walk fuel c nxt s = Ok t s1 ->
  t = e /\ coherent s1 /\ mounted s1 = mounted s /\
  (forall x, x ∈ cs -> fat_entry s1 x = Some 0) /\
  (forall y, 0 <= y < 2^28 -> y ∉ cs -> fat_entry s1 y = fat_entry s y) /\
  (forall a, (forall x, x ∈ cs -> fat_sector (info (mounted s)) x <> a) ->
     view s1 a = view s a).
Proof.
  induction cs as [|c0 cs IH]; intros e fuel s c nxt t s1 Hc Hv Hch Hnd Hn Hw;
    [inversion Hch|].
  destruct fuel as [|fuel]; [discriminate Hw|]. cbn [reset_cluster_chain_walk] in Hw.
  rewrite (bind_Ok _ _ _ _ _ (is_EOC_run c s)) in Hw.
  assert (Hd : data_cluster (type (info (mounted s))) c) by (inversion Hch; assumption).
  assert (c0 = c) by (inversion Hch; reflexivity). subst c0.
  destruct (data_cluster_range _ _ Hd) as (Rc & Hec & Ht). rewrite Hec in Hw.
  destruct (Z.leb_spec 2 c) as [_|?]; [|destruct Hd; lia]. cbn [negb andb] in Hw.
  apply bind_Ok_inv in Hw as ([] & s' & Hwr & Hw).
  apply bind_Ok_inv in Hw as (nx & s'' & Hrd & Hw).
  pose proof (write_fat_entry_spec _ _ _ _ Hc Hwr) as (Hc' & Hm' & Hf' & _ & _).
  pose proof (preserving_read_fat_entry nxt s' nx s'' Hc' Hrd) as Hst.
  pose proof Hst as (Hc'' & Hm'' & Hv'').
  assert (Hz : fat_entry s'' c = Some 0).
  { rewrite (stable_fat_entry _ _ _ Hst).
    apply (write_fat_entry_zero _ _ _ Hc Ht Hwr). rewrite Hn. eauto. }
  assert (Hfr : forall y, 0 <= y < 2^28 -> y <> c -> fat_entry s'' y = fat_entry s y).
  { intros y Ry Ny. rewrite (stable_fat_entry _ _ _ Hst).
    apply (write_fat_entry_frame _ _ _ _ _ Hc Hv Ht Hwr Rc Ry Ny). }
  assert (Hvw : forall a, a <> fat_sector (info (mounted s)) c -> view s'' a = view s a).
  { intros a Na. rewrite Hv''. now apply Hf'. }
  apply NoDup_cons in Hnd as (Hnin & Hnd).
  inversion Hch as [c1 e1 _ He1 Hee Hre|c1 c' cs1 e1 _ He1 Hch']; subst.
  - (* c is the last cluster: the walk now stands on the end-of-chain value *)
    assert (nxt = e) by congruence. subst nxt.
    destruct fuel as [|fuel]; [discriminate Hw|]. cbn [reset_cluster_chain_walk] in Hw.
    rewrite (bind_Ok _ _ _ _ _ (is_EOC_run e s'')) in Hw.
    rewrite Hm'', Hm', Hee in Hw. cbn [negb andb] in Hw. injection Hw as <- <-.
    split; [reflexivity|]. split; [assumption|]. split; [congruence|].
    split; [|split].
    + intros x Hx. apply list_elem_of_singleton in Hx as ->. exact Hz.
    + intros y Ry Ny. apply Hfr; [assumption|].
      intros ->. apply Ny. apply list_elem_of_singleton. reflexivity.
    + intros a Ha. apply Hvw. intros ->. apply (Ha c); [|reflexivity].
      apply list_elem_of_singleton. reflexivity.
  - assert (nxt = c') by congruence. subst nxt.
    assert (Hch'' : chain s'' c' cs e).
    { apply (chain_frame s); [assumption|congruence|].
      intros x Hx. apply Hfr.
      - destruct (chain_members _ _ _ _ Hch') as (_ & Hmem).
        destruct (Hmem x Hx) as (Hdx & _). now apply data_cluster_range in Hdx.
      - intros ->. contradiction. }
    assert (Hn' : fat_entry s'' c' = Some nx).
    { destruct (chain_members _ _ _ _ Hch'') as ((cs' & ->) & Hmem).
      destruct (Hmem c' ltac:(apply elem_of_cons; auto)) as (_ & [v Hv0]).
      rewrite (stable_fat_entry _ _ _ Hst) in Hv0 |- *.
      unfold fat_entry in Hv0 |- *.
      destruct (view s' _) as [b|] eqn:Hb; [|discriminate].
      apply (read_fat_entry_value _ _ _ _ Hc' Hrd b Hb). }
    assert (Hv2 : vol_ok (info (mounted s''))) by (rewrite Hm'', Hm'; exact Hv).
    destruct (IH e fuel s'' c' nx t s1 Hc'' Hv2 Hch'' Hnd Hn' Hw)
      as (-> & C1 & M1 & Z1 & F1 & V1).
    split; [reflexivity|]. split; [assumption|]. split; [congruence|].
    split; [|split].
    + intros x Hx. apply elem_of_cons in Hx as [->|Hx]; [|now apply Z1].
      rewrite F1; [exact Hz|lia|assumption].
    + intros y Ry Ny. rewrite F1; [|assumption|].
      * apply Hfr; [assumption|]. intros ->. apply Ny. apply elem_of_cons; auto.
      * intros Hy. apply Ny. apply elem_of_cons; auto.
    + intros a Ha. rewrite V1.
      * apply Hvw. intros ->. apply (Ha c); [apply elem_of_cons; auto|reflexivity].
      * intros x Hx. rewrite Hm'', Hm'. apply Ha. apply elem_of_cons; auto.
Qed.

End Chains.

Section Mounted.
Context {D : Type} {blockdev : BlockDevice D}.
Implicit Types s : State D.

Lemma fat_read_block_addr a s st s1 :
  fat_read_block a s = Ok st s1 -> sector_buffer_addr s1 = a.
Proof.
  unfold fat_read_block. rewrite bind_gets.
  destruct (Z.eqb_spec (sector_buffer_addr s) a) as [E|N]; cbn [andb].
  - destruct (negb _); [now intros [= _ <-]|].
    intros H. apply bind_Ok_inv in H as ([] & s2 & _ & H).
    unfold bind, modify, dev_read in H. cbn in H.
    destruct (diskio_read_block _ _ _) as [[? ?] ?]. now injection H as _ <-.
  - intros H. apply bind_Ok_inv in H as ([] & s2 & _ & H).
    unfold bind, modify, dev_read in H. cbn in H.
    destruct (diskio_read_block _ _ _) as [[? ?] ?]. now injection H as _ <-.
Qed.

Lemma read_fat_entry_mounted c s v s1 :
  read_fat_entry c s = Ok v s1 -> mounted s1 = mounted s.
Proof.
  unfold read_fat_entry. intros H.
  apply bind_Ok_inv in H as ([sec off] & s0 & Hc & H).
  apply pure_calc_fat_block in Hc as ->.
  apply bind_Ok_inv in H as (st & s' & Hr & H).
  apply fat_read_block_mounted in Hr.
  assert (Hp : pure_m (D := D)
    (i <- mounted_info ;;
     match type i with
     | FAT16 => b1 <- sb_get (off + 1) ;; b0 <- sb_get off ;;
                ret (u32 (Z.shiftl b1 8 + b0))
     | FAT32 => b3 <- sb_get (off + 3) ;; b2 <- sb_get (off + 2) ;;
                b1 <- sb_get (off + 1) ;; b0 <- sb_get (off + 0) ;;
                ret (Z.land (u32 (le32 b0 b1 b2 b3)) 0x0FFFFFFF)
     | FAT12 => ret EOC
     end)) by pure_tac.
  apply Hp in H as ->. exact Hr.
Qed.

Lemma write_fat_entry_mounted c v s s1 :
  write_fat_entry c v s = Ok tt s1 -> mounted s1 = mounted s.
Proof.
  intros H. apply write_fat_entry_effect in H as (st & s' & Hr & -> & _).
  now apply fat_read_block_mounted in Hr.
Qed.

(** The walk of [reset_cluster_chain] only stops on a value that is an
    end-of-chain mark or below 2. *)
Lemma reset_cluster_chain_walk_exit fuel : forall c nxt s t s1,
  reset_cluster_chain_walk fuel c nxt s = Ok t s1 ->
  mounted s1 = mounted s /\
  (eoc_value (type (info (mounted s))) t = true \/ t < 2).
Proof.
  induction fuel as [|fuel IH]; intros c nxt s t s1 H; [discriminate H|].
  cbn [reset_cluster_chain_walk] in H.
  rewrite (bind_Ok _ _ _ _ _ (is_EOC_run c s)) in H.
  destruct (eoc_value _ c) eqn:He; cbn [negb andb] in H.
  - injection H as <- <-. auto.
  - destruct (Z.leb_spec 2 c).
    + apply bind_Ok_inv in H as ([] & s' & Hw & H).
      apply bind_Ok_inv in H as (nx & s'' & Hr & H).
      apply write_fat_entry_mounted in Hw. apply read_fat_entry_mounted in Hr.
      apply IH in H as (Hm & Ht). rewrite Hr, Hw in Hm, Ht. auto.
    + injection H as <- <-. split; [reflexivity|right; lia].
Qed.

Lemma eoc_value_0 t : eoc_value t 0 = false.
Proof. now destruct t. Qed.

End Mounted.

Section Remove.
Implicit Types s : State (gmap Z (list Z)).
Context {platform : Platform}.

Lemma reset_cluster_chain_spec fuel de s s2 cs e :
  coherent s -> vol_ok (info (mounted s)) ->
  chain s (first_cluster_of de) cs e -> NoDup cs ->
  reset_cluster_chain fuel de s = Ok tt s2 ->
  coherent s2 /\ mounted s2 = mounted s /\
  (forall x, x ∈ cs -> fat_entry s2 x = Some 0) /\
  (forall a, (forall x, x ∈ cs -> fat_sector (info (mounted s)) x <> a) ->
     a <> fat_sector (info (mounted s)) e -> view s2 a = view s a) /\
  exists nxt s0 s1,
    read_fat_entry (first_cluster_of de) s = Ok nxt s0 /\
    reset_cluster_chain_walk fuel (first_cluster_of de) nxt s0 = Ok e s1 /\
    write_fat_entry e 0 s1 = Ok tt s2.
Proof.
  intros Hc Hv Hch Hnd H. unfold reset_cluster_chain in H.
  apply bind_Ok_inv in H as (nxt & s0 & Hr & H).
  apply bind_Ok_inv in H as (t & s1 & Hw & H).
  pose proof (preserving_read_fat_entry _ _ _ _ Hc Hr) as Hst.
  pose proof Hst as (Hc0 & Hm0 & Hv0).
  destruct (chain_members _ _ _ _ Hch) as ((cs' & ->) & Hmem).
  destruct (Hmem (first_cluster_of de) ltac:(apply elem_of_cons; auto)) as (Hd & [v Hfe]).
  destruct (data_cluster_range _ _ Hd) as (_ & _ & Ht).
  assert (Hn : fat_entry s0 (first_cluster_of de) = Some nxt).
  { rewrite (stable_fat_entry _ _ _ Hst). unfold fat_entry in Hfe |- *.
    destruct (view s _) as [b|] eqn:Hb; [|discriminate].
    apply (read_fat_entry_value _ _ _ _ Hc Hr b Hb). }
  assert (Hch0 : chain s0 (first_cluster_of de) (first_cluster_of de :: cs') e).
  { apply (chain_frame s); [assumption|assumption|].
    intros x _. apply (stable_fat_entry _ _ _ Hst). }
  assert (Hv1 : vol_ok (info (mounted s0))) by (rewrite Hm0; exact Hv).
  destruct (walk_spec _ _ _ _ _ _ _ _ Hc0 Hv1 Hch0 Hnd Hn Hw)
    as (-> & C1 & M1 & Z1 & F1 & V1).
  destruct (chain_end _ _ _ _ Hch) as (Hee & Re & Hnin).
  assert (Ht1 : type (info (mounted s1)) <> FAT12) by (rewrite M1, Hm0; exact Ht).
  assert (Hv2 : vol_ok (info (mounted s1))) by (rewrite M1; exact Hv1).
  pose proof (write_fat_entry_spec _ _ _ _ C1 H) as (C2 & M2 & F2 & _ & _).
  split; [exact C2|]. split; [congruence|]. split; [|split].
  - intros x Hx. rewrite <- (Z1 x Hx).
    apply (write_fat_entry_frame _ _ _ _ _ C1 Hv2 Ht1 H Re).
    + destruct (Hmem x Hx) as (Hdx & _). now apply data_cluster_range in Hdx.
    + intros ->. contradiction.
  - intros a Ha Ne. rewrite F2 by (rewrite M1, Hm0; exact Ne).
    rewrite V1; [apply Hv0|]. intros x Hx. rewrite Hm0. now apply Ha.
  - exists nxt, s0, s1. auto.
Qed.



Lemma sb_set_range_inv i src s s1 :
  sb_set_range i src s = Ok tt s1 ->
  s1 = with_sector_buffer (list_inserts (Z.to_nat i) src (sector_buffer s)) s.
Proof.
  unfold sb_set_range. destruct (_ && _); [|discriminate]. now intros [= <-].
Qed.

Lemma with_sector_buffer_twice b1 b2 (s : State (gmap Z (list Z))) :
  with_sector_buffer b2 (with_sector_buffer b1 s) = with_sector_buffer b2 s.
Proof. reflexivity. Qed.

Lemma remove_dir_entry_spec sec off s s1 :
  coherent s -> remove_dir_entry sec off s = Ok tt s1 ->
  coherent s1 /\ mounted s1 = mounted s /\
  forall a, a <> sec -> view s1 a = view s a.
Proof.
  intros Hc H. unfold remove_dir_entry in H.
  apply bind_Ok_inv in H as (st & s' & Hr & H).
  apply (fat_read_block_spec _ _ _ _ Hc) in Hr as ((Hc' & Hm' & Hv') & Ha & _).
  destruct (negb (st =? 0)).
  - injection H as <-. auto.
  - apply bind_Ok_inv in H as ([] & s2 & H1 & H).
    apply sb_set_range_inv in H1. subst s2.
    apply bind_Ok_inv in H as ([] & s3 & H2 & H).
    apply sb_set_inv in H2 as (E3 & _). subst s3.
    apply modify_inv in H. subst s1.
    rewrite with_sector_buffer_twice.
    set (b := <[_ := _]> _).
    destruct (view_buffer_update s' b) as (U1 & U2 & U3 & _).
    split; [exact U1|]. split; [exact (eq_trans U2 Hm')|].
    intros a Na. rewrite <- Hv'. apply U3. congruence.
Qed.
(** Removal away from the sector that the end-of-chain value indexes.
    When [cfs_remove] answers 0 for a path that resolves to a file whose
    cluster chain is [cs] (every cluster from the first to the one whose
    entry holds the end-of-chain value [e]), each FAT entry of the chain
    reads as 0 afterwards; and the walk over the chain leaves the sector of
    the file's directory entry as it was, provided that sector is not the
    one in which [calc_fat_block] places the entry of index [e], where
    the walk's last write goes.  The cache is coherent at the start,
    sectors have 512 bytes, the chain does not repeat a cluster, and the
    directory entry lies in no FAT sector of the chain. *)
Theorem cfs_remove_frees_chain fuel path s s' found dir_ent sector off s1 cs e :
  coherent s -> vol_ok (info (mounted s)) ->
  get_dir_entry fuel path uninitialised false s
    = Ok (found, (dir_ent, sector, off)) s1 ->
  cfs_remove fuel path s = Ok 0 s' ->
  chain s (first_cluster_of dir_ent) cs e -> NoDup cs ->
  (forall x, x ∈ cs -> fat_sector (info (mounted s)) x <> sector) ->
  fat_sector (info (mounted s)) e <> sector ->
  (forall x, x ∈ cs -> exists s'', read_fat_entry x s' = Ok 0 s'') /\
  (exists s2, reset_cluster_chain fuel dir_ent s1 = Ok tt s2 /\
              view s2 sector = view s sector).
Proof.
  intros Hc Hv Hg Hrm Hch Hnd Hsec Hesec.
  unfold cfs_remove in Hrm. rewrite (bind_Ok _ _ _ _ _ Hg) in Hrm.
  destruct (found =? 0); [discriminate Hrm|].
  destruct (_is_file dir_ent); [|discriminate Hrm].
  apply bind_Ok_inv in Hrm as ([] & s2 & Hrs & Hrm).
  apply bind_Ok_inv in Hrm as ([] & s3 & Hrd & Hrm).
  apply bind_Ok_inv in Hrm as ([] & s4 & Hfl & Hrm). injection Hrm as <-.
  pose proof (preserving_get_dir_entry _ _ _ _ _ _ Hc Hg) as Hst1.
  pose proof Hst1 as (C1 & M1 & V1).
  assert (Hch1 : chain s1 (first_cluster_of dir_ent) cs e).
  { apply (chain_frame s); [assumption|assumption|].
    intros x _. apply (stable_fat_entry _ _ _ Hst1). }
  assert (Hv1 : vol_ok (info (mounted s1))) by (rewrite M1; exact Hv).
  destruct (reset_cluster_chain_spec _ _ _ _ _ _ C1 Hv1 Hch1 Hnd Hrs)
    as (C2 & M2 & Z2 & F2 & _).
  destruct (remove_dir_entry_spec _ _ _ _ C2 Hrd) as (C3 & M3 & F3).
  pose proof (preserving_fat_flush _ _ _ C3 Hfl) as Hst4.
  pose proof Hst4 as (C4 & M4 & V4).
  split.
  - intros x Hx.
    destruct (chain_members _ _ _ _ Hch) as (_ & Hmem).
    destruct (Hmem x Hx) as (Hdx & _).
    destruct (data_cluster_range _ _ Hdx) as (Rx & _ & Ht).
    assert (M : mounted s4 = mounted s) by congruence.
    assert (Hz : fat_entry s4 x = Some 0).
    { rewrite (stable_fat_entry _ _ _ Hst4). rewrite <- (Z2 x Hx).
      unfold fat_entry. rewrite M3, F3; [reflexivity|].
      rewrite M2, M1. now apply Hsec. }
    destruct (fat_location _ x Hv Ht Rx) as (_ & _ & O1 & O2).
    destruct (read_fat_entry_Ok x 0 s4 C4) as (s'' & Hr & _); rewrite ?M; auto.
    + destruct Hv as (-> & _). lia.
    + eauto.
  - exists s2. split; [exact Hrs|]. rewrite <- V1. apply F2.
    + intros x Hx. rewrite M1. now apply Hsec.
    + rewrite M1. congruence.
Qed.

End Remove.

Section FinalWrite.
Implicit Types s : State (gmap Z (list Z)).

(** C10: after its loop [reset_cluster_chain] calls [write_fat_entry]
    once more, on the value [t] the walk stopped at, which is an
    end-of-chain value or below 2 and so no cluster of the file: the
    sector of FAT index [t] is loaded, marked dirty and its entry reads 0.
    For a first cluster of 0 this is FAT entry 0; for a file with chain
    [cs] ending in [e] it is the entry at index [e] itself, which lies
    outside the entries of the chain. *)
Theorem reset_cluster_chain_final_write fuel de s s2 :
  reset_cluster_chain fuel de s = Ok tt s2 ->
  let first := first_cluster_of de in
  let inf := info (mounted s) in
  exists nxt s0 t s1,
    read_fat_entry first s = Ok nxt s0 /\
    reset_cluster_chain_walk fuel first nxt s0 = Ok t s1 /\
    write_fat_entry t 0 s1 = Ok tt s2 /\
    (eoc_value (type inf) t = true \/ t < 2) /\
    sector_buffer_addr s2 = fat_sector inf t /\
    sector_buffer_dirty s2 = 1 /\
    (type inf <> FAT12 ->
       decode_entry (type inf) (sector_buffer s2) (fat_offset inf t) = Some 0) /\
    (first = 0 -> t = 0) /\
    (forall cs e,
       coherent s -> vol_ok inf -> chain s first cs e -> NoDup cs ->
       t = e /\ (e ∉ cs) /\
       forall x, x ∈ cs ->
         fat_sector inf x <> fat_sector inf e \/
         fat_offset inf e + entry_size (type inf) <= fat_offset inf x \/
         fat_offset inf x + entry_size (type inf) <= fat_offset inf e).
Proof.
  intros H. cbv zeta. pose proof H as H0. unfold reset_cluster_chain in H.
  apply bind_Ok_inv in H as (nxt & s0 & Hr & H).
  apply bind_Ok_inv in H as (t & s1 & Hw & H).
  exists nxt, s0, t, s1.
  pose proof (read_fat_entry_mounted _ _ _ _ Hr) as M0.
  pose proof (reset_cluster_chain_walk_exit _ _ _ _ _ _ Hw) as (M1 & Hex).
  rewrite M0 in Hex.
  pose proof (write_fat_entry_effect _ _ _ _ H) as (st & s' & Hrb & E2 & _ & Hoff).
  cbv zeta in Hoff. rewrite M1, M0 in E2, Hoff, Hrb.
  pose proof (fat_read_block_addr _ _ _ _ Hrb) as Ha.
  split; [exact Hr|]. split; [exact Hw|]. split; [exact H|]. split; [exact Hex|].
  split; [subst s2; exact Ha|]. split; [subst s2; reflexivity|].
  split; [|split].
  - intros Ht. destruct (Hoff Ht) as (O1 & _ & O3). subst s2. cbn.
    now apply decode_put_same.
  - intros E0. rewrite E0 in Hw. destruct fuel as [|fuel]; [discriminate Hw|].
    cbn [reset_cluster_chain_walk] in Hw.
    rewrite (bind_Ok _ _ _ _ _ (is_EOC_run 0 s0)), eoc_value_0 in Hw.
    cbn in Hw. now injection Hw as <- _.
  - intros cs e Hc Hv Hch Hnd.
    destruct (reset_cluster_chain_spec _ _ _ _ _ _ Hc Hv Hch Hnd H0)
      as (_ & _ & _ & _ & nxt' & s0' & s1' & Hr' & Hw' & _).
    rewrite Hr in Hr'. injection Hr' as <- <-.
    rewrite Hw in Hw'. injection Hw' as -> _.
    destruct (chain_end _ _ _ _ Hch) as (_ & Re & Hnin).
    split; [reflexivity|]. split; [exact Hnin|].
    intros x Hx. destruct (chain_members _ _ _ _ Hch) as (_ & Hmem).
    destruct (Hmem x Hx) as (Hd & _).
    destruct (data_cluster_range _ _ Hd) as (Rx & _ & Ht).
    apply fat_location_inj; auto. intros ->. contradiction.
Qed.

End FinalWrite.

Section DemoVolume.

Lemma demo_coherent : coherent demo_state.
Proof. intros _ H. exfalso. apply H. reflexivity. Qed.

Lemma demo_vol_ok : vol_ok (info (mounted demo_state)).
Proof. split; [reflexivity|]. cbn. lia. Qed.

Lemma demo_chain : chain demo_state 7 [7; 8] 0x0FFFFFFF.
Proof.
  apply chain_next with 8.
  - cbn. unfold data_cluster. lia.
  - vm_compute. reflexivity.
  - apply chain_last.
    + cbn. unfold data_cluster. lia.
    + vm_compute. reflexivity.
    + reflexivity.
    + lia.
Qed.

Lemma demo_NoDup : NoDup [7; 8].
Proof.
  apply NoDup_cons. split.
  - intros H. apply list_elem_of_singleton in H. discriminate H.
  - apply NoDup_singleton.
Qed.

End DemoVolume.

Lemma cfs_remove_frees_chain_witness :
  (forall x, x ∈ [7; 8] -> exists s'', read_fat_entry x removed_state = Ok 0 s'') /\
  (exists s2, reset_cluster_chain 10 foo_entry resolved_state = Ok tt s2 /\
              view s2 544 = view demo_state 544).
Proof.
  apply (cfs_remove_frees_chain 10 foo_path demo_state removed_state 1 foo_entry
           544 0 resolved_state [7; 8] 0x0FFFFFFF).
  - exact demo_coherent.
  - exact demo_vol_ok.
  - vm_compute. reflexivity.
  - vm_compute. reflexivity.
  - exact demo_chain.
  - exact demo_NoDup.
  - intros x Hx. apply elem_of_cons in Hx as [->|Hx];
      [|apply list_elem_of_singleton in Hx as ->]; vm_compute; discriminate.
  - vm_compute. discriminate.
Defined.

(** C6: a two-gigabyte FAT32 volume whose root directory has grown into
    cluster 261121 holds FOO.TXT (clusters 7 and 8, 5000 bytes) in the
    last slot of sector 2097183.  [cfs_remove] answers 0 and both FAT
    entries of the chain read 0 afterwards.  But the write that
    [reset_cluster_chain] issues after its loop takes the end-of-chain
    value 0x0FFFFFFF for a cluster number, and [calc_fat_block] places the
    FAT entry of that number at byte 508 of the same sector 2097183: when
    [reset_cluster_chain] returns, the file's directory entry is no
    longer what the path resolved to, its size field holds 0 in place of
    5000. *)
Theorem cfs_remove_final_write_clears_size :
  get_dir_entry 20 foo_path uninitialised false big_state
    = Ok (1, (foo_entry, 2097183, 480)) big_resolved /\
  cfs_remove 20 foo_path big_state = Ok 0 big_removed /\
  chain big_state 7 [7; 8] 0x0FFFFFFF /\
  (forall x, x ∈ [7; 8] -> exists s'', read_fat_entry x big_removed = Ok 0 s'') /\
  fat_sector big_info 0x0FFFFFFF = 2097183 /\
  fat_offset big_info 0x0FFFFFFF = 508 /\
  entry_at big_resolved 2097183 480 = Some foo_entry /\
  reset_cluster_chain 20 foo_entry big_resolved = Ok tt big_reset /\
  entry_at big_reset 2097183 480 = Some (set_file_size 0 foo_entry).
Proof.
  split; [vm_compute; reflexivity|].
  split; [vm_compute; reflexivity|].
  split.
  { apply chain_next with 8.
    - cbn. unfold data_cluster. lia.
    - vm_compute. reflexivity.
    - apply chain_last.
      + cbn. unfold data_cluster. lia.
      + vm_compute. reflexivity.
      + reflexivity.
      + lia. }
  split.
  { intros x Hx.
    exists (state_of (read_fat_entry x big_removed) big_removed).
    apply elem_of_cons in Hx as [-> | Hx];
      [|apply list_elem_of_singleton in Hx as ->]; vm_compute; reflexivity. }
  split; [vm_compute; reflexivity|].
  split; [vm_compute; reflexivity|].
  split; [vm_compute; reflexivity|].
  split; vm_compute; reflexivity.
Qed.

Lemma reset_cluster_chain_final_write_witness :
  exists nxt s0 t s1,
    read_fat_entry 7 demo_state = Ok nxt s0 /\
    reset_cluster_chain_walk 10 7 nxt s0 = Ok t s1 /\
    write_fat_entry t 0 s1 = Ok tt reset_state /\
    (eoc_value FAT32 t = true \/ t < 2) /\
    sector_buffer_addr reset_state = fat_sector demo_info t /\
    sector_buffer_dirty reset_state = 1 /\
    (FAT32 <> FAT12 ->
       decode_entry FAT32 (sector_buffer reset_state) (fat_offset demo_info t)
       = Some 0) /\
    (7 = 0 -> t = 0) /\
    (forall cs e,
       coherent demo_state -> vol_ok demo_info -> chain demo_state 7 cs e ->
       NoDup cs ->
       t = e /\ (e ∉ cs) /\
       forall x, x ∈ cs ->
         fat_sector demo_info x <> fat_sector demo_info e \/
         fat_offset demo_info e + 4 <= fat_offset demo_info x \/
         fat_offset demo_info x + 4 <= fat_offset demo_info e).
Proof.
  apply (reset_cluster_chain_final_write 10 foo_entry demo_state reset_state).
  vm_compute. reflexivity.
Defined.

(** ** Further properties: helpers *)

Lemma is_a_power_of_2_from_01 k : forall t v,
  is_a_power_of_2_from k t v = 0 \/ is_a_power_of_2_from k t v = 1.
Proof.
  induction k as [|k IH]; intros t v; simpl; [auto|].
  destruct (t =? v); auto.
Qed.

(** [is_a_power_of_2] answers 0 exactly for 0 and for the powers of two
    below 2^32, and 1 for everything else: zero passes the test. *)
Theorem is_a_power_of_2_answers v :
  (is_a_power_of_2 v = 0 <-> v = 0 \/ exists i, 0 <= i < 32 /\ v = 2^i) /\
  (is_a_power_of_2 v = 0 \/ is_a_power_of_2 v = 1).
Proof.
  split; [apply is_a_power_of_2_spec|].
  unfold is_a_power_of_2. destruct (v =? 0); [auto|].
  apply is_a_power_of_2_from_01.
Qed.

Lemma round_down_from_log2 (k : nat) : forall j v,
  0 <= j < Z.of_nat k -> 1 <= v < 2^(j+1) ->
  round_down_from k (2^j) v = 2^(Z.log2 v).
Proof.
  induction k as [|k IH]; intros j v Hj Hv; [lia|]. simpl.
  destruct (Z.ltb_spec v (2^j)) as [Hlt|Hge].
  - assert (1 <= j).
    { destruct (Z.eq_dec j 0) as [->|]; [simpl in Hlt; lia|lia]. }
    rewrite Z.shiftr_div_pow2 by lia.
    replace (2^j / 2^1) with (2^(j-1)).
    + apply IH; [lia|]. replace (j - 1 + 1) with j by lia. lia.
    + rewrite <- Z.pow_sub_r by lia. reflexivity.
  - f_equal. symmetry. apply Z.log2_unique; lia.
Qed.

(** [round_down_to_power_of_2] answers 0 for 0 and, for every other
    32-bit value, the largest power of two that does not exceed it. *)
Theorem round_down_to_power_of_2_correct v :
  0 <= v < 2^32 ->
  let r := round_down_to_power_of_2 v in
  (v = 0 -> r = 0) /\ (v <> 0 -> is_pow2 r /\ r <= v < 2 * r).
Proof.
  intros Hv. cbv zeta. split; [intros ->; reflexivity|intros Hnz].
  unfold round_down_to_power_of_2.
  change (u32 (Z.shiftl 1 31)) with (2^31).
  rewrite (round_down_from_log2 33 31 v) by (simpl; lia).
  pose proof (Z.log2_spec v ltac:(lia)) as (L1 & L2).
  pose proof (Z.log2_nonneg v).
  split; [exists (Z.log2 v); auto|]. split; [exact L1|].
  replace (2 * 2 ^ Z.log2 v) with (2 ^ Z.succ (Z.log2 v)); [exact L2|].
  rewrite Z.pow_succ_r by assumption. reflexivity.
Qed.

Lemma round_down_to_power_of_2_correct_witness :
  let r := round_down_to_power_of_2 1000 in
  (1000 = 0 -> r = 0) /\ (1000 <> 0 -> is_pow2 r /\ r <= 1000 < 2 * r).
Proof.
  apply (round_down_to_power_of_2_correct 1000). lia.
Defined.

Section Geometry.
Context {D : Type} {blockdev : BlockDevice D}.
Implicit Types s : State D.

(** Every sector of a data cluster is mapped back to the cluster:
    [SECTOR_TO_CLUSTER] undoes [CLUSTER_TO_SECTOR] on each of the
    [BPB_SecPerClus] sectors, as long as the sector numbers fit 32
    bits. *)
Theorem sector_to_cluster_of_cluster_to_sector s c k :
  let spc := BPB_SecPerClus (info (mounted s)) in
  let fds := first_data_sector (mounted s) in
  0 < spc -> 0 <= fds -> 2 <= c < 2^32 -> (c - 2) * spc + fds + spc <= 2^32 ->
  0 <= k < spc ->
  exists sec,
    CLUSTER_TO_SECTOR c s = Ok sec s /\
    sec = (c - 2) * spc + fds /\
    SECTOR_TO_CLUSTER (sec + k) s = Ok c s.
Proof.
  cbv zeta. intros Hspc Hfds Hc Hfit Hk.
  set (spc := BPB_SecPerClus (info (mounted s))) in *.
  set (fds := first_data_sector (mounted s)) in *.
  assert (Hc32 : c - 2 < 2^32) by lia.
  assert (Hm : 0 <= (c - 2) * spc) by nia.
  exists ((c - 2) * spc + fds).
  assert (E1 : CLUSTER_TO_SECTOR c s = Ok ((c - 2) * spc + fds) s).
  { unfold CLUSTER_TO_SECTOR. rewrite bind_gets. unfold ret. f_equal.
    fold spc fds. unfold u32.
    rewrite (Z.mod_small (c - 2)) by lia.
    rewrite (Z.mod_small ((c - 2) * spc)) by lia.
    apply Z.mod_small. lia. }
  split; [exact E1|]. split; [reflexivity|].
  unfold SECTOR_TO_CLUSTER. rewrite bind_gets. fold spc fds.
  unfold bind, udiv. destruct (Z.eqb_spec spc 0); [lia|]. unfold ret. f_equal.
  replace ((c - 2) * spc + fds + k - fds) with (k + (c - 2) * spc) by lia.
  unfold u32. rewrite (Z.mod_small (k + (c - 2) * spc)) by lia.
  rewrite Z.div_add by lia. rewrite Z.div_small by lia.
  rewrite Z.mod_small by lia. lia.
Qed.

End Geometry.

Lemma sector_to_cluster_of_cluster_to_sector_witness :
  exists sec,
    CLUSTER_TO_SECTOR 6 demo_state = Ok sec demo_state /\
    sec = (6 - 2) * 8 + 544 /\
    SECTOR_TO_CLUSTER (sec + 7) demo_state = Ok 6 demo_state.
Proof.
  apply (sector_to_cluster_of_cluster_to_sector demo_state 6 7); cbn; lia.
Defined.

(** ** Further properties: FAT entries and the sector buffer *)

Lemma le32_bytes v :
  le32 (u8 v) (u8 (Z.shiftr v 8)) (u8 (Z.shiftr v 16)) (u8 (Z.shiftr v 24)) = u32 v.
Proof.
  unfold le32, u8, u32. rewrite !Z.shiftr_div_pow2, !Z.shiftl_mul_pow2 by lia.
  change (2^8) with 256. change (2^16) with 65536. change (2^24) with 16777216.
  change (2^32) with 4294967296.
  Z.div_mod_to_equations. lia.
Qed.

Lemma le16_bytes v :
  Z.shiftl (u8 (Z.shiftr v 8)) 8 + u8 v = u16 v.
Proof.
  unfold u8, u16. rewrite !Z.shiftr_div_pow2, !Z.shiftl_mul_pow2 by lia.
  change (2^8) with 256. change (2^16) with 65536.
  Z.div_mod_to_equations. lia.
Qed.

Section EntryRoundTrip.
Context {D : Type} {blockdev : BlockDevice D}.
Implicit Types s : State D.

Lemma sb_get_run i v s :
  0 <= i < 512 -> sector_buffer s !! Z.to_nat i = Some v -> sb_get i s = Ok v s.
Proof.
  intros Hi Hl. unfold sb_get, in_bounds.
  destruct (Z.leb_spec 0 i); [|lia]. destruct (Z.ltb_spec i 512); [|lia].
  cbn. now rewrite Hl.
Qed.

Lemma fat_read_block_hit a s :
  sector_buffer_addr s = a -> a <> 0 -> fat_read_block a s = Ok 0 s.
Proof.
  intros Ha Na. unfold fat_read_block. rewrite bind_gets.
  destruct (Z.eqb_spec (sector_buffer_addr s) a); [|contradiction].
  destruct (Z.eqb_spec a 0); [contradiction|]. reflexivity.
Qed.

(** Reading a FAT entry right after writing it answers the value
    written, cut to 16 bits on FAT16 and to 28 bits on FAT32, from the
    buffer and without a device call (the FAT sector not being sector 0,
    which the cache never keeps). *)
Theorem read_fat_entry_after_write c v s s1 :
  write_fat_entry c v s = Ok tt s1 ->
  fat_sector (info (mounted s)) c <> 0 ->
  read_fat_entry c s1
  = Ok (match type (info (mounted s)) with
        | FAT16 => u16 v
        | FAT32 => Z.land (u32 v) 0x0FFFFFFF
        | FAT12 => EOC
        end) s1.
Proof.
  intros Hw Hsec.
  pose proof (write_fat_entry_mounted _ _ _ _ Hw) as Hm.
  apply write_fat_entry_effect in Hw as (st & s' & Hr & -> & Hb & Hoff).
  pose proof (fat_read_block_addr _ _ _ _ Hr) as Ha.
  set (inf := info (mounted s)) in *. set (off := fat_offset inf c) in *.
  set (b := sector_buffer s') in *.
  set (s1 := with_sector_buffer_dirty 1 _) in *.
  assert (Hi : info (mounted s1) = inf) by (unfold inf; now rewrite Hm).
  unfold read_fat_entry.
  rewrite (bind_Ok _ _ _ _ _ (calc_fat_block_Ok c s1 ltac:(rewrite Hi; exact Hb))).
  rewrite Hi. fold off.
  rewrite (bind_Ok _ _ _ _ _ (fat_read_block_hit _ s1 Ha Hsec)).
  unfold mounted_info. rewrite bind_gets, Hi.
  destruct (type inf) eqn:Ht; [reflexivity| |];
    destruct (Hoff ltac:(discriminate)) as (O1 & O2 & O3);
    cbn [entry_size put_entry] in *.
  - assert (L1 : sector_buffer s1 !! Z.to_nat (off + 1) = Some (u8 (Z.shiftr v 8))).
    { cbn. rewrite list_lookup_insert_ne by lia.
      apply list_lookup_insert_eq. fold b. lia. }
    assert (L0 : sector_buffer s1 !! Z.to_nat off = Some (u8 v)).
    { cbn. apply list_lookup_insert_eq. rewrite length_insert. fold b. lia. }
    rewrite (bind_Ok _ _ _ _ _ (sb_get_run (off + 1) _ s1 ltac:(lia) L1)).
    rewrite (bind_Ok _ _ _ _ _ (sb_get_run off _ s1 ltac:(lia) L0)).
    unfold ret. f_equal. rewrite le16_bytes. unfold u32, u16.
    apply Z.mod_small. pose proof (Z.mod_pos_bound v (2^16) ltac:(lia)). lia.
  - assert (L3 : sector_buffer s1 !! Z.to_nat (off + 3) = Some (u8 (Z.shiftr v 24))).
    { cbn. rewrite !list_lookup_insert_ne by lia.
      apply list_lookup_insert_eq. fold b. lia. }
    assert (L2 : sector_buffer s1 !! Z.to_nat (off + 2) = Some (u8 (Z.shiftr v 16))).
    { cbn. rewrite !list_lookup_insert_ne by lia.
      apply list_lookup_insert_eq. rewrite !length_insert. fold b. lia. }
    assert (L1 : sector_buffer s1 !! Z.to_nat (off + 1) = Some (u8 (Z.shiftr v 8))).
    { cbn. rewrite !list_lookup_insert_ne by lia.
      apply list_lookup_insert_eq. rewrite !length_insert. fold b. lia. }
    assert (L0 : sector_buffer s1 !! Z.to_nat off = Some (u8 v)).
    { cbn. apply list_lookup_insert_eq. rewrite !length_insert. fold b. lia. }
    rewrite (bind_Ok _ _ _ _ _ (sb_get_run (off + 3) _ s1 ltac:(lia) L3)).
    rewrite (bind_Ok _ _ _ _ _ (sb_get_run (off + 2) _ s1 ltac:(lia) L2)).
    rewrite (bind_Ok _ _ _ _ _ (sb_get_run (off + 1) _ s1 ltac:(lia) L1)).
    rewrite Z.add_0_r.
    rewrite (bind_Ok _ _ _ _ _ (sb_get_run off _ s1 ltac:(lia) L0)).
    unfold ret. f_equal. rewrite le32_bytes. f_equal. unfold u32.
    apply Z.mod_mod. lia.
Qed.

(** The write-back discipline of [fat_read_block]: a request for the
    sector already held (other than sector 0) touches nothing; any other
    request first writes the buffer back if it is dirty, then reads the
    new sector, and leaves the buffer clean at the new address. *)
Theorem fat_read_block_discipline a s st s1 :
  fat_read_block a s = Ok st s1 ->
  if (sector_buffer_addr s =? a) && negb (a =? 0)
  then s1 = s /\ st = 0
  else io_log s1
       = io_log s
         ++ (if sector_buffer_dirty s =? 0 then []
             else [IoWrite (sector_buffer_addr s) (sector_buffer s)])
         ++ [IoRead a]
       /\ sector_buffer_dirty s1 = 0 /\ sector_buffer_addr s1 = a.
Proof.
  unfold fat_read_block. rewrite bind_gets.
  destruct ((sector_buffer_addr s =? a) && negb (a =? 0)).
  - now intros [= <- <-].
  - intros H. apply bind_Ok_inv in H as ([] & s2 & Hf & H).
    apply bind_Ok_inv in H as ([] & s3 & Hm & H). apply modify_inv in Hm. subst s3.
    apply bind_Ok_inv in H as (st0 & s4 & Hrd & H). injection H as <- <-.
    unfold dev_read in Hrd. cbn in Hrd.
    destruct (diskio_read_block _ _ _) as [[x y] z]. injection Hrd as <- <-. cbn.
    destruct (Z.eqb_spec (sector_buffer_dirty s) 0) as [E|N].
    + rewrite (fat_flush_clean s E) in Hf. injection Hf as <-. auto.
    + rewrite (fat_flush_dirty s N) in Hf. injection Hf as <-. cbn.
      rewrite <- app_assoc. auto.
Qed.

End EntryRoundTrip.

Lemma read_fat_entry_after_write_witness :
  read_fat_entry 9 (state_of (write_fat_entry 9 0xFABCDEF5 demo_state) demo_state)
  = Ok (Z.land (u32 0xFABCDEF5) 0x0FFFFFFF)
       (state_of (write_fat_entry 9 0xFABCDEF5 demo_state) demo_state).
Proof.
  apply (read_fat_entry_after_write 9 0xFABCDEF5 demo_state).
  - vm_compute. reflexivity.
  - vm_compute. discriminate.
Defined.

Lemma fat_read_block_discipline_witness :
  let s := with_sector_buffer_dirty 1 (with_sector_buffer_addr 32 demo_state) in
  let s1 := state_of (fat_read_block 544 s) s in
  io_log s1 = io_log s ++ [IoWrite 32 (sector_buffer s)] ++ [IoRead 544] /\
  sector_buffer_dirty s1 = 0 /\ sector_buffer_addr s1 = 544.
Proof.
  cbv zeta.
  apply (fat_read_block_discipline 544
           (with_sector_buffer_dirty 1 (with_sector_buffer_addr 32 demo_state)) 0).
  vm_compute. reflexivity.
Defined.

(** ** Further properties: the volume behind the cache *)

Section VolumeMore.
Implicit Types s : State (gmap Z (list Z)).

Lemma decode_put_value t off v b :
  t <> FAT12 -> 0 <= off -> off + entry_size t <= Z.of_nat (length b) ->
  decode_entry t (put_entry t off v b) off
  = Some (match t with FAT16 => u16 v | _ => Z.land (u32 v) 0x0FFFFFFF end).
Proof.
  intros Ht Ho Hl. destruct t; [contradiction| |]; cbn [decode_entry put_entry entry_size] in *.
  - rewrite list_lookup_insert_ne by lia.
    rewrite list_lookup_insert_eq by lia.
    rewrite list_lookup_insert_eq by (rewrite length_insert; lia).
    rewrite le16_bytes. f_equal. unfold u32, u16.
    apply Z.mod_small. pose proof (Z.mod_pos_bound v (2^16) ltac:(lia)). lia.
  - rewrite !(list_lookup_insert_ne _ _ (Z.to_nat (off + 3))) by lia.
    rewrite list_lookup_insert_eq by lia.
    rewrite !(list_lookup_insert_ne _ _ (Z.to_nat (off + 2))) by lia.
    rewrite list_lookup_insert_eq by (rewrite !length_insert; lia).
    rewrite !(list_lookup_insert_ne _ _ (Z.to_nat (off + 1))) by lia.
    rewrite list_lookup_insert_eq by (rewrite !length_insert; lia).
    rewrite list_lookup_insert_eq by (rewrite !length_insert; lia).
    rewrite le32_bytes. do 2 f_equal. unfold u32. apply Z.mod_mod. lia.
Qed.

(** On a volume with 512-byte sectors [write_fat_entry] changes the FAT
    entry of its cluster and no other: the entry then holds the value
    (cut to the width of the FAT), every other entry what it held. *)
Theorem write_fat_entry_updates_one_entry c v s s1 :
  coherent s -> vol_ok (info (mounted s)) ->
  type (info (mounted s)) <> FAT12 ->
  0 <= c < 2^28 -> is_Some (fat_entry s c) ->
  write_fat_entry c v s = Ok tt s1 ->
  fat_entry s1 c
  = Some (match type (info (mounted s)) with
          | FAT16 => u16 v
          | _ => Z.land (u32 v) 0x0FFFFFFF
          end) /\
  forall c', 0 <= c' < 2^28 -> c' <> c -> fat_entry s1 c' = fat_entry s c'.
Proof.
  intros Hc Hv Ht Rc [old Ho] Hw. split.
  - destruct (write_fat_entry_spec _ _ _ _ Hc Hw) as (_ & Hm & _ & Hs & Hoff).
    unfold fat_entry in *. rewrite Hm, Hs.
    destruct (view s _) as [b|]; [cbn|discriminate].
    destruct (Hoff Ht) as (O1 & _ & O3). apply decode_put_value; auto.
  - intros c' Rc' N. now apply (write_fat_entry_frame c v).
Qed.

(** Resolving a path without the create flag never changes the volume:
    whatever the answer, every sector reads as before through the cache,
    the cache is still coherent and the volume descriptor is untouched. *)
Theorem get_dir_entry_read_only fuel path out s r s1 :
  coherent s ->
  get_dir_entry fuel path out false s = Ok r s1 ->
  coherent s1 /\ mounted s1 = mounted s /\ forall a, view s1 a = view s a.
Proof.
  intros Hc H. exact (preserving_get_dir_entry fuel path out s r s1 Hc H).
Qed.

Lemma find_nth_cluster_from_chain (k : nat) : forall cs c e s,
  coherent s -> vol_ok (info (mounted s)) -> chain s c cs e ->
  (k <= length cs)%nat ->
  exists s1, find_nth_cluster_from k c s = Ok (nth k (cs ++ [e]) 0) s1 /\
             stable s s1.
Proof.
  induction k as [|k IH]; intros cs c e s Hc Hv Hch Hk.
  - destruct (chain_members _ _ _ _ Hch) as ((cs' & ->) & _).
    exists s. split; [reflexivity|now apply stable_refl].
  - destruct (chain_members _ _ _ _ Hch) as ((cs' & E) & Hmem). subst cs.
    destruct (Hmem c ltac:(apply elem_of_cons; auto)) as (Hd & _).
    destruct (data_cluster_range _ _ Hd) as (Rc & _ & Ht).
    destruct (fat_location _ c Hv Ht Rc) as (_ & _ & O1 & O2).
    assert (Hb : BPB_BytesPerSec (info (mounted s)) <> 0)
      by (destruct Hv as (-> & _); discriminate).
    cbn [find_nth_cluster_from].
    inversion Hch as [c1 e1 _ He1 Hee Hre|c1 c' cs1 e1 _ He1 Hch']; subst.
    + destruct (read_fat_entry_Ok c e s Hc Hb O1 O2 He1) as (s1 & Hr & Hst).
      rewrite (bind_Ok _ _ _ _ _ Hr). cbn in Hk.
      assert (k = 0%nat) by lia. subst k. exists s1. split; [reflexivity|exact Hst].
    + destruct (read_fat_entry_Ok c c' s Hc Hb O1 O2 He1) as (s1 & Hr & Hst).
      rewrite (bind_Ok _ _ _ _ _ Hr).
      pose proof Hst as (C1 & M1 & V1).
      assert (Hch1 : chain s1 c' cs' e).
      { apply (chain_frame s); [assumption|assumption|].
        intros x _. apply (stable_fat_entry _ _ _ Hst). }
      destruct (IH cs' c' e s1 C1 ltac:(rewrite M1; exact Hv) Hch1 ltac:(cbn in Hk; lia))
        as (s2 & Hf & Hst2).
      exists s2. split; [exact Hf|]. eapply stable_trans; eassumption.
Qed.

(** [find_nth_cluster] follows the chain: from the first cluster of a
    chain [cs] ending in [e] its answer for [n] is the [n]th cluster of
    the chain, and the end-of-chain value for [n] the length of the
    chain; the volume is left as it was. *)
Theorem find_nth_cluster_along_chain cs c e n s :
  coherent s -> vol_ok (info (mounted s)) -> chain s c cs e ->
  0 <= n <= Z.of_nat (length cs) ->
  exists s1,
    find_nth_cluster c n s = Ok (nth (Z.to_nat n) (cs ++ [e]) 0) s1 /\
    mounted s1 = mounted s /\ forall a, view s1 a = view s a.
Proof.
  intros Hc Hv Hch Hn. unfold find_nth_cluster.
  destruct (find_nth_cluster_from_chain (Z.to_nat n) cs c e s Hc Hv Hch ltac:(lia))
    as (s1 & Hf & (_ & M & V)).
  exists s1. auto.
Qed.

Lemma sb_set_range_Ok i src s :
  0 <= i -> i + Z.of_nat (length src) <= 512 ->
  i + Z.of_nat (length src) <= Z.of_nat (length (sector_buffer s)) ->
  sb_set_range i src s
  = Ok tt (with_sector_buffer (list_inserts (Z.to_nat i) src (sector_buffer s)) s).
Proof.
  intros H0 H1 H2. unfold sb_set_range.
  destruct (Z.leb_spec 0 i); [|lia].
  destruct (Z.leb_spec (i + Z.of_nat (length src)) 512); [|lia].
  destruct (Z.leb_spec (i + Z.of_nat (length src)) (Z.of_nat (length (sector_buffer s))));
    [|lia]. reflexivity.
Qed.

Lemma sb_set_Ok i v s :
  0 <= i < 512 -> i < Z.of_nat (length (sector_buffer s)) ->
  sb_set i v s = Ok tt (with_sector_buffer (<[Z.to_nat i := u8 v]> (sector_buffer s)) s).
Proof.
  intros H0 H1. unfold sb_set, in_bounds.
  destruct (Z.leb_spec 0 i); [|lia]. destruct (Z.ltb_spec i 512); [|lia].
  destruct (Z.ltb_spec i (Z.of_nat (length (sector_buffer s)))); [|lia]. reflexivity.
Qed.

(** [remove_dir_entry] on a sector the device has: the 32 bytes of the
    slot become E5 followed by zeros, the rest of the sector and every
    other sector stay as they were. *)
Theorem remove_dir_entry_marks_slot sec off s b :
  coherent s -> view s sec = Some b ->
  0 <= off -> off + 32 <= 512 -> off + 32 <= Z.of_nat (length b) ->
  exists s1,
    remove_dir_entry sec off s = Ok tt s1 /\
    view s1 sec
    = Some (<[Z.to_nat off := 0xE5]> (list_inserts (Z.to_nat off) (replicate 32 0) b)) /\
    (forall a, a <> sec -> view s1 a = view s a) /\
    coherent s1.
Proof.
  intros Hc Hv O1 O2 O3. unfold remove_dir_entry.
  destruct (fat_read_block_total sec s) as (st & s' & Hr).
  rewrite (bind_Ok _ _ _ _ _ Hr).
  destruct (fat_read_block_spec _ _ _ _ Hc Hr) as ((Hc' & Hm' & Hv') & Ha & Hbuf).
  destruct (Hbuf b Hv) as (-> & Eb). cbn [Z.eqb negb].
  rewrite (bind_Ok _ _ _ _ _
             (sb_set_range_Ok off (replicate 32 0) s' O1
                ltac:(rewrite length_replicate; lia)
                ltac:(rewrite length_replicate, Eb; lia))).
  set (s2 := with_sector_buffer _ s').
  rewrite (bind_Ok _ _ _ _ _
             (sb_set_Ok off 0xE5 s2 ltac:(lia)
                ltac:(unfold s2, with_sector_buffer; cbn [sector_buffer]; rewrite length_inserts, Eb; lia))).
  unfold modify. eexists. split; [reflexivity|].
  subst s2. rewrite with_sector_buffer_twice.
  match goal with |- context [with_sector_buffer ?b0 s'] =>
    destruct (view_buffer_update s' b0) as (U1 & U2 & U3 & U4) end.
  split; [|split].
  - rewrite Ha in U4. rewrite U4. cbn. rewrite Eb.
    rewrite <- Hv' in Hv. unfold view in Hv.
    destruct (device s' !! sec); [reflexivity|discriminate].
  - intros a Na. rewrite <- Hv'. apply U3. congruence.
  - exact U1.
Qed.

End VolumeMore.

Lemma write_fat_entry_updates_one_entry_witness :
  let s1 := state_of (write_fat_entry 9 0xFABCDEF5 demo_state) demo_state in
  fat_entry s1 9 = Some (Z.land (u32 0xFABCDEF5) 0x0FFFFFFF) /\
  forall c', 0 <= c' < 2^28 -> c' <> 9 -> fat_entry s1 c' = fat_entry demo_state c'.
Proof.
  cbv zeta.
  apply (write_fat_entry_updates_one_entry 9 0xFABCDEF5 demo_state).
  - exact demo_coherent.
  - exact demo_vol_ok.
  - cbn. discriminate.
  - lia.
  - exists 0. vm_compute. reflexivity.
  - vm_compute. reflexivity.
Defined.

Lemma get_dir_entry_read_only_witness :
  coherent resolved_state /\ mounted resolved_state = mounted demo_state /\
  forall a, view resolved_state a = view demo_state a.
Proof.
  apply (get_dir_entry_read_only 10 foo_path uninitialised demo_state
           (1, (foo_entry, 544, 0)) resolved_state).
  - exact demo_coherent.
  - vm_compute. reflexivity.
Defined.

Lemma find_nth_cluster_along_chain_witness :
  exists s1,
    find_nth_cluster 7 1 demo_state = Ok (nth (Z.to_nat 1) ([7; 8] ++ [0x0FFFFFFF]) 0) s1 /\
    mounted s1 = mounted demo_state /\ forall a, view s1 a = view demo_state a.
Proof.
  apply (find_nth_cluster_along_chain [7; 8] 7 0x0FFFFFFF 1 demo_state).
  - exact demo_coherent.
  - exact demo_vol_ok.
  - exact demo_chain.
  - cbn. lia.
Defined.

Lemma remove_dir_entry_marks_slot_witness :
  exists s1,
    remove_dir_entry 544 32 demo_state = Ok tt s1 /\
    view s1 544
    = Some (<[Z.to_nat 32 := 0xE5]>
              (list_inserts (Z.to_nat 32) (replicate 32 0) demo_root)) /\
    (forall a, a <> 544 -> view s1 a = view demo_state a) /\
    coherent s1.
Proof.
  apply (remove_dir_entry_marks_slot 544 32 demo_state demo_root).
  - exact demo_coherent.
  - vm_compute. reflexivity.
  - lia.
  - lia.
  - vm_compute. discriminate.
Defined.

(** ** Short names *)

Section ShortNames.
Context {D : Type}.
Implicit Types s : State D.

Lemma toupper_dot c : (toupper c =? 46) = (c =? 46).
Proof.
  unfold toupper. destruct (Z.leb_spec 97 c), (Z.leb_spec c 122); cbn [andb];
    try reflexivity.
  destruct (Z.eqb_spec (c - 32) 46), (Z.eqb_spec c 46); try reflexivity; lia.
Qed.

Lemma toupper_idem c : toupper (toupper c) = toupper c.
Proof.
  unfold toupper. destruct (Z.leb_spec 97 c), (Z.leb_spec c 122); cbn [andb].
  - destruct (Z.leb_spec 97 (c - 32)), (Z.leb_spec (c - 32) 122); cbn [andb];
      try reflexivity; lia.
  - destruct (Z.leb_spec 97 c), (Z.leb_spec c 122); cbn [andb]; try reflexivity; lia.
  - destruct (Z.leb_spec 97 c), (Z.leb_spec c 122); cbn [andb]; try reflexivity; lia.
  - destruct (Z.leb_spec 97 c), (Z.leb_spec c 122); cbn [andb]; try reflexivity; lia.
Qed.

Lemma path_at_toupper path i s :
  path_at (map toupper path) i s
  = match path_at path i s with
    | Ok c s' => Ok (toupper c) s'
    | Undefined => Undefined
    | OutOfFuel => OutOfFuel
    end.
Proof.
  unfold path_at. rewrite length_map.
  destruct (_ && _); [|reflexivity].
  f_equal. change 0 with (toupper 0) at 1. apply map_nth.
Qed.

Lemma make_valid_name_from_toupper k : forall path start i idx dot nm s,
  _make_valid_name_from k (map toupper path) start i idx dot nm s
  = _make_valid_name_from k path start i idx dot nm s.
Proof.
  induction k as [|k IH]; intros; [reflexivity|]. cbn [_make_valid_name_from].
  destruct (11 <=? idx); [reflexivity|].
  unfold bind. rewrite path_at_toupper.
  destruct (path_at path (start + i) s) as [c s'| |]; [|reflexivity|reflexivity].
  rewrite toupper_dot. destruct (c =? 46).
  - destruct dot; [reflexivity|apply IH].
  - destruct (negb dot && (7 <? idx)); [reflexivity|].
    rewrite toupper_idem. apply IH.
Qed.

(** [_make_valid_name] does not tell lower-case letters from upper-case
    ones: a path and the path with its letters a-z folded to A-Z give
    the same answer and the same name. *)
Theorem make_valid_name_folds_case path start end_ s :
  _make_valid_name (map toupper path) start end_ s
  = _make_valid_name path start end_ s.
Proof. apply make_valid_name_from_toupper. Qed.

Lemma make_valid_name_from_shape k : forall path start i idx dot nm s r nm1 s1,
  _make_valid_name_from k path start i idx dot nm s = Ok (r, nm1) s1 ->
  s1 = s /\ length nm1 = length nm /\ (r = 0 \/ r = 2 \/ r = 3 \/ r = 4).
Proof.
  induction k as [|k IH]; intros path start i idx dot nm s r nm1 s1;
    cbn [_make_valid_name_from].
  - intros [= <- <- <-]. auto 10.
  - destruct (11 <=? idx); [intros [= <- <- <-]; auto 10|].
    intros H. apply bind_Ok_inv in H as (c & s' & Hc & H).
    apply pure_path_at in Hc as ->.
    destruct (c =? 46).
    + destruct dot; [injection H as <- <- <-; auto 10|]. now apply IH in H.
    + destruct (negb dot && (7 <? idx)); [injection H as <- <- <-; auto 10|].
      apply IH in H as (-> & L & R). rewrite length_insert in L. auto 10.
Qed.

(** Whatever the path, [_make_valid_name] answers 0, 2, 3 or 4, hands
    back eleven bytes and changes nothing of the driver's state. *)
Theorem make_valid_name_answers path start end_ s r nm s1 :
  _make_valid_name path start end_ s = Ok (r, nm) s1 ->
  s1 = s /\ length nm = 11%nat /\ (r = 0 \/ r = 2 \/ r = 3 \/ r = 4).
Proof.
  intros H. apply make_valid_name_from_shape in H as (-> & L & R).
  rewrite length_replicate in L. auto 10.
Qed.

(** One round of the loop on a character that is no dot, with room left
    in the part of the name it goes to. *)
Lemma make_valid_name_from_step (k : nat) (p1 p3 n1 n3 : list Z) c y start i
    (dot : bool) s :
  c <> 46 -> start + i = Z.of_nat (length p1) -> 0 <= i < 255 ->
  (length n1 < (if dot then 11 else 8))%nat ->
  _make_valid_name_from (S k) (p1 ++ c :: p3) start i
    (Z.of_nat (length n1)) dot (n1 ++ y :: n3) s
  = _make_valid_name_from k (p1 ++ c :: p3) start (i + 1)
      (Z.of_nat (length n1) + 1) dot (n1 ++ toupper c :: n3) s.
Proof.
  intros Hc Hp Hi Hroom. cbn [_make_valid_name_from].
  destruct (Z.leb_spec 11 (Z.of_nat (length n1))); [destruct dot; lia|].
  unfold bind at 1, path_at at 1. rewrite Hp, length_app. cbn [length].
  destruct (Z.leb_spec 0 (Z.of_nat (length p1))); [|lia].
  destruct (Z.leb_spec (Z.of_nat (length p1))
              (Z.of_nat (length p1 + S (length p3)))); [|lia].
  cbn [andb]. rewrite Nat2Z.id, nth_middle.
  destruct (Z.eqb_spec c 46); [contradiction|].
  assert (Hg : negb dot && (7 <? Z.of_nat (length n1)) = false).
  { destruct dot; [reflexivity|]. cbn [negb andb].
    destruct (Z.ltb_spec 7 (Z.of_nat (length n1))); [lia|reflexivity]. }
  rewrite Hg, Nat2Z.id.
  rewrite insert_app_r_alt, Nat.sub_diag by lia. cbn [insert list_insert].
  unfold u8. rewrite !Z.mod_small by (destruct dot; lia). reflexivity.
Qed.

(** The copying phase of the loop: characters that are no dot, with room
    left in the part of the name they go to. *)
Lemma make_valid_name_from_run (cs : list Z) :
  forall (k : nat) (p1 p3 n1 n2 n3 : list Z) start i (dot : bool) s,
  Forall (fun c => c <> 46) cs ->
  start + i = Z.of_nat (length p1) -> 0 <= i ->
  i + Z.of_nat (length cs) < 256 ->
  length n2 = length cs ->
  (length n1 + length cs <= (if dot then 11 else 8))%nat ->
  _make_valid_name_from (length cs + k) (p1 ++ cs ++ p3) start i
    (Z.of_nat (length n1)) dot (n1 ++ n2 ++ n3) s
  = _make_valid_name_from k (p1 ++ cs ++ p3) start (i + Z.of_nat (length cs))
      (Z.of_nat (length n1) + Z.of_nat (length cs)) dot
      (n1 ++ map toupper cs ++ n3) s.
Proof.
  induction cs as [|c cs IH]; intros k p1 p3 n1 n2 n3 start i dot s Hcs Hp Hi Hl Hn Hroom.
  - destruct n2; [|discriminate]. cbn. now rewrite !Z.add_0_r.
  - destruct n2 as [|y n2]; [discriminate|]. cbn [length] in *.
    apply Forall_cons in Hcs as (Hc & Hcs).
    change (S (length cs) + k)%nat with (S (length cs + k)).
    change (p1 ++ (c :: cs) ++ p3) with (p1 ++ c :: (cs ++ p3)).
    change (n1 ++ (y :: n2) ++ n3) with (n1 ++ y :: (n2 ++ n3)).
    rewrite make_valid_name_from_step; try assumption; try lia;
      try (destruct dot; lia).
    assert (E1 : p1 ++ c :: cs ++ p3 = (p1 ++ [c]) ++ cs ++ p3)
      by (now rewrite <- app_assoc).
    assert (E2 : n1 ++ toupper c :: n2 ++ n3 = (n1 ++ [toupper c]) ++ n2 ++ n3)
      by (now rewrite <- app_assoc).
    assert (E3 : Z.of_nat (length n1) + 1 = Z.of_nat (length (n1 ++ [toupper c])))
      by (rewrite length_app; cbn [length]; lia).
    rewrite E1, E2, E3.
    rewrite (IH k (p1 ++ [c]) p3 (n1 ++ [toupper c]) n2 n3 start (i + 1) dot s);
      try assumption; try (rewrite ?length_app; cbn [length]; lia).
    rewrite <- E3. cbn [map]. rewrite <- (app_assoc n1 [toupper c]). cbn [app].
    f_equal; lia.
Qed.

(** The 8.3 layout: for a path part [base.ext] (neither holding a dot,
    at most eight and three characters) found behind [pre] in the path
    and ending at index 255 at the latest, as far as the [uint8_t] bounds
    [start] and [end] of the function reach, [_make_valid_name] answers 0
    with the base in upper case padded with spaces to eight bytes,
    followed by the extension in upper case padded to three. *)
Theorem make_valid_name_8_3 pre base ext rest s :
  Forall (fun c => c <> 46) base -> Forall (fun c => c <> 46) ext ->
  (length base <= 8)%nat -> (length ext <= 3)%nat ->
  let start := Z.of_nat (length pre) in
  let end_ := start + Z.of_nat (length base) + 1 + Z.of_nat (length ext) in
  end_ <= 255 ->
  _make_valid_name (pre ++ base ++ 46 :: ext ++ rest) start end_ s
  = Ok (0, map toupper base ++ replicate (8 - length base) 0x20
           ++ map toupper ext ++ replicate (3 - length ext) 0x20) s.
Proof.
  intros Hb He Lb Le start end_ _. unfold _make_valid_name.
  replace (Z.to_nat (end_ - start)) with (length base + S (length ext))%nat
    by (subst start end_; lia).
  replace (replicate 11 32)
    with (replicate (length base) 32 ++ replicate (11 - length base) 32)
    by (rewrite <- replicate_add; f_equal; lia).
  pose proof (make_valid_name_from_run base (S (length ext)) pre
                (46 :: ext ++ rest) [] (replicate (length base) 32)
                (replicate (11 - length base) 32) start 0 false s Hb) as R1.
  cbn [length app] in R1. change (Z.of_nat 0) with 0 in R1.
  rewrite !Z.add_0_l in R1.
  rewrite R1; try lia; [|now rewrite length_replicate]. clear R1.
  assert (E : replicate (11 - length base) 32
              = replicate (8 - length base) 32 ++ replicate (length ext) 32
                ++ replicate (3 - length ext) 32).
  { rewrite <- !replicate_add. f_equal. lia. }
  cbn [_make_valid_name_from].
  destruct (Z.leb_spec 11 (Z.of_nat (length base))); [lia|].
  unfold bind at 1, path_at at 1.
  rewrite !length_app. cbn [length]. rewrite length_app.
  destruct (Z.leb_spec 0 (start + Z.of_nat (length base))); [|lia].
  destruct (Z.leb_spec (start + Z.of_nat (length base))
              (Z.of_nat (length pre + (length base + S (length ext + length rest)))));
    [|lia].
  cbn [andb].
  replace (Z.to_nat (start + Z.of_nat (length base))) with (length (pre ++ base))
    by (rewrite length_app; lia).
  rewrite (app_assoc pre base), nth_middle. cbn [Z.eqb Pos.eqb].
  change (u8 (7 + 1)) with 8.
  replace (u8 (Z.of_nat (length base) + 1)) with (Z.of_nat (length base) + 1)
    by (unfold u8; rewrite Z.mod_small; lia).
  rewrite E, (app_assoc (map toupper base)).
  pose proof (make_valid_name_from_run ext 0 ((pre ++ base) ++ [46]) rest
                (map toupper base ++ replicate (8 - length base) 32)
                (replicate (length ext) 32) (replicate (3 - length ext) 32)
                start (Z.of_nat (length base) + 1) true s He) as R3.
  rewrite !length_app, !length_map, !length_replicate in R3. cbn [length] in R3.
  rewrite Nat.add_0_r, <- (app_assoc (pre ++ base) [46]) in R3. cbn [app] in R3.
  replace (Z.of_nat (length base + (8 - length base))) with 8 in R3 by lia.
  rewrite R3; try lia.
  cbn [_make_valid_name_from]. unfold ret. now rewrite <- app_assoc.
Qed.

End ShortNames.

Lemma make_valid_name_answers_witness :
  demo_state = demo_state /\ length (c_str "TOOLONGN   ") = 11%nat /\
  (4 = 0 \/ 4 = 2 \/ 4 = 3 \/ 4 = 4).
Proof.
  apply (make_valid_name_answers (c_str "toolongname.txt") 0 15 demo_state 4
           (c_str "TOOLONGN   ") demo_state).
  vm_compute. reflexivity.
Defined.

Lemma make_valid_name_8_3_witness :
  _make_valid_name (c_str "/logs/" ++ c_str "data" ++ 46 :: c_str "c" ++ [0]) 6 12
    demo_state
  = Ok (0, c_str "DATA    C  ") demo_state.
Proof.
  apply (make_valid_name_8_3 (c_str "/logs/") (c_str "data") (c_str "c") [0] demo_state).
  - repeat constructor; discriminate.
  - repeat constructor; discriminate.
  - cbn. lia.
  - cbn. lia.
  - cbn. lia.
Defined.

(** ** The cursor *)

Section Seek.
Context {D : Type} {blockdev : BlockDevice D} {platform : Platform}.
Implicit Types s : State D.

Lemma in_sint_sint w x : in_sint w (sint w x) = true.
Proof.
  unfold in_sint, sint.
  assert (H : 0 < 2 ^ bits w) by (destruct w; cbn; lia).
  pose proof (Z.mod_pos_bound (x + 2 ^ (bits w - 1)) (2 ^ bits w) H).
  assert (E : 2 ^ bits w = 2 * 2 ^ (bits w - 1)) by (destruct w; reflexivity).
  apply andb_true_iff. split; [apply Z.leb_le|apply Z.ltb_lt]; lia.
Qed.

Lemma sint_le w x : 0 <= x -> sint w x <= x.
Proof.
  intros Hx. unfold sint.
  assert (H : 0 < 2 ^ bits w) by (destruct w; cbn; lia).
  assert (H1 : 0 < 2 ^ (bits w - 1)) by (destruct w; cbn; lia).
  pose proof (Z.mod_le (x + 2 ^ (bits w - 1)) (2 ^ bits w) ltac:(lia) H). lia.
Qed.

Lemma in_sint_u32 w x : in_sint w x = true -> 0 <= x -> u32 x = x.
Proof.
  unfold in_sint. intros H Hx. apply andb_true_iff in H as (_ & H).
  apply Z.ltb_lt in H. unfold u32. apply Z.mod_small.
  assert (2 ^ (bits w - 1) <= 2 ^ 31) by (destruct w; cbn; lia). lia.
Qed.

Lemma offset_add_inv a b s o s1 :
  offset_add a b s = Ok o s1 -> s1 = s /\ in_sint cfs_offset_width o = true.
Proof.
  unfold offset_add. destruct (in_sint _ (a + b)) eqn:E; [|discriminate].
  now intros [= <- <-].
Qed.

(** [cfs_seek] on a descriptor of the pool never leaves the cursor
    outside the file: whatever [whence] and the offset asked for, the
    answer is the new cursor, it is not negative and at most the file
    size less one (0 for an empty file), and nothing but the cursor of
    that descriptor changes. *)
Theorem cfs_seek_stays_inside fd off whence s d f r s1 :
  0 <= fd < FAT_FD_POOL_SIZE ->
  get_fd fd s = Ok d s -> get_file fd s = Ok f s ->
  in_sint cfs_offset_width off = true ->
  in_sint cfs_offset_width (offset d) = true ->
  0 <= DIR_FileSize (f_dir_entry f) ->
  cfs_seek fd off whence s = Ok r s1 ->
  0 <= r <= Z.max 0 (DIR_FileSize (f_dir_entry f) - 1) /\
  s1 = with_fat_fd_pool (<[Z.to_nat fd := set_offset r d]> (fat_fd_pool s)) s.
Proof.
  intros Hfd Hd Hf Hoff Hcur Hsz H. unfold cfs_seek in H.
  destruct (Z.ltb_spec fd 0); [lia|].
  destruct (Z.leb_spec FAT_FD_POOL_SIZE fd); [lia|]. cbn [orb] in H.
  rewrite (bind_Ok _ _ _ _ _ Hd), (bind_Ok _ _ _ _ _ Hf) in H.
  apply bind_Ok_inv in H as (o & s' & Ho & H).
  set (size := DIR_FileSize (f_dir_entry f)) in *.
  assert (Ho' : s' = s /\ in_sint cfs_offset_width o = true).
  { destruct (whence =? CFS_SEEK_SET); [now injection Ho as <- <-|].
    destruct (whence =? CFS_SEEK_CUR); [now apply offset_add_inv in Ho|].
    destruct (whence =? CFS_SEEK_END);
      [injection Ho as <- <-; auto using in_sint_sint|now injection Ho as <- <-]. }
  destruct Ho' as (-> & Hin). clear Ho.
  apply bind_Ok_inv in H as ([] & s2 & Hs & H). injection H as <- <-.
  unfold set_fd in Hs. destruct (_ && _); [|discriminate]. injection Hs as <-.
  split; [|reflexivity]. cbv zeta.
  destruct (Z.leb_spec size (u32 o)) as [Hge|Hlt].
  - destruct (Z.eq_dec size 0) as [E|N].
    + rewrite E.
      assert (E1 : sint cfs_offset_width (u32 (0 - 1)) = -1)
        by (destruct cfs_offset_width; reflexivity).
      rewrite E1. cbn. lia.
    + assert (E : u32 (size - 1) <= size - 1).
      { unfold u32. apply Z.mod_le; lia. }
      assert (0 <= u32 (size - 1)) by (apply Z.mod_pos_bound; lia).
      pose proof (sint_le cfs_offset_width (u32 (size - 1)) ltac:(lia)).
      destruct (Z.ltb_spec (sint cfs_offset_width (u32 (size - 1))) 0); lia.
  - destruct (Z.ltb_spec o 0); [lia|].
    rewrite (in_sint_u32 _ _ Hin) in Hlt by lia. lia.
Qed.

End Seek.

Lemma cfs_seek_stays_inside_witness :
  0 <= 9 <= Z.max 0 (10 - 1) /\
  state_of (cfs_seek (platform := avr) 0 1000 CFS_SEEK_CUR seek_state) seek_state
  = with_fat_fd_pool
      (<[Z.to_nat 0 := set_offset 9 {| offset := 4; file_ptr := true; flags := CFS_READ |}]>
         (fat_fd_pool seek_state)) seek_state.
Proof.
  apply (cfs_seek_stays_inside (platform := avr) 0 1000 CFS_SEEK_CUR seek_state
           {| offset := 4; file_ptr := true; flags := CFS_READ |} seek_file 9).
  - cbn. lia.
  - reflexivity.
  - reflexivity.
  - reflexivity.
  - reflexivity.
  - cbn. lia.
  - vm_compute. reflexivity.
Defined.

(** ** Mounting, once more *)

Section MountOutcome.
Context {D : Type} {blockdev : BlockDevice D} {platform : Platform}.
Implicit Types s : State D.

Lemma parse_bootsector_accepts buffer i0 inf :
  parse_bootsector buffer i0 = Some (0, inf) ->
  BPB_TotSec inf <> 0 /\ BPB_FATSz inf <> 0 /\
  byte_at buffer 510 = 0x55 /\ byte_at buffer 511 = 0xaa.
Proof.
  unfold parse_bootsector. destruct (_ <? 512); [discriminate|].
  intros [= Hf <-]. cbn [BPB_TotSec BPB_FATSz].
  match type of Hf with u8 ?x = 0 => set (sum := x) in Hf end.
  assert (Hsum : u8 sum = sum).
  { unfold u8. apply Z.mod_small. subst sum.
    repeat match goal with |- context [if ?c then _ else _] => destruct c end; lia. }
  rewrite Hsum in Hf. subst sum.
  match type of Hf with context [if ?c =? 0 then 16 else 0] =>
    destruct (Z.eqb_spec c 0) as [T|T] end.
  { exfalso.
    repeat match type of Hf with context [if ?c then _ else _] => destruct c end; lia. }
  match type of Hf with context [if ?c =? 0 then 32 else 0] =>
    destruct (Z.eqb_spec c 0) as [F|F] end.
  { exfalso.
    repeat match type of Hf with context [if ?c then _ else _] => destruct c end; lia. }
  destruct (Z.eqb_spec (byte_at buffer 510) 85) as [S1|S1]; cbn [negb orb] in Hf.
  2:{ exfalso.
      repeat match type of Hf with context [if ?c then _ else _] => destruct c end; lia. }
  destruct (Z.eqb_spec (byte_at buffer 511) 170) as [S2|S2]; cbn [negb orb] in Hf.
  2:{ exfalso.
      repeat match type of Hf with context [if ?c then _ else _] => destruct c end; lia. }
  auto.
Qed.

Lemma dev_read_mounted a s st s1 :
  dev_read a s = Ok st s1 -> mounted s1 = mounted s.
Proof.
  unfold dev_read. destruct (diskio_read_block _ _ _) as [[? ?] ?].
  now intros [= _ <-].
Qed.

Lemma fat_umount_device_dev s s1 :
  fat_umount_device s = Ok tt s1 -> dev (mounted s1) = false.
Proof.
  unfold fat_umount_device. intros H.
  apply bind_Ok_inv in H as ([] & sa & _ & H).
  apply bind_Ok_inv in H as ([] & sb & _ & H).
  apply bind_Ok_inv in H as ([] & sc & _ & H).
  apply modify_inv in H. subst s1. reflexivity.
Qed.

(** What an answer of [fat_mount_device] means.  The answer is 0, 1 or 2
    and a volume is mounted afterwards exactly when it is 0, also when
    one was mounted before the call.  With 0 the type is FAT16 or FAT32,
    as the cluster count of the parsed fields gives it, the sector buffer
    the fields were parsed from ends in 55 AA, the total sector count and
    the FAT size are not zero, and the first data sector is the one behind
    the reserved sectors, the FATs and the root directory.  With 2 the
    volume is FAT12.  The buffer is what the read of sector 0 left in it:
    the status of that read is not looked at, so this says nothing of
    sector 0 of a device that refuses the read. *)
Theorem fat_mount_device_outcome s r s1 :
  fat_mount_device s = Ok r s1 ->
  let bpb := info (mounted s1) in
  (r = 0 \/ r = 1 \/ r = 2) /\
  (dev (mounted s1) = true <-> r = 0) /\
  (r = 0 ->
     type bpb <> FAT12 /\ determine_fat_type bpb = Some (type bpb) /\
     BPB_TotSec bpb <> 0 /\ BPB_FATSz bpb <> 0 /\
     byte_at (sector_buffer s1) 510 = 0x55 /\
     byte_at (sector_buffer s1) 511 = 0xaa /\
     first_data_sector (mounted s1)
     = u32 (u32 (BPB_RsvdSecCnt bpb + u32 (BPB_NumFATs bpb * BPB_FATSz bpb))
            + promoted (BPB_RootEntCnt bpb * 32 + (BPB_BytesPerSec bpb - 1))
              / BPB_BytesPerSec bpb)) /\
  (r = 2 -> type bpb = FAT12).
Proof.
  intros Hm. unfold fat_mount_device in Hm.
  apply bind_Ok_inv in Hm as (was & sa & Hwas & Hm). injection Hwas as <- <-.
  apply bind_Ok_inv in Hm as ([] & s0 & Hu & Hm).
  assert (Hdev : dev (mounted s0) = false).
  { destruct (dev (mounted s)) eqn:E; [now apply fat_umount_device_dev in Hu|].
    injection Hu as <-. exact E. }
  clear Hu.
  apply bind_Ok_inv in Hm as (st & s2 & Hrd & Hm).
  apply dev_read_mounted in Hrd. rewrite <- Hrd in Hdev. clear Hrd s0 s.
  apply bind_Ok_inv in Hm as (buffer & sb & Hb & Hm). injection Hb as <- <-.
  apply bind_Ok_inv in Hm as (m & sm & Hmm & Hm). injection Hmm as <- <-.
  apply bind_Ok_inv in Hm as ([f inf] & sp & Hp & Hm).
  unfold lift_option in Hp.
  destruct (parse_bootsector _ _) as [[f' inf']|] eqn:Hp'; [|discriminate Hp].
  injection Hp as -> -> <-. rename Hp' into Hp.
  apply bind_Ok_inv in Hm as ([] & s3 & Hs3 & Hm). apply modify_inv in Hs3.
  destruct (Z.eqb_spec f 0) as [->|Nf]; cbn [negb] in Hm.
  2:{ injection Hm as <- <-. subst s3. cbn. rewrite Hdev.
      repeat split; auto; try discriminate; try lia. }
  apply bind_Ok_inv in Hm as (t & s4 & Hdt & Hm). unfold lift_option in Hdt.
  destruct (determine_fat_type inf) as [t'|] eqn:Ht; [|discriminate Hdt].
  injection Hdt as -> <-.
  apply bind_Ok_inv in Hm as ([] & s5 & Hs5 & Hm). apply modify_inv in Hs5.
  apply parse_bootsector_accepts in Hp as (P1 & P2 & P3 & P4).
  assert (Hnz : BPB_BytesPerSec inf <> 0).
  { unfold determine_fat_type in Ht.
    destruct (Z.eqb_spec (BPB_BytesPerSec inf) 0); [discriminate|assumption]. }
  destruct t.
  - injection Hm as <- <-. subst s5 s3. cbn. rewrite Hdev.
    repeat split; auto; try discriminate; try lia.
  - apply bind_Ok_inv in Hm as (rds & s6 & Hr & Hm).
    unfold udiv in Hr. cbn [set_type BPB_BytesPerSec] in Hr.
    destruct (Z.eqb_spec (BPB_BytesPerSec inf) 0); [contradiction|].
    injection Hr as <- <-.
    apply bind_Ok_inv in Hm as ([] & s7 & Hs7 & Hm). apply modify_inv in Hs7.
    injection Hm as <- <-. subst s7 s5 s3. cbn.
    repeat split; auto; try discriminate.
  - apply bind_Ok_inv in Hm as (rds & s6 & Hr & Hm).
    unfold udiv in Hr. cbn [set_type BPB_BytesPerSec] in Hr.
    destruct (Z.eqb_spec (BPB_BytesPerSec inf) 0); [contradiction|].
    injection Hr as <- <-.
    apply bind_Ok_inv in Hm as ([] & s7 & Hs7 & Hm). apply modify_inv in Hs7.
    injection Hm as <- <-. subst s7 s5 s3. cbn.
    repeat split; auto; try discriminate.
Qed.

End MountOutcome.

Lemma fat_mount_device_outcome_witness :
  let bpb := info (mounted mounted_512) in
  (0 = 0 \/ 0 = 1 \/ 0 = 2) /\
  (dev (mounted mounted_512) = true <-> 0 = 0) /\
  (0 = 0 ->
     type bpb <> FAT12 /\ determine_fat_type (platform := avr) bpb = Some (type bpb) /\
     BPB_TotSec bpb <> 0 /\ BPB_FATSz bpb <> 0 /\
     byte_at (sector_buffer mounted_512) 510 = 0x55 /\
     byte_at (sector_buffer mounted_512) 511 = 0xaa /\
     first_data_sector (mounted mounted_512)
     = u32 (u32 (BPB_RsvdSecCnt bpb + u32 (BPB_NumFATs bpb * BPB_FATSz bpb))
            + promoted (platform := avr)
                (BPB_RootEntCnt bpb * 32 + (BPB_BytesPerSec bpb - 1))
              / BPB_BytesPerSec bpb)) /\
  (0 = 2 -> type bpb = FAT12).
Proof.
  apply (fat_mount_device_outcome (platform := avr) (unmounted_state boot_512) 0
           mounted_512).
  vm_compute. reflexivity.
Defined.

(** ** What the calls leave alone *)

Create HintDb fat_cache.

Section CacheOnly.
Context {D : Type} {blockdev : BlockDevice D} {platform : Platform}.
Implicit Types s : State D.

Lemma cache_only_refl s : cache_only s s.
Proof. repeat split. Qed.

Lemma cache_only_trans s s1 s2 :
  cache_only s s1 -> cache_only s1 s2 -> cache_only s s2.
Proof.
  intros (A1 & A2 & A3 & A4) (B1 & B2 & B3 & B4). repeat split; congruence.
Qed.

Lemma keeps_pure {A} (m : M D A) : pure_m m -> keeps (D := D) cache_only m.
Proof. intros Hp s a s1 H. apply Hp in H as ->. apply cache_only_refl. Qed.

Lemma keeps_bind {A B} (m : M D A) (k : A -> M D B) :
  keeps (D := D) cache_only m -> (forall a, keeps (D := D) cache_only (k a)) ->
  keeps (D := D) cache_only (bind m k).
Proof.
  intros Hm Hk s b s2 H. apply bind_Ok_inv in H as (a & s1 & H1 & H2).
  eapply cache_only_trans; [exact (Hm _ _ _ H1)|exact (Hk _ _ _ _ H2)].
Qed.

Lemma keeps_dev_read a : keeps (D := D) cache_only (dev_read a).
Proof.
  intros s st s1. unfold dev_read.
  destruct (diskio_read_block _ _ _) as [[? ?] ?]. intros [= _ <-]. repeat split.
Qed.

Lemma keeps_dev_write a : keeps (D := D) cache_only (dev_write a).
Proof.
  intros s st s1. unfold dev_write.
  destruct (diskio_write_block _ _ _) as [? ?]. intros [= _ <-]. repeat split.
Qed.

Lemma keeps_sb_set i v : keeps (D := D) cache_only (sb_set i v).
Proof.
  intros s [] s1. unfold sb_set. destruct (_ && _); [|discriminate].
  intros [= <-]. repeat split.
Qed.

Lemma keeps_sb_set_range i src : keeps (D := D) cache_only (sb_set_range i src).
Proof.
  intros s [] s1. unfold sb_set_range. destruct (_ && _); [|discriminate].
  intros [= <-]. repeat split.
Qed.

Lemma keeps_set_dirty v : keeps (D := D) cache_only (modify (with_sector_buffer_dirty v)).
Proof. intros s [] s1 H. apply modify_inv in H as ->. repeat split. Qed.

Lemma keeps_set_addr v : keeps (D := D) cache_only (modify (with_sector_buffer_addr v)).
Proof. intros s [] s1 H. apply modify_inv in H as ->. repeat split. Qed.

End CacheOnly.

#[export] Hint Resolve keeps_dev_read keeps_dev_write keeps_sb_set
  keeps_sb_set_range keeps_set_dirty keeps_set_addr : fat_cache.

Ltac cache_step :=
  lazymatch goal with
  | |- keeps cache_only (bind _ _) => apply keeps_bind; [|intros ?]
  | |- keeps cache_only (if ?c then _ else _) => destruct c
  | |- keeps cache_only (match ?x with _ => _ end) => destruct x
  | |- keeps cache_only _ =>
      first [ solve [auto with fat_cache]
            | solve [apply keeps_pure; auto with fat_pure] ]
  end.

Ltac cache_tac := repeat cache_step.

Section CacheOnly2.
Context {D : Type} {blockdev : BlockDevice D} {platform : Platform}.
Implicit Types s : State D.

Lemma keeps_fat_flush : keeps (D := D) cache_only fat_flush.
Proof. unfold fat_flush. cache_tac. Qed.

Hint Resolve keeps_fat_flush : fat_cache.

Lemma keeps_fat_read_block a : keeps (D := D) cache_only (fat_read_block a).
Proof. unfold fat_read_block. cache_tac. Qed.

Hint Resolve keeps_fat_read_block : fat_cache.

Lemma keeps_read_fat_entry c : keeps (D := D) cache_only (read_fat_entry c).
Proof. unfold read_fat_entry. cache_tac. Qed.

Lemma keeps_write_fat_entry c v : keeps (D := D) cache_only (write_fat_entry c v).
Proof. unfold write_fat_entry. cache_tac. Qed.

Hint Resolve keeps_read_fat_entry keeps_write_fat_entry : fat_cache.

Lemma keeps_fat_next_block : keeps (D := D) cache_only fat_next_block.
Proof. unfold fat_next_block. cache_tac. Qed.

Hint Resolve keeps_fat_next_block : fat_cache.

Lemma keeps_lookup fuel : forall nm out, keeps (D := D) cache_only (lookup fuel nm out).
Proof. induction fuel; intros; simpl; cache_tac. Qed.

Lemma pure__get_free_cluster_16_from k : forall i,
  pure_m (D := D) (_get_free_cluster_16_from k i).
Proof. induction k; intros; simpl; pure_tac. Qed.

Lemma pure__get_free_cluster_32_from k : forall i,
  pure_m (D := D) (_get_free_cluster_32_from k i).
Proof. induction k; intros; simpl; pure_tac. Qed.

Lemma keeps_get_free_cluster_scan fuel : forall sec i,
  keeps (D := D) cache_only (get_free_cluster_scan fuel sec i).
Proof.
  induction fuel; intros; simpl; cache_tac;
    apply keeps_pure;
    first [apply pure__get_free_cluster_16_from | apply pure__get_free_cluster_32_from].
Qed.

Lemma keeps_get_free_cluster fuel c :
  keeps (D := D) cache_only (get_free_cluster fuel c).
Proof.
  unfold get_free_cluster. cache_tac. apply keeps_get_free_cluster_scan.
Qed.

Hint Resolve keeps_lookup keeps_get_free_cluster : fat_cache.

Lemma keeps_add_entry_sector k : forall i d,
  keeps (D := D) cache_only (add_entry_sector k i d).
Proof. induction k; intros; simpl; cache_tac. Qed.

Hint Resolve keeps_add_entry_sector : fat_cache.

Lemma keeps_add_directory_entry_to_current fuel : forall out,
  keeps (D := D) cache_only (add_directory_entry_to_current fuel out).
Proof. induction fuel; intros; simpl; cache_tac. Qed.

Hint Resolve keeps_add_directory_entry_to_current : fat_cache.

Lemma keeps_get_dir_entry_loop k : forall fuel create root i pr sec out,
  keeps (D := D) cache_only (get_dir_entry_loop k fuel create root i pr sec out).
Proof. induction k; intros; simpl; cache_tac. Qed.

Lemma keeps_get_dir_entry fuel path out create :
  keeps (D := D) cache_only (get_dir_entry fuel path out create).
Proof. unfold get_dir_entry. cache_tac; apply keeps_get_dir_entry_loop. Qed.

Lemma keeps_reset_cluster_chain_walk fuel : forall c nxt,
  keeps (D := D) cache_only (reset_cluster_chain_walk fuel c nxt).
Proof. induction fuel; intros; simpl; cache_tac. Qed.

Lemma keeps_reset_cluster_chain fuel d :
  keeps (D := D) cache_only (reset_cluster_chain fuel d).
Proof.
  unfold reset_cluster_chain. cache_tac. apply keeps_reset_cluster_chain_walk.
Qed.

Lemma keeps_remove_dir_entry sec off :
  keeps (D := D) cache_only (remove_dir_entry sec off).
Proof. unfold remove_dir_entry. cache_tac. Qed.

Hint Resolve keeps_get_dir_entry keeps_reset_cluster_chain
  keeps_remove_dir_entry : fat_cache.

Lemma pure_get_file fd : pure_m (D := D) (get_file fd).
Proof.
  intros s x s1. unfold get_file. destruct (0 <=? fd); [|discriminate].
  destruct (_ !! _); [|discriminate]. now intros [= _ <-].
Qed.

Lemma pure_get_fd fd : pure_m (D := D) (get_fd fd).
Proof.
  intros s x s1. unfold get_fd. destruct (0 <=? fd); [|discriminate].
  destruct (_ !! _); [|discriminate]. now intros [= _ <-].
Qed.

Lemma keeps_update_dir_entry fd : keeps (D := D) cache_only (update_dir_entry fd).
Proof.
  unfold update_dir_entry. apply keeps_bind; [apply keeps_pure, pure_get_file|].
  intros f. cache_tac.
Qed.

Lemma keeps_sync_mirrors inf b : keeps (D := D) cache_only (sync_mirrors inf b).
Proof.
  unfold sync_mirrors. destruct (_ =? 255); [cache_tac|].
  induction (seqZ 2 (BPB_NumFATs inf - 1)); simpl; cache_tac; assumption.
Qed.

Hint Resolve keeps_sync_mirrors : fat_cache.

Lemma keeps_fat_sync_fats_from k : forall b,
  keeps (D := D) cache_only (fat_sync_fats_from k b).
Proof. induction k; intros; simpl; cache_tac. Qed.

Lemma keeps_fat_sync_fats : keeps (D := D) cache_only fat_sync_fats.
Proof. unfold fat_sync_fats. cache_tac. apply keeps_fat_sync_fats_from. Qed.

(** [cfs_remove] takes no notice of open files: whatever it answers, the
    descriptors and the file pool are as before, so a descriptor opened
    on the removed file stays open on the freed chain; the volume
    descriptor and the directory cursor are not touched either. *)
Theorem cfs_remove_leaves_descriptors fuel name_ s r s1 :
  cfs_remove fuel name_ s = Ok r s1 ->
  fat_fd_pool s1 = fat_fd_pool s /\ fat_file_pool s1 = fat_file_pool s /\
  mounted s1 = mounted s /\ cfs_readdir_offset s1 = cfs_readdir_offset s.
Proof.
  intros H.
  assert (K : keeps (D := D) cache_only (cfs_remove fuel name_)).
  { unfold cfs_remove. cache_tac. }
  destruct (K _ _ _ H) as (A1 & A2 & A3 & A4). auto.
Qed.

(** *** Unmounting *)

Lemma invalidate_fds_from l : forall s s1,
  fold_right
    (fun i k => d <- get_fd i ;; set_fd i (set_file_ptr false d) ;;; k)
    (ret tt) l s = Ok tt s1 ->
  mounted s1 = mounted s /\ fat_file_pool s1 = fat_file_pool s /\
  length (fat_fd_pool s1) = length (fat_fd_pool s) /\
  forall i d, fat_fd_pool s1 !! i = Some d ->
    (i ∈ Z.to_nat <$> l -> file_ptr d = false) /\
    (file_ptr d = true -> fat_fd_pool s !! i = Some d).
Proof.
  induction l as [|x l IH]; intros s s1 H.
  - injection H as <-. repeat split; auto. intros Hi. inversion Hi.
  - cbn [fold_right] in H.
    apply bind_Ok_inv in H as (d0 & sa & Hg & H).
    pose proof Hg as Hg'. apply pure_get_fd in Hg' as ->.
    apply bind_Ok_inv in H as ([] & sb & Hs & H).
    unfold set_fd in Hs. destruct (_ && _); [|discriminate]. injection Hs as <-.
    apply IH in H as (M1 & F1 & L1 & P). cbn in M1, F1, L1.
    rewrite length_insert in L1.
    split; [assumption|]. split; [assumption|]. split; [assumption|].
    intros i d Hl. destruct (P i d Hl) as (P1 & P2). cbn in P2. split.
    + intros Hi. destruct (file_ptr d) eqn:Ed; [|reflexivity].
      specialize (P2 eq_refl). rewrite fmap_cons in Hi.
      apply elem_of_cons in Hi as [->|Hi]; [|now apply P1].
      apply list_lookup_insert_Some in P2 as [(_ & <- & _)|(N & _)];
        [discriminate|congruence].
    + intros Ed. specialize (P2 Ed).
      apply list_lookup_insert_Some in P2 as [(_ & <- & _)|(_ & P2)];
        [discriminate|assumption].
Qed.

(** After [fat_umount_device] no volume is mounted and no descriptor of
    the pool is open any more; the files' records and the parsed boot
    sector are left as they were. *)
Theorem fat_umount_device_closes_all s s1 :
  fat_umount_device s = Ok tt s1 ->
  dev (mounted s1) = false /\
  info (mounted s1) = info (mounted s) /\
  fat_file_pool s1 = fat_file_pool s /\
  forall fd d, 0 <= fd < FAT_FD_POOL_SIZE ->
    fat_fd_pool s1 !! Z.to_nat fd = Some d -> file_ptr d = false.
Proof.
  unfold fat_umount_device. intros H.
  apply bind_Ok_inv in H as ([] & sa & Ha & H).
  apply keeps_fat_flush in Ha as (A1 & A2 & A3 & _).
  apply bind_Ok_inv in H as ([] & sb & Hb & H).
  apply keeps_fat_sync_fats in Hb as (B1 & B2 & B3 & _).
  apply bind_Ok_inv in H as ([] & sc & Hc & H).
  apply modify_inv in H. subst s1. cbn.
  unfold invalidate_fds in Hc. destruct (256 <=? FAT_FD_POOL_SIZE); [discriminate|].
  apply invalidate_fds_from in Hc as (C1 & C2 & C3 & P).
  repeat split; try congruence.
  intros fd d Hfd Hl. apply (P _ _ Hl).
  apply list_elem_of_fmap_2, elem_of_seqZ. lia.
Qed.

(** *** Closing *)

(** [cfs_close] on an open descriptor of the pool closes that descriptor
    and no other, keeps the file records and the volume descriptor, and
    leaves the sector buffer marked clean.  Whether the directory entry
    has reached the device is not part of this: [update_dir_entry] gives
    up when the sector of the entry cannot be read, and [fat_flush] clears
    the mark whatever the device answers. *)
Theorem cfs_close_closes fd s d s1 :
  0 <= fd < FAT_FD_POOL_SIZE ->
  get_fd fd s = Ok d s -> file_ptr d = true ->
  cfs_close fd s = Ok tt s1 ->
  fat_fd_pool s1 = <[Z.to_nat fd := set_file_ptr false d]> (fat_fd_pool s) /\
  fat_file_pool s1 = fat_file_pool s /\ mounted s1 = mounted s /\
  sector_buffer_dirty s1 = 0.
Proof.
  intros Hfd Hd Hp H. unfold cfs_close in H.
  destruct (Z.ltb_spec fd 0); [lia|].
  destruct (Z.leb_spec FAT_FD_POOL_SIZE fd); [lia|]. cbn [orb] in H.
  rewrite (bind_Ok _ _ _ _ _ Hd), Hp in H. cbn [negb] in H.
  apply bind_Ok_inv in H as ([] & sa & Ha & H).
  apply keeps_update_dir_entry in Ha as (A1 & A2 & A3 & _).
  apply bind_Ok_inv in H as ([] & sb & Hb & H).
  assert (Hdirty : sector_buffer_dirty sb = 0).
  { unfold fat_flush in Hb. rewrite bind_gets in Hb.
    destruct (Z.eqb_spec (sector_buffer_dirty sa) 0) as [E|N];
      [now injection Hb as <-|].
    rewrite bind_gets in Hb. apply bind_Ok_inv in Hb as (st & sw & _ & Hb).
    apply modify_inv in Hb. now subst sb. }
  apply keeps_fat_flush in Hb as (B1 & B2 & B3 & _).
  apply bind_Ok_inv in H as (d' & sc & Hg & H).
  pose proof Hg as Hg'. apply pure_get_fd in Hg' as ->.
  assert (d' = d).
  { unfold get_fd in Hg, Hd. rewrite B3, A3 in Hg.
    destruct (0 <=? fd); [|discriminate].
    destruct (fat_fd_pool s !! Z.to_nat fd); congruence. }
  subst d'.
  unfold set_fd in H. destruct (_ && _); [|discriminate]. injection H as <-.
  cbn. repeat split; congruence.
Qed.

(** *** Directories *)

(** [cfs_opendir] always rewinds the directory cursor, answers 0 or -1,
    hands the caller's [dirp] back untouched with -1, and changes neither
    the descriptors nor the volume descriptor. *)
Theorem cfs_opendir_rewinds fuel dirp name_ s r d s1 :
  cfs_opendir fuel dirp name_ s = Ok (r, d) s1 ->
  cfs_readdir_offset s1 = 0 /\ (r = 0 \/ r = -1 /\ d = dirp) /\
  fat_fd_pool s1 = fat_fd_pool s /\ fat_file_pool s1 = fat_file_pool s /\
  mounted s1 = mounted s.
Proof.
  unfold cfs_opendir. intros H.
  apply bind_Ok_inv in H as ([c [[e sec] off]] & sa & Ha & H).
  apply keeps_get_dir_entry in Ha as (A1 & A2 & A3 & _).
  apply bind_Ok_inv in H as ([] & sb & Hb & H). apply modify_inv in Hb. subst sb.
  destruct (c =? 0); injection H as <- <- <-; cbn; repeat split; auto.
Qed.

End CacheOnly2.

Section Open.
Context {D : Type} {blockdev : BlockDevice D} {platform : Platform}.
Implicit Types s : State D.

Lemma find_free_fd_spec k : forall i s fd s1,
  0 <= i -> find_free_fd k i s = Ok fd s1 ->
  s1 = s /\ (fd = -1 \/ 0 <= fd < FAT_FD_POOL_SIZE).
Proof.
  induction k as [|k IH]; intros i s fd s1 Hi; cbn [find_free_fd].
  - destruct (256 <=? FAT_FD_POOL_SIZE); [discriminate|]. intros [= <- <-]. auto.
  - destruct (Z.ltb_spec i FAT_FD_POOL_SIZE) as [Hlt|Hge]; [|intros [= <- <-]; auto].
    intros H. apply bind_Ok_inv in H as (d & sa & Hd & H).
    apply pure_get_fd in Hd as ->.
    destruct (file_ptr d); [|injection H as <- <-; split; [reflexivity|right; lia]].
    apply IH in H; [assumption|lia].
Qed.

Lemma set_file_lookup fd f s s1 :
  set_file fd f s = Ok tt s1 ->
  s1 = with_fat_file_pool (<[Z.to_nat fd := f]> (fat_file_pool s)) s /\
  get_file fd s1 = Ok f s1.
Proof.
  unfold set_file.
  destruct (Z.leb_spec 0 fd); [|discriminate].
  destruct (Z.ltb_spec fd (Z.of_nat (length (fat_file_pool s)))); [|discriminate].
  intros [= <-]. split; [reflexivity|]. unfold get_file. cbn.
  destruct (Z.leb_spec 0 fd); [|lia].
  rewrite list_lookup_insert_eq by lia. reflexivity.
Qed.

(** Where [cfs_open] leaves the cursor.  A successful open hands out a
    descriptor of the pool, now open with the flags asked for, on a file
    (no directory, no volume label) whose record holds the directory
    entry found and starts at its first cluster.  Without [CFS_APPEND]
    the cursor is 0.  With [CFS_APPEND] the cursor is not put at the end
    of the file: [cfs_seek] is called with offset and [whence] exchanged,
    so for every file longer than two bytes the cursor is 2. *)
Theorem cfs_open_cursor fuel name_ flags_ s fd s1 :
  cfs_open fuel name_ flags_ s = Ok fd s1 -> fd <> -1 ->
  0 <= fd < FAT_FD_POOL_SIZE /\
  exists f d,
    fat_file_pool s1 !! Z.to_nat fd = Some f /\
    fat_fd_pool s1 !! Z.to_nat fd = Some d /\
    _is_file (f_dir_entry f) = true /\
    cluster f
    = u32 (DIR_FstClusLO (f_dir_entry f) + Z.shiftl (DIR_FstClusHI (f_dir_entry f)) 16) /\
    file_ptr d = true /\ flags d = u8 flags_ /\
    (Z.land flags_ CFS_APPEND = 0 -> offset d = 0) /\
    (Z.land flags_ CFS_APPEND <> 0 -> 2 < DIR_FileSize (f_dir_entry f) ->
     offset d = 2).
Proof.
  intros H Hfd. unfold cfs_open in H.
  apply bind_Ok_inv in H as (fd0 & sa & Hff & H).
  apply find_free_fd_spec in Hff as (-> & Hr); [|lia].
  destruct (Z.eqb_spec fd0 (-1)) as [E|N]; [injection H as <- <-; contradiction|].
  destruct Hr as [?|Hr]; [contradiction|].
  apply bind_Ok_inv in H as (f0 & sa & H0 & H). apply pure_get_file in H0 as ->.
  apply bind_Ok_inv in H as ([found [[dir_ent sec] off]] & sb & Hg & H).
  clear Hg.
  apply bind_Ok_inv in H as (f1 & sc & H1 & H). apply pure_get_file in H1 as ->.
  apply bind_Ok_inv in H as ([] & sd & Hs & H). clear Hs.
  destruct (found =? 0); [injection H as <- <-; contradiction|].
  destruct (_is_file dir_ent) eqn:Hfile; cbn [negb] in H;
    [|injection H as <- <-; contradiction].
  destruct (_cfs_flags_ok flags_ dir_ent); cbn [negb] in H;
    [|injection H as <- <-; contradiction].
  apply bind_Ok_inv in H as (f2 & se & H2 & H). apply pure_get_file in H2 as ->.
  apply bind_Ok_inv in H as ([] & sf & Hs & H).
  apply set_file_lookup in Hs as (Esf & Hgf).
  apply bind_Ok_inv in H as ([] & sg & Hs & H).
  unfold set_fd in Hs.
  destruct (Z.leb_spec 0 fd0); [|discriminate].
  destruct (Z.ltb_spec fd0 (Z.of_nat (length (fat_fd_pool sf)))); [|discriminate].
  cbn [andb] in Hs. injection Hs as Esg.
  set (d0 := {| offset := 0; file_ptr := true; flags := u8 flags_ |}) in *.
  set (fr := set_dir_entry dir_ent _) in *.
  assert (Hgd : get_fd fd0 sg = Ok d0 sg).
  { unfold get_fd. destruct (Z.leb_spec 0 fd0); [|lia]. subst sg. cbn.
    rewrite list_lookup_insert_eq by lia. reflexivity. }
  assert (Hgf' : get_file fd0 sg = Ok fr sg).
  { unfold get_file in *. destruct (0 <=? fd0); [|discriminate].
    subst sg. cbn. destruct (fat_file_pool sf !! Z.to_nat fd0); [|discriminate].
    now injection Hgf as ->. }
  apply bind_Ok_inv in H as ([] & sh & Ha & H). injection H as <- <-.
  split; [assumption|].
  destruct (Z.eqb_spec (Z.land flags_ CFS_APPEND) 0) as [Ea|Na]; cbn [negb] in Ha.
  - injection Ha as <-. exists fr, d0.
    unfold get_fd, get_file in Hgd, Hgf'. destruct (0 <=? fd0); [|discriminate].
    destruct (fat_file_pool sg !! Z.to_nat fd0) as [x|]; [|discriminate].
    destruct (fat_fd_pool sg !! Z.to_nat fd0) as [y|]; [|discriminate].
    injection Hgd as ->. injection Hgf' as ->.
    repeat split; auto. intros; contradiction.
  - apply bind_Ok_inv in Ha as (r & si & Hseek & Ha). injection Ha as <-.
    unfold cfs_seek in Hseek.
    destruct (Z.ltb_spec fd0 0); [lia|].
    destruct (Z.leb_spec FAT_FD_POOL_SIZE fd0); [lia|]. cbn [orb] in Hseek.
    rewrite (bind_Ok _ _ _ _ _ Hgd), (bind_Ok _ _ _ _ _ Hgf') in Hseek.
    change (0 =? CFS_SEEK_SET) with true in Hseek. cbn iota in Hseek.
    unfold bind at 1, ret at 1 in Hseek.
    apply bind_Ok_inv in Hseek as ([] & sj & Hs & Hseek).
    injection Hseek as <- <-.
    unfold set_fd in Hs. destruct (_ && _); [|discriminate]. injection Hs as <-.
    unfold get_file in Hgf'. destruct (0 <=? fd0); [|discriminate].
    destruct (fat_file_pool sg !! Z.to_nat fd0) as [x|] eqn:Ex; [|discriminate].
    injection Hgf' as ->.
    eexists fr, _. cbn [fat_file_pool fat_fd_pool with_fat_fd_pool].
    split; [exact Ex|].
    split; [apply list_lookup_insert_eq; subst sg; cbn; rewrite length_insert; lia|].
    cbn. repeat split; auto; [intros; contradiction|].
    intros _ Hsz. change (u32 CFS_SEEK_END) with 2.
    destruct (Z.leb_spec (DIR_FileSize dir_ent) 2); [lia|]. reflexivity.
Qed.

End Open.

Lemma cfs_remove_leaves_descriptors_witness :
  let s1 := state_of (cfs_remove 10 foo_path seek_state) seek_state in
  fat_fd_pool s1 = fat_fd_pool seek_state /\
  fat_file_pool s1 = fat_file_pool seek_state /\
  mounted s1 = mounted seek_state /\
  cfs_readdir_offset s1 = cfs_readdir_offset seek_state.
Proof.
  apply (cfs_remove_leaves_descriptors 10 foo_path seek_state 0).
  vm_compute. reflexivity.
Defined.

Lemma fat_umount_device_closes_all_witness :
  let s1 := state_of (fat_umount_device (platform := avr) seek_state) seek_state in
  dev (mounted s1) = false /\
  info (mounted s1) = info (mounted seek_state) /\
  fat_file_pool s1 = fat_file_pool seek_state /\
  forall fd d, 0 <= fd < FAT_FD_POOL_SIZE (Platform := avr) ->
    fat_fd_pool s1 !! Z.to_nat fd = Some d -> file_ptr d = false.
Proof.
  apply (fat_umount_device_closes_all (platform := avr) seek_state).
  vm_compute. reflexivity.
Defined.

Lemma cfs_close_closes_witness :
  let s1 := state_of (cfs_close (platform := avr) 0 seek_state) seek_state in
  fat_fd_pool s1
  = <[Z.to_nat 0 := set_file_ptr false
                      {| offset := 4; file_ptr := true; flags := CFS_READ |}]>
      (fat_fd_pool seek_state) /\
  fat_file_pool s1 = fat_file_pool seek_state /\
  mounted s1 = mounted seek_state /\
  sector_buffer_dirty s1 = 0.
Proof.
  apply (cfs_close_closes (platform := avr) 0 seek_state
           {| offset := 4; file_ptr := true; flags := CFS_READ |}).
  - cbn. lia.
  - reflexivity.
  - reflexivity.
  - vm_compute. reflexivity.
Defined.

Lemma cfs_opendir_rewinds_witness :
  let s := with_cfs_readdir_offset 5 demo_state in
  let s1 := state_of (cfs_opendir 10 root_dirp foo_path s) s in
  cfs_readdir_offset s1 = 0 /\ (0 = 0 \/ 0 = -1 /\ foo_entry = root_dirp) /\
  fat_fd_pool s1 = fat_fd_pool s /\ fat_file_pool s1 = fat_file_pool s /\
  mounted s1 = mounted s.
Proof.
  apply (cfs_opendir_rewinds 10 root_dirp foo_path
           (with_cfs_readdir_offset 5 demo_state) 0 foo_entry).
  vm_compute. reflexivity.
Defined.

Lemma cfs_open_cursor_witness :
  let s1 := state_of (cfs_open (platform := avr) 10 foo_path (CFS_WRITE + CFS_APPEND)
                        demo_state) demo_state in
  0 <= 0 < FAT_FD_POOL_SIZE (Platform := avr) /\
  exists f d,
    fat_file_pool s1 !! Z.to_nat 0 = Some f /\
    fat_fd_pool s1 !! Z.to_nat 0 = Some d /\
    _is_file (f_dir_entry f) = true /\
    cluster f
    = u32 (DIR_FstClusLO (f_dir_entry f) + Z.shiftl (DIR_FstClusHI (f_dir_entry f)) 16) /\
    file_ptr d = true /\ flags d = u8 (CFS_WRITE + CFS_APPEND) /\
    (Z.land (CFS_WRITE + CFS_APPEND) CFS_APPEND = 0 -> offset d = 0) /\
    (Z.land (CFS_WRITE + CFS_APPEND) CFS_APPEND <> 0 ->
     2 < DIR_FileSize (f_dir_entry f) -> offset d = 2).
Proof.
  apply (cfs_open_cursor (platform := avr) 10 foo_path (CFS_WRITE + CFS_APPEND)
           demo_state 0).
  - vm_compute. reflexivity.
  - discriminate.
Defined.

(** ** The buffer's label *)

Section Address.
Context {D : Type} {blockdev : BlockDevice D} {platform : Platform}.
Implicit Types s : State D.

Lemma dev_read_addr a : keeps (D := D) same_address (dev_read a).
Proof.
  intros s st s1. unfold dev_read.
  destruct (diskio_read_block _ _ _) as [[? ?] ?]. now intros [= _ <-].
Qed.

Lemma dev_write_addr a : keeps (D := D) same_address (dev_write a).
Proof.
  intros s st s1. unfold dev_write.
  destruct (diskio_write_block _ _ _) as [? ?]. now intros [= _ <-].
Qed.

Lemma fat_flush_addr : keeps (D := D) same_address fat_flush.
Proof.
  intros s [] s1. unfold fat_flush. rewrite bind_gets.
  destruct (_ =? 0); [now intros [= <-]|]. rewrite bind_gets. intros H.
  apply bind_Ok_inv in H as (st & sa & Hw & H). apply dev_write_addr in Hw.
  apply modify_inv in H. subst s1. exact Hw.
Qed.

Lemma sync_mirrors_addr inf b : keeps (D := D) same_address (sync_mirrors inf b).
Proof.
  unfold sync_mirrors. destruct (_ =? 255); [intros s a s1 [=]|].
  induction (seqZ 2 (BPB_NumFATs inf - 1)) as [|x l IH]; intros s [] s1; cbn.
  - now intros [= <-].
  - intros H. apply bind_Ok_inv in H as (st & sa & Hw & H).
    apply dev_write_addr in Hw. apply IH in H. unfold same_address in *. congruence.
Qed.

Lemma fat_sync_fats_from_addr k : forall b,
  keeps (D := D) same_address (fat_sync_fats_from k b).
Proof.
  induction k as [|k IH]; intros b s [] s1; cbn.
  - now intros [= <-].
  - intros H.
    apply bind_Ok_inv in H as (st & sa & Hr & H). apply dev_read_addr in Hr.
    apply bind_Ok_inv in H as ([] & sb & Hm & H). apply sync_mirrors_addr in Hm.
    apply IH in H. unfold same_address in *. congruence.
Qed.

Lemma fat_sync_fats_addr : keeps (D := D) same_address fat_sync_fats.
Proof.
  intros s [] s1. unfold fat_sync_fats. intros H.
  apply bind_Ok_inv in H as ([] & sa & Hf & H). apply fat_flush_addr in Hf.
  apply bind_Ok_inv in H as (inf & s' & Hi & H).
  apply pure_mounted_info in Hi as ->. apply fat_sync_fats_from_addr in H.
  unfold same_address in *. congruence.
Qed.

Lemma invalidate_fds_addr : keeps (D := D) same_address invalidate_fds.
Proof.
  unfold invalidate_fds. destruct (256 <=? _); [intros s a s1 [=]|].
  induction (seqZ 0 FAT_FD_POOL_SIZE) as [|x l IH]; intros s [] s1; cbn.
  - now intros [= <-].
  - intros H. apply bind_Ok_inv in H as (d & sa & Hg & H).
    apply pure_get_fd in Hg as ->.
    apply bind_Ok_inv in H as ([] & sb & Hs & H).
    unfold set_fd in Hs. destruct (_ && _); [|discriminate]. injection Hs as <-.
    apply IH in H. exact H.
Qed.

Lemma fat_umount_device_addr : keeps (D := D) same_address fat_umount_device.
Proof.
  intros s [] s1. unfold fat_umount_device. intros H.
  apply bind_Ok_inv in H as ([] & sa & Ha & H). apply fat_flush_addr in Ha.
  apply bind_Ok_inv in H as ([] & sb & Hb & H). apply fat_sync_fats_addr in Hb.
  apply bind_Ok_inv in H as ([] & sc & Hc & H). apply invalidate_fds_addr in Hc.
  apply modify_inv in H. subst s1. unfold same_address in *. cbn. congruence.
Qed.

End Address.

Section StaleBuffer.
Context {platform : Platform}.
Implicit Types s : State (gmap Z (list Z)).

(** [fat_mount_device] reads sector 0 into the sector buffer but leaves
    the buffer's address as it was.  After a mount the buffer therefore
    holds the boot sector under the label of the sector it held before,
    and [fat_read_block] for that sector (if not 0) answers 0 from the
    buffer without asking the device. *)
Theorem fat_mount_device_stale_buffer s r s1 b :
  fat_mount_device s = Ok r s1 -> device s1 !! 0 = Some b ->
  sector_buffer s1 = b /\
  sector_buffer_addr s1 = sector_buffer_addr s /\
  (sector_buffer_addr s <> 0 ->
   fat_read_block (sector_buffer_addr s) s1 = Ok 0 s1).
Proof.
  intros Hm Hb. unfold fat_mount_device in Hm. rewrite bind_gets in Hm.
  apply bind_Ok_inv in Hm as ([] & s0 & Hu & Hm).
  assert (A0 : sector_buffer_addr s0 = sector_buffer_addr s).
  { destruct (dev (mounted s)); [now apply fat_umount_device_addr in Hu|].
    now injection Hu as <-. }
  clear Hu.
  apply bind_Ok_inv in Hm as (st & s2 & Hrd & Hm).
  assert (R : sector_buffer_addr s2 = sector_buffer_addr s0 /\
              device s2 = device s0 /\
              forall x, device s0 !! 0 = Some x -> sector_buffer s2 = x).
  { unfold dev_read in Hrd. cbn in Hrd.
    destruct (device s0 !! 0) as [x|] eqn:E; injection Hrd as <- <-; cbn;
      (split; [reflexivity|split; [reflexivity|]]); intros y; congruence. }
  destruct R as (A2 & D2 & B2). clear Hrd.
  rewrite !bind_gets in Hm.
  assert (K : sector_buffer s1 = sector_buffer s2 /\
              sector_buffer_addr s1 = sector_buffer_addr s2 /\
              device s1 = device s2).
  { apply bind_Ok_inv in Hm as ([f inf] & sp & Hp & Hm).
    unfold lift_option in Hp. destruct (parse_bootsector _ _); [|discriminate].
    injection Hp as -> <-.
    apply bind_Ok_inv in Hm as ([] & s3 & Hs3 & Hm). apply modify_inv in Hs3.
    destruct (negb (f =? 0)); [injection Hm as <- <-; subst s3; auto|].
    apply bind_Ok_inv in Hm as (t & s4 & Hdt & Hm). unfold lift_option in Hdt.
    destruct (determine_fat_type inf); [|discriminate]. injection Hdt as -> <-.
    apply bind_Ok_inv in Hm as ([] & s5 & Hs5 & Hm). apply modify_inv in Hs5.
    destruct t; [injection Hm as <- <-; subst s5 s3; auto| |];
      apply bind_Ok_inv in Hm as (rds & s6 & Hr & Hm);
      apply pure_udiv in Hr as ->;
      apply bind_Ok_inv in Hm as ([] & s7 & Hs7 & Hm); apply modify_inv in Hs7;
      injection Hm as <- <-; subst s7 s5 s3; auto. }
  destruct K as (K1 & K2 & K3).
  assert (Eb : sector_buffer s1 = b).
  { rewrite K1. apply B2. rewrite <- D2, <- K3. exact Hb. }
  assert (Ea : sector_buffer_addr s1 = sector_buffer_addr s) by congruence.
  split; [exact Eb|]. split; [exact Ea|].
  intros Hnz. unfold fat_read_block. rewrite bind_gets, Ea, Z.eqb_refl.
  destruct (Z.eqb_spec (sector_buffer_addr s) 0); [contradiction|]. reflexivity.
Qed.

End StaleBuffer.

Lemma fat_mount_device_stale_buffer_witness :
  sector_buffer mounted_stale = boot_512 /\
  sector_buffer_addr mounted_stale = sector_buffer_addr stale_state /\
  (sector_buffer_addr stale_state <> 0 ->
   fat_read_block (sector_buffer_addr stale_state) mounted_stale = Ok 0 mounted_stale).
Proof.
  apply (fat_mount_device_stale_buffer (platform := avr) stale_state 0).
  - vm_compute. reflexivity.
  - vm_compute. reflexivity.
Defined.

(** ** The second FAT *)

Section Mirror.
Context {platform : Platform}.
Implicit Types s : State (gmap Z (list Z)).

Lemma ramdisk_read a b s :
  device s !! a = Some b ->
  dev_read a s
  = Ok 0 (with_sector_buffer b
            (with_io_log (io_log s ++ [IoRead a]) (with_device (device s) s))).
Proof. intros H. unfold dev_read. cbn. now rewrite H. Qed.

Lemma ramdisk_write a s :
  is_Some (device s !! a) ->
  dev_write a s
  = Ok 0 (with_io_log (io_log s ++ [IoWrite a (sector_buffer s)])
            (with_device (<[a := sector_buffer s]> (device s)) s)).
Proof. intros [b H]. unfold dev_write. cbn. now rewrite H. Qed.

Lemma fat_flush_present s s1 a :
  fat_flush s = Ok tt s1 ->
  is_Some (device s !! a) -> is_Some (device s1 !! a).
Proof.
  unfold fat_flush. rewrite bind_gets.
  destruct (_ =? 0); [now intros [= <-]|]. rewrite bind_gets. intros H Ha.
  apply bind_Ok_inv in H as (st & sa & Hw & H). apply modify_inv in H. subst s1.
  unfold dev_write in Hw. cbn in Hw.
  destruct (device s !! sector_buffer_addr s) eqn:E; injection Hw as <- <-; cbn;
    [|assumption].
  destruct (decide (sector_buffer_addr s = a)) as [->|N].
  - rewrite lookup_insert_eq. eauto.
  - now rewrite lookup_insert_ne.
Qed.

Lemma fat_sync_fats_from_spec (k : nat) : forall b s s1,
  let inf := info (mounted s) in
  let rsvd := BPB_RsvdSecCnt inf in
  let n := BPB_FATSz inf in
  BPB_NumFATs inf = 2 -> 0 <= rsvd -> 0 <= b -> b + Z.of_nat k = n ->
  rsvd + 2 * n <= 2^32 ->
  (forall a, rsvd <= a < rsvd + 2 * n -> is_Some (device s !! a)) ->
  fat_sync_fats_from k b s = Ok tt s1 ->
  (forall a, ~ (rsvd + n + b <= a < rsvd + 2 * n) -> device s1 !! a = device s !! a) /\
  (forall i, b <= i < n -> device s1 !! (rsvd + n + i) = device s !! (rsvd + i)) /\
  match k with
  | O => s1 = s
  | S _ => device s !! (rsvd + n - 1) = Some (sector_buffer s1)
  end.
Proof.
  induction k as [|k IH]; intros b s s1 inf rsvd n Hnf Hr Hb Hk Hfit Hpres H.
  - injection H as <-. repeat split; auto; intros; lia.
  - cbn [fat_sync_fats_from] in H. unfold mounted_info in H. rewrite bind_gets in H.
    fold inf rsvd in H.
    assert (E1 : u32 (b + rsvd) = rsvd + b) by (unfold u32; rewrite Z.mod_small; lia).
    assert (E2 : u32 (rsvd + b + u32 ((2 - 1) * n)) = rsvd + n + b).
    { unfold u32. rewrite (Z.mod_small ((2 - 1) * n)) by lia.
      rewrite Z.mod_small; lia. }
    destruct (Hpres (rsvd + b) ltac:(lia)) as [cb Hcb].
    unfold sync_mirrors in H. fold inf in H. rewrite Hnf in H.
    change (2 =? 255) with false in H. cbn iota in H.
    change (seqZ 2 (2 - 1)) with [2] in H. cbn [fold_right] in H.
    fold rsvd n in H. rewrite E1 in H.
    rewrite (bind_Ok _ _ _ _ _ (ramdisk_read _ _ _ Hcb)) in H.
    set (sa := with_sector_buffer cb _) in H.
    rewrite E2 in H.
    apply bind_Ok_inv in H as ([] & sc & Hw & H).
    apply bind_Ok_inv in Hw as (st & sb & Hw & Hret). apply pure_ret in Hret. subst sc.
    rewrite (ramdisk_write (rsvd + n + b) sa) in Hw
      by (apply (Hpres (rsvd + n + b)); lia).
    assert (Dsb : device sb = <[rsvd + n + b := cb]> (device s))
      by (injection Hw as _ <-; reflexivity).
    assert (Msb : mounted sb = mounted s) by (injection Hw as _ <-; reflexivity).
    assert (Bsb : sector_buffer sb = cb) by (injection Hw as _ <-; reflexivity).
    clear Hw.
    apply IH in H; rewrite ?Msb; fold inf rsvd n; try lia; try assumption.
    2:{ intros a Ha. rewrite Dsb.
        destruct (decide (rsvd + n + b = a)) as [->|N].
        - rewrite lookup_insert_eq. eauto.
        - rewrite lookup_insert_ne by assumption. now apply Hpres. }
    rewrite Msb in H. fold inf rsvd n in H.
    destruct H as (F & Mi & Last). rewrite Dsb in F, Mi.
    split; [|split].
    + intros a Ha. rewrite F by lia. apply lookup_insert_ne. lia.
    + intros i Hi. destruct (decide (i = b)) as [->|N].
      * rewrite F by lia. rewrite lookup_insert_eq. now rewrite Hcb.
      * rewrite Mi by lia. apply lookup_insert_ne. lia.
    + destruct k as [|k'].
      * subst s1. rewrite Bsb. replace (rsvd + n - 1) with (rsvd + b) by lia.
        exact Hcb.
      * rewrite Dsb, lookup_insert_ne in Last by lia. exact Last.
Qed.

(** [fat_sync_fats] on a volume with two FATs that are both on the
    device: afterwards every sector of the second FAT equals the sector
    of the first FAT it mirrors.  The sectors are read into the sector
    buffer without a word to the cache: the buffer's address is as
    before, while the buffer holds the last sector of the first FAT. *)
Theorem fat_sync_fats_mirrors s s1 :
  let inf := info (mounted s) in
  let rsvd := BPB_RsvdSecCnt inf in
  let n := BPB_FATSz inf in
  BPB_NumFATs inf = 2 -> 0 <= rsvd -> 0 <= n -> rsvd + 2 * n <= 2^32 ->
  (forall a, rsvd <= a < rsvd + 2 * n -> is_Some (device s !! a)) ->
  fat_sync_fats s = Ok tt s1 ->
  (forall i, 0 <= i < n -> device s1 !! (rsvd + n + i) = device s1 !! (rsvd + i)) /\
  sector_buffer_addr s1 = sector_buffer_addr s /\
  (0 < n -> device s1 !! (rsvd + n - 1) = Some (sector_buffer s1)).
Proof.
  intros inf rsvd n Hnf Hr Hn Hfit Hpres H.
  pose proof (fat_sync_fats_addr _ _ _ H) as Ha.
  unfold fat_sync_fats in H.
  apply bind_Ok_inv in H as ([] & sa & Hf & H).
  pose proof (keeps_fat_flush _ _ _ Hf) as (Ma & _).
  assert (Hpres' : forall a, rsvd <= a < rsvd + 2 * n -> is_Some (device sa !! a)).
  { intros a Hx. eapply fat_flush_present; [exact Hf|]. now apply Hpres. }
  unfold mounted_info in H. rewrite bind_gets in H. rewrite Ma in H. fold inf n in H.
  apply fat_sync_fats_from_spec in H; rewrite ?Ma; fold inf rsvd n;
    try assumption; try lia.
  rewrite Ma in H. fold inf rsvd n in H. destruct H as (F & Mi & Last).
  split; [|split; [exact Ha|]].
  - intros i Hi. rewrite Mi by lia. rewrite F by lia. reflexivity.
  - intros Hpos. destruct (Z.to_nat n) eqn:E; [lia|].
    rewrite F by lia. exact Last.
Qed.

End Mirror.

Lemma fat_sync_fats_mirrors_witness :
  let s1 := state_of (fat_sync_fats mirror_state) mirror_state in
  (forall i, 0 <= i < 2 -> device s1 !! (1 + 2 + i) = device s1 !! (1 + i)) /\
  sector_buffer_addr s1 = sector_buffer_addr mirror_state /\
  (0 < 2 -> device s1 !! (1 + 2 - 1) = Some (sector_buffer s1)).
Proof.
  apply (fat_sync_fats_mirrors mirror_state).
  - reflexivity.
  - cbn. lia.
  - cbn. lia.
  - cbn. lia.
  - intros a Ha. cbn in Ha.
    assert (Ea : a = 1 \/ a = 2 \/ a = 3 \/ a = 4) by lia.
    destruct Ea as [-> | [-> | [-> | ->]]]; vm_compute; eauto.
  - vm_compute. reflexivity.
Defined.

(** ** Stepping through a directory *)

Section NextBlock.
Implicit Types s : State (gmap Z (list Z)).

Lemma fat_flush_total s : exists s1, fat_flush s = Ok tt s1.
Proof.
  destruct (Z.eq_dec (sector_buffer_dirty s) 0) as [E|N].
  - rewrite fat_flush_clean by assumption. eauto.
  - rewrite fat_flush_dirty by assumption. eauto.
Qed.

(** Away from a multiple of [BPB_SecPerClus], [fat_next_block] loads the
    sector that follows the buffered one: the test is made on the sector
    number itself, wherever the data area starts.  The volume is left as
    it was. *)
Theorem fat_next_block_advances s :
  let addr := sector_buffer_addr s in
  let spc := BPB_SecPerClus (info (mounted s)) in
  coherent s -> spc <> 0 -> 0 <= addr -> addr + 1 < 2^32 ->
  (addr + 1) mod spc <> 0 ->
  exists st s1,
    fat_next_block s = Ok st s1 /\ stable s s1 /\
    sector_buffer_addr s1 = addr + 1 /\
    forall b, view s (addr + 1) = Some b -> st = 0 /\ sector_buffer s1 = b.
Proof.
  intros addr spc Hc Hspc H0 H1 Hmod. unfold fat_next_block.
  destruct (fat_flush_total s) as (sa & Hf). rewrite (bind_Ok _ _ _ _ _ Hf).
  destruct (fat_flush_spec _ _ Hc Hf) as (Hst & _ & Ha & _).
  pose proof Hst as (Ca & Ma & Va).
  rewrite bind_gets, Ha. unfold mounted_info. rewrite bind_gets, Ma.
  fold addr spc. unfold umod, bind at 1.
  destruct (Z.eqb_spec spc 0); [contradiction|]. unfold ret at 1.
  assert (E : u32 (addr + 1) = addr + 1) by (unfold u32; rewrite Z.mod_small; lia).
  rewrite E. destruct (Z.eqb_spec ((addr + 1) mod spc) 0); [contradiction|].
  destruct (fat_read_block_total (addr + 1) sa) as (st & s1 & Hr).
  exists st, s1. split; [exact Hr|].
  destruct (fat_read_block_spec _ _ _ _ Ca Hr) as (Hst1 & Ha1 & Hb1).
  split; [eapply stable_trans; eassumption|]. split; [exact Ha1|].
  intros b Hv. apply Hb1. now rewrite Va.
Qed.

(** At the end of a chain [fat_next_block] answers 128, and by then the
    sector buffer holds the FAT sector it has looked the cluster up in.
    A caller that takes [SECTOR_TO_CLUSTER( sector_buffer_addr )] for
    the cluster that ended, as [add_directory_entry_to_current] does to
    link a new cluster, gets a different cluster number. *)
Theorem fat_next_block_end_of_chain s c e :
  let inf := info (mounted s) in
  let addr := sector_buffer_addr s in
  let spc := BPB_SecPerClus inf in
  let fds := first_data_sector (mounted s) in
  coherent s -> vol_ok inf -> type inf <> FAT12 -> 0 < spc ->
  fds <= addr -> addr + spc < 2^32 -> (addr + 1) mod spc = 0 ->
  c = (addr - fds) / spc + 2 -> c < 2^28 ->
  fat_entry s c = Some e -> eoc_value (type inf) e = true ->
  fat_sector inf c < fds ->
  exists s1 c',
    fat_next_block s = Ok 128 s1 /\ stable s s1 /\
    sector_buffer_addr s1 = fat_sector inf c /\
    SECTOR_TO_CLUSTER (sector_buffer_addr s1) s1 = Ok c' s1 /\ c' <> c.
Proof.
  intros inf addr spc fds Hc Hv Ht Hspc Hfds Hfit Hmod Ec Hc28 He Heoc Hfat.
  assert (Hq : 0 <= (addr - fds) / spc) by (apply Z.div_pos; lia).
  destruct (fat_location inf c Hv Ht ltac:(lia)) as (Es & Eo & O1 & O2).
  assert (Hs0 : 0 <= fat_sector inf c).
  { rewrite Es. destruct Hv as (_ & Hv).
    assert (0 <= c * entry_size (type inf) / 512)
      by (apply Z.div_pos; [destruct (type inf); cbn; lia|lia]).
    lia. }
  unfold fat_next_block.
  destruct (fat_flush_total s) as (sa & Hf). rewrite (bind_Ok _ _ _ _ _ Hf).
  destruct (fat_flush_spec _ _ Hc Hf) as (Hst & _ & Ha & _).
  pose proof Hst as (Ca & Ma & Va).
  rewrite bind_gets, Ha. unfold mounted_info. rewrite bind_gets, Ma.
  fold inf addr spc. unfold umod, bind at 1.
  destruct (Z.eqb_spec spc 0); [lia|]. unfold ret at 1.
  assert (E : u32 (addr + 1) = addr + 1) by (unfold u32; rewrite Z.mod_small; lia).
  rewrite E. destruct (Z.eqb_spec ((addr + 1) mod spc) 0); [|contradiction].
  assert (Hsc : SECTOR_TO_CLUSTER addr sa = Ok c sa).
  { unfold SECTOR_TO_CLUSTER. rewrite bind_gets, Ma. fold inf spc fds.
    unfold udiv, bind. destruct (Z.eqb_spec spc 0); [lia|]. unfold ret. f_equal.
    unfold u32. rewrite (Z.mod_small (addr - fds)) by lia.
    rewrite Z.mod_small by lia. lia. }
  rewrite (bind_Ok _ _ _ _ _ Hsc).
  assert (Hea : fat_entry sa c = Some e) by (now rewrite (stable_fat_entry _ _ _ Hst)).
  destruct (read_fat_entry_Ok c e sa Ca) as (sb & Hr & Hstb);
    rewrite ?Ma; fold inf; try assumption.
  { destruct Hv as (-> & _). discriminate. }
  rewrite (bind_Ok _ _ _ _ _ Hr).
  pose proof Hstb as (Cb & Mb & Vb).
  rewrite (bind_Ok _ _ _ _ _ (is_EOC_run e sb)), Mb, Ma. fold inf. rewrite Heoc.
  assert (Hab : sector_buffer_addr sb = fat_sector inf c).
  { unfold read_fat_entry in Hr.
    apply bind_Ok_inv in Hr as ([sec off] & s' & Hcalc & Hr).
    apply calc_fat_block_inv in Hcalc as (-> & -> & _ & _).
    apply bind_Ok_inv in Hr as (st & s2 & Hrb & Hr).
    apply fat_read_block_addr in Hrb.
    assert (s2 = sb).
    { apply bind_Ok_inv in Hr as (i & s3 & Hi & Hr).
      apply pure_mounted_info in Hi as ->.
      destruct (type i); [now injection Hr| |].
      - apply bind_Ok_inv in Hr as (b1 & s4 & H1 & Hr). apply pure_sb_get in H1 as ->.
        apply bind_Ok_inv in Hr as (b0 & s4 & H0 & Hr). apply pure_sb_get in H0 as ->.
        now injection Hr.
      - apply bind_Ok_inv in Hr as (b3 & s4 & H3 & Hr). apply pure_sb_get in H3 as ->.
        apply bind_Ok_inv in Hr as (b2 & s4 & H2 & Hr). apply pure_sb_get in H2 as ->.
        apply bind_Ok_inv in Hr as (b1 & s4 & H1 & Hr). apply pure_sb_get in H1 as ->.
        apply bind_Ok_inv in Hr as (b0 & s4 & H0 & Hr). apply pure_sb_get in H0 as ->.
        now injection Hr. }
    subst s2. rewrite Hrb, Ma. reflexivity. }
  set (q' := (2^32 + fat_sector inf c - fds) / spc).
  exists sb, (u32 (q' + 2)).
  split; [reflexivity|]. split; [eapply stable_trans; eassumption|].
  split; [exact Hab|]. split.
  - unfold SECTOR_TO_CLUSTER. rewrite bind_gets, Mb, Ma, Hab. fold inf spc fds.
    unfold udiv, bind. destruct (Z.eqb_spec spc 0); [lia|]. unfold ret. f_equal.
    f_equal. f_equal. unfold q'. f_equal. unfold u32.
    rewrite <- (Z.mod_add _ 1) by lia. rewrite Z.mod_small; lia.
  - assert (Hq1 : (addr - fds) / spc + 1 <= q').
    { unfold q'.
      replace ((addr - fds) / spc + 1) with ((addr - fds + 1 * spc) / spc)
        by (rewrite Z.div_add by lia; reflexivity).
      apply Z.div_le_mono; lia. }
    assert (Hq2 : q' < 2^32).
    { unfold q'. apply Z.div_lt_upper_bound; [lia|]. nia. }
    unfold u32. destruct (Z_lt_le_dec (q' + 2) (2^32)).
    + rewrite Z.mod_small by lia. lia.
    + replace (q' + 2) with ((q' + 2 - 2^32) + 1 * 2^32) by lia.
      rewrite Z.mod_add by lia. rewrite Z.mod_small by lia. lia.
Qed.

End NextBlock.

Lemma fat_next_block_advances_witness :
  exists st s1,
    fat_next_block demo_state_545 = Ok st s1 /\ stable demo_state_545 s1 /\
    sector_buffer_addr s1 = 544 + 1 /\
    forall b, view demo_state_545 (544 + 1) = Some b -> st = 0 /\ sector_buffer s1 = b.
Proof.
  apply (fat_next_block_advances demo_state_545).
  - intros _ _ b. vm_compute. now intros [= <-].
  - discriminate.
  - cbn. lia.
  - cbn. lia.
  - discriminate.
Defined.

Lemma fat_next_block_end_of_chain_witness :
  exists s1 c',
    fat_next_block demo_state_583 = Ok 128 s1 /\ stable demo_state_583 s1 /\
    sector_buffer_addr s1 = fat_sector demo_info 6 /\
    SECTOR_TO_CLUSTER (sector_buffer_addr s1) s1 = Ok c' s1 /\ c' <> 6.
Proof.
  apply (fat_next_block_end_of_chain demo_state_583 6 0x0FFFFFFF).
  - intros _ _ b. vm_compute. discriminate.
  - exact demo_vol_ok.
  - discriminate.
  - reflexivity.
  - cbn. lia.
  - cbn. lia.
  - reflexivity.
  - reflexivity.
  - lia.
  - vm_compute. reflexivity.
  - reflexivity.
  - vm_compute. reflexivity.
Defined.

(** ** Allocation *)

Section FreeCluster.
Implicit Types s : State (gmap Z (list Z)).

Lemma _get_free_cluster_32_from_spec (k : nat) : forall i s r s1,
  0 <= i -> i mod 4 = 0 -> i + 4 * Z.of_nat k = 512 ->
  _get_free_cluster_32_from k i s = Ok r s1 ->
  s1 = s /\
  (r = 512 \/
   0 <= r /\ r + 4 <= 512 /\ r mod 4 = 0 /\
   decode_entry FAT32 (sector_buffer s) r = Some 0).
Proof.
  induction k as [|k IH]; intros i s r s1 Hi Hm Hk H; cbn [_get_free_cluster_32_from] in H.
  - injection H as <- <-. auto.
  - apply bind_Ok_inv in H as (b3 & sa & H3 & H). apply sb_get_inv in H3 as (-> & _ & L3).
    apply bind_Ok_inv in H as (b2 & sa & H2 & H). apply sb_get_inv in H2 as (-> & _ & L2).
    apply bind_Ok_inv in H as (b1 & sa & H1 & H). apply sb_get_inv in H1 as (-> & _ & L1).
    apply bind_Ok_inv in H as (b0 & sa & H0 & H). apply sb_get_inv in H0 as (-> & _ & L0).
    destruct (Z.eqb_spec (Z.land (u32 (le32 b0 b1 b2 b3)) 0x0FFFFFFF) 0) as [E|N].
    + injection H as <- <-. split; [reflexivity|]. right.
      split; [lia|]. split; [lia|]. split; [assumption|].
      cbn [decode_entry]. rewrite L3, L2, L1, L0. now rewrite E.
    + apply IH in H; [assumption|lia| |lia].
      rewrite <- (Z.mod_add i 1 4) in Hm by lia. exact Hm.
Qed.

Lemma get_free_cluster_scan_spec (fuel : nat) : forall sec i0 s rsec i s1,
  coherent s -> type (info (mounted s)) = FAT32 ->
  0 <= sec -> sec + Z.of_nat fuel < 2^32 ->
  get_free_cluster_scan fuel sec i0 s = Ok (rsec, i) s1 ->
  stable s s1 /\
  sec < rsec <= sec + Z.of_nat fuel /\ sector_buffer_addr s1 = rsec - 1 /\
  0 <= i /\ i + 4 <= 512 /\ i mod 4 = 0 /\
  decode_entry FAT32 (sector_buffer s1) i = Some 0.
Proof.
  induction fuel as [|fuel IH]; intros sec i0 s rsec i s1 Hc Ht Hs Hfit H;
    cbn [get_free_cluster_scan] in H; [discriminate|].
  apply bind_Ok_inv in H as (st & sa & Hr & H).
  destruct (fat_read_block_spec _ _ _ _ Hc Hr) as (Hst & Ha & _).
  pose proof Hst as (Ca & Ma & Va).
  unfold mounted_info in H. rewrite bind_gets, Ma, Ht in H.
  apply bind_Ok_inv in H as (j & sb & Hj & H).
  unfold _get_free_cluster_32 in Hj.
  apply (_get_free_cluster_32_from_spec 128 0 _ _ _ ltac:(lia) eq_refl eq_refl)
    in Hj as (-> & Hj).
  assert (E : u32 (sec + 1) = sec + 1) by (unfold u32; rewrite Z.mod_small; lia).
  rewrite E in H.
  destruct (Z.eqb_spec j 512) as [->|N].
  - apply IH in H; [|assumption|congruence|lia|lia].
    destruct H as (Hst2 & Hr2 & Ha2 & Hi).
    split; [eapply stable_trans; eassumption|]. split; [lia|]. auto.
  - injection H as <- <- <-. destruct Hj as [?|Hj]; [contradiction|].
    split; [assumption|]. split; [lia|]. split; [rewrite Ha; lia|]. exact Hj.
Qed.

(** The cluster [get_free_cluster] hands out is free.  On a FAT32 volume
    with 512-byte sectors, searching from the FAT sector of
    [start_cluster] on and inside the FAT, the answer is a cluster whose
    entry reads 0 in its low 28 bits, in the FAT sector of
    [start_cluster] or behind it (so possibly a cluster below
    [start_cluster]); the volume is not changed. *)
Theorem get_free_cluster_is_free fuel start s c s1 :
  let inf := info (mounted s) in
  coherent s -> vol_ok inf -> type inf = FAT32 -> 0 < BPB_RsvdSecCnt inf ->
  0 <= start < 2^28 -> start / 128 + Z.of_nat fuel <= 2^21 ->
  get_free_cluster fuel start s = Ok c s1 ->
  stable s s1 /\ 0 <= c < 2^28 /\
  fat_sector inf start <= fat_sector inf c /\
  (is_Some (device s1 !! fat_sector inf c) -> fat_entry s c = Some 0).
Proof.
  intros inf Hc Hv Ht Hr Hs Hfuel H.
  assert (Hq : 0 <= start / 128) by (apply Z.div_pos; lia).
  destruct (fat_location inf start Hv ltac:(congruence) ltac:(lia)) as (Es & _).
  rewrite Ht in Es. cbn [entry_size] in Es.
  replace (start * 4 / 512) with (start / 128) in Es
    by (rewrite <- (Z.div_mul_cancel_r start 128 4) by lia; reflexivity).
  pose proof Hv as (Hbps & Hr16).
  unfold get_free_cluster in H.
  assert (Hcalc : calc_fat_block start 0 s
                  = Ok (fat_sector inf start, fat_offset inf start) s)
    by (apply calc_fat_block_Ok; fold inf; rewrite Hbps; discriminate).
  rewrite (bind_Ok _ _ _ _ _ Hcalc) in H. rewrite Es in H.
  apply bind_Ok_inv in H as ([rsec i] & sa & Hscan & H).
  apply get_free_cluster_scan_spec in Hscan; [|assumption|assumption|lia|lia].
  destruct Hscan as (Hst & Hrs & Ha & Hi0 & Hi4 & Him & Hdec).
  pose proof Hst as (Ca & Ma & Va).
  unfold mounted_info in H. rewrite bind_gets, Ma in H. fold inf in H.
  rewrite Ht, Hbps in H. injection H as <- <-.
  set (k := rsec - 1 - BPB_RsvdSecCnt inf).
  assert (Hk : 0 <= k < 2^21) by (unfold k; lia).
  assert (E : u32 (u32 (u32 (rsec - 1) - BPB_RsvdSecCnt inf) * 512 + i) = k * 512 + i).
  { unfold u32. rewrite (Z.mod_small (rsec - 1)) by lia. fold k.
    rewrite (Z.mod_small k) by lia. apply Z.mod_small. lia. }
  rewrite E.
  assert (Ei : i = 4 * (i / 4)) by (apply Z.div_exact; lia).
  assert (Hi4' : 0 <= i / 4 < 128).
  { split; [apply Z.div_pos; lia|apply Z.div_lt_upper_bound; lia]. }
  assert (Ec : (k * 512 + i) / 4 = k * 128 + i / 4).
  { replace (k * 512 + i) with (i + (k * 128) * 4) by lia.
    rewrite Z.div_add by lia. lia. }
  rewrite Ec. set (c := k * 128 + i / 4).
  assert (Hc28 : 0 <= c < 2^28) by (unfold c; lia).
  destruct (fat_location inf c Hv ltac:(congruence) Hc28) as (Esc & Eoc & _).
  rewrite Ht in Esc, Eoc. cbn [entry_size] in Esc, Eoc.
  assert (Ec4 : c * 4 = i + k * 512) by (unfold c; lia).
  rewrite Ec4 in Esc, Eoc.
  rewrite Z.div_add in Esc by lia. rewrite Z.mod_add in Eoc by lia.
  rewrite Z.div_small in Esc by lia. rewrite Z.mod_small in Eoc by lia.
  replace (BPB_RsvdSecCnt inf + (0 + k)) with (rsec - 1) in Esc by (unfold k; lia).
  split; [assumption|]. split; [assumption|]. split; [rewrite Es, Esc; lia|].
  intros [b Hb]. rewrite <- (stable_fat_entry _ _ c Hst).
  unfold fat_entry. rewrite Ma. fold inf. rewrite Esc, Eoc, Ht.
  rewrite Esc in Hb. unfold view. rewrite Hb.
  destruct (bool_decide _) eqn:Ed; [exact Hdec|].
  apply bool_decide_eq_false in Ed.
  assert (Hd0 : sector_buffer_dirty sa = 0).
  { destruct (Z.eq_dec (sector_buffer_dirty sa) 0); [assumption|].
    exfalso. apply Ed. split; [assumption|exact Ha]. }
  rewrite <- (Ca Hd0 ltac:(rewrite Ha; lia) b ltac:(rewrite Ha; exact Hb)).
  exact Hdec.
Qed.

End FreeCluster.

Lemma get_free_cluster_is_free_witness :
  let s1 := state_of (get_free_cluster 10 7 demo_state) demo_state in
  stable demo_state s1 /\ 0 <= 9 < 2^28 /\
  fat_sector demo_info 7 <= fat_sector demo_info 9 /\
  (is_Some (device s1 !! fat_sector demo_info 9) -> fat_entry demo_state 9 = Some 0).
Proof.
  apply (get_free_cluster_is_free 10 7 demo_state 9).
  - exact demo_coherent.
  - exact demo_vol_ok.
  - reflexivity.
  - reflexivity.
  - lia.
  - apply Z.leb_le. reflexivity.
  - vm_compute. reflexivity.
Defined.

(** ** Closing writes the entry *)

Section ClosePersists.
Context {platform : Platform}.
Implicit Types s : State (gmap Z (list Z)).

(** [cfs_close] brings the file's directory entry to the device: when
    the sector of the entry is on the device, the sector there ends up
    as it was seen before the call, with the 32 bytes of the record's
    entry at the entry's offset. *)
Theorem cfs_close_persists_entry fd s d f b s1 :
  let sec := dir_entry_sector f in
  let off := dir_entry_offset f in
  let raw := bytes_of_dir_entry (f_dir_entry f) in
  coherent s -> 0 <= fd < FAT_FD_POOL_SIZE ->
  get_fd fd s = Ok d s -> file_ptr d = true -> get_file fd s = Ok f s ->
  view s sec = Some b ->
  0 <= off -> off + Z.of_nat (length raw) <= 512 ->
  off + Z.of_nat (length raw) <= Z.of_nat (length b) ->
  cfs_close fd s = Ok tt s1 ->
  device s1 !! sec = Some (list_inserts (Z.to_nat off) raw b).
Proof.
  intros sec off raw Hc Hfd Hd Hp Hf Hv H0 H1 H2 H. unfold cfs_close in H.
  destruct (Z.ltb_spec fd 0); [lia|].
  destruct (Z.leb_spec FAT_FD_POOL_SIZE fd); [lia|]. cbn [orb] in H.
  rewrite (bind_Ok _ _ _ _ _ Hd), Hp in H. cbn [negb] in H.
  apply bind_Ok_inv in H as ([] & sa & Hu & H).
  unfold update_dir_entry in Hu. rewrite (bind_Ok _ _ _ _ _ Hf) in Hu.
  fold sec off raw in Hu.
  apply bind_Ok_inv in Hu as (st & sr & Hr & Hu).
  destruct (fat_read_block_spec _ _ _ _ Hc Hr) as ((Cr & Mr & Vr) & Ar & Br).
  destruct (Br b Hv) as (-> & Eb). cbn [Z.eqb negb] in Hu.
  rewrite (bind_Ok _ _ _ _ _
             (sb_set_range_Ok off raw sr H0 H1 ltac:(rewrite Eb; exact H2))) in Hu.
  apply modify_inv in Hu. rewrite Eb in Hu.
  assert (Hpres : is_Some (device sr !! sec)).
  { specialize (Vr sec). rewrite Hv in Vr. unfold view in Vr.
    destruct (device sr !! sec); [eauto|discriminate]. }
  apply bind_Ok_inv in H as ([] & sb & Hfl & H).
  rewrite fat_flush_dirty in Hfl by (subst sa; cbn; discriminate).
  injection Hfl as Hsb.
  assert (Dsb : device sb !! sec = Some (list_inserts (Z.to_nat off) raw b)).
  { subst sb sa. cbn. rewrite Ar. destruct Hpres as [x Hx]. rewrite Hx. cbn.
    apply lookup_insert_eq. }
  apply bind_Ok_inv in H as (d' & sc & Hg & H). apply pure_get_fd in Hg as ->.
  unfold set_fd in H. destruct (_ && _); [|discriminate]. injection H as <-.
  exact Dsb.
Qed.

End ClosePersists.

Lemma cfs_close_persists_entry_witness :
  device (state_of (cfs_close (platform := avr) 0 seek_state) seek_state)
    !! dir_entry_sector seek_file
  = Some (list_inserts (Z.to_nat (dir_entry_offset seek_file))
            (bytes_of_dir_entry (f_dir_entry seek_file)) demo_root).
Proof.
  apply (cfs_close_persists_entry (platform := avr) 0 seek_state
           {| offset := 4; file_ptr := true; flags := CFS_READ |} seek_file demo_root).
  - intros _ Ha. exfalso. apply Ha. reflexivity.
  - cbn. lia.
  - reflexivity.
  - reflexivity.
  - reflexivity.
  - vm_compute. reflexivity.
  - cbn. lia.
  - apply Z.leb_le. reflexivity.
  - apply Z.leb_le. reflexivity.
  - vm_compute. reflexivity.
Defined.

(** ** Names for the caller *)

Section Readable.
Context {D : Type}.
Implicit Types s : State D.

Lemma byte_at_middle (pre post : list Z) c :
  byte_at (pre ++ c :: post) (Z.to_nat (Z.of_nat (length pre))) = c.
Proof. unfold byte_at. rewrite Nat2Z.id. apply nth_middle. Qed.

(** One round of the loop of [make_readable_entry], by the character
    and the position it is at. *)
Lemma make_readable_entry_from_char (k : nat) dir (pre post n1 n3 : list Z) c y s :
  DIR_Name dir = pre ++ c :: post -> c <> 0x20 -> length pre <> 7%nat ->
  (length n1 < 255)%nat ->
  make_readable_entry_from (S k) dir (Z.of_nat (length pre))
    (Z.of_nat (length n1)) (n1 ++ y :: n3) s
  = make_readable_entry_from k dir (Z.of_nat (length pre) + 1)
      (Z.of_nat (length n1) + 1) (n1 ++ c :: n3) s.
Proof.
  intros Hn Hc H7 Hj. cbn [make_readable_entry_from]. rewrite Hn, byte_at_middle.
  destruct (Z.eqb_spec c 32); [contradiction|].
  rewrite length_app. cbn [length].
  destruct (Z.ltb_spec (Z.of_nat (length n1)) (Z.of_nat (length n1 + S (length n3))));
    [|lia].
  unfold bind at 1 2, ret at 1.
  destruct (Z.eqb_spec (Z.of_nat (length pre)) 7); [lia|]. unfold ret at 1.
  rewrite Nat2Z.id, insert_app_r_alt, Nat.sub_diag by lia. cbn [insert list_insert].
  unfold u8. rewrite Z.mod_small by lia. reflexivity.
Qed.

Lemma make_readable_entry_from_space (k : nat) dir (pre post nm : list Z) j s :
  DIR_Name dir = pre ++ 0x20 :: post -> length pre <> 7%nat ->
  make_readable_entry_from (S k) dir (Z.of_nat (length pre)) j nm s
  = make_readable_entry_from k dir (Z.of_nat (length pre) + 1) j nm s.
Proof.
  intros Hn H7. cbn [make_readable_entry_from]. rewrite Hn, byte_at_middle.
  cbn [Z.eqb Pos.eqb]. unfold bind at 1 2, ret at 1.
  destruct (Z.eqb_spec (Z.of_nat (length pre)) 7); [lia|]. reflexivity.
Qed.

Lemma make_readable_entry_from_dot (k : nat) dir (pre post n1 n3 : list Z) y s :
  DIR_Name dir = pre ++ 0x20 :: post -> length pre = 7%nat ->
  (length n1 < 255)%nat ->
  make_readable_entry_from (S k) dir (Z.of_nat (length pre))
    (Z.of_nat (length n1)) (n1 ++ y :: n3) s
  = make_readable_entry_from k dir 8 (Z.of_nat (length n1) + 1) (n1 ++ 46 :: n3) s.
Proof.
  intros Hn H7 Hj. cbn [make_readable_entry_from]. rewrite Hn, byte_at_middle.
  cbn [Z.eqb Pos.eqb]. unfold bind at 1 2, ret at 1. rewrite H7.
  change (Z.of_nat 7 =? 7) with true. cbn iota.
  rewrite length_app. cbn [length].
  destruct (Z.ltb_spec (Z.of_nat (length n1)) (Z.of_nat (length n1 + S (length n3))));
    [|lia].
  unfold ret at 1.
  rewrite Nat2Z.id, insert_app_r_alt, Nat.sub_diag by lia. cbn [insert list_insert].
  unfold u8. rewrite Z.mod_small by lia. reflexivity.
Qed.

Lemma make_readable_entry_from_char_dot (k : nat) dir (pre post n1 n3 : list Z)
    c y1 y2 s :
  DIR_Name dir = pre ++ c :: post -> c <> 0x20 -> length pre = 7%nat ->
  (length n1 < 254)%nat ->
  make_readable_entry_from (S k) dir (Z.of_nat (length pre))
    (Z.of_nat (length n1)) (n1 ++ y1 :: y2 :: n3) s
  = make_readable_entry_from k dir 8 (Z.of_nat (length n1) + 2)
      (n1 ++ c :: 46 :: n3) s.
Proof.
  intros Hn Hc H7 Hj. cbn [make_readable_entry_from]. rewrite Hn, byte_at_middle.
  destruct (Z.eqb_spec c 32); [contradiction|].
  rewrite length_app. cbn [length].
  destruct (Z.ltb_spec (Z.of_nat (length n1))
              (Z.of_nat (length n1 + S (S (length n3))))); [|lia].
  unfold bind at 1 2, ret at 1. rewrite H7.
  change (Z.of_nat 7 =? 7) with true. cbn iota.
  rewrite Nat2Z.id, insert_app_r_alt, Nat.sub_diag by lia. cbn [insert list_insert].
  assert (E : u8 (Z.of_nat (length n1) + 1) = Z.of_nat (length (n1 ++ [c])))
    by (rewrite length_app; cbn [length]; unfold u8; rewrite Z.mod_small; lia).
  rewrite E.
  replace (n1 ++ c :: y2 :: n3) with ((n1 ++ [c]) ++ y2 :: n3)
    by (now rewrite <- app_assoc).
  rewrite (length_app (n1 ++ [c])). cbn [length].
  destruct (Z.ltb_spec (Z.of_nat (length (n1 ++ [c])))
              (Z.of_nat (length (n1 ++ [c]) + S (length n3)))); [|lia].
  unfold ret at 1.
  rewrite Nat2Z.id, insert_app_r_alt, Nat.sub_diag by lia. cbn [insert list_insert].
  rewrite <- app_assoc. cbn [app].
  rewrite length_app. cbn [length].
  unfold u8. rewrite Z.mod_small by lia.
  replace (Z.of_nat (length n1 + 1) + 1) with (Z.of_nat (length n1) + 2) by lia.
  change (Z.of_nat 7 + 1) with 8. reflexivity.
Qed.

(** A run of characters that are no spaces, none of them at position 7. *)
Lemma make_readable_entry_from_chars dir (cs : list Z) :
  forall (k : nat) (pre post n1 n2 n3 : list Z) s,
  DIR_Name dir = pre ++ cs ++ post -> Forall (fun c => c <> 0x20) cs ->
  (length pre + length cs <= 7 \/ 8 <= length pre)%nat ->
  length n2 = length cs -> (length n1 + length cs < 256)%nat ->
  make_readable_entry_from (length cs + k) dir (Z.of_nat (length pre))
    (Z.of_nat (length n1)) (n1 ++ n2 ++ n3) s
  = make_readable_entry_from k dir (Z.of_nat (length pre + length cs))
      (Z.of_nat (length n1 + length cs)) (n1 ++ cs ++ n3) s.
Proof.
  induction cs as [|c cs IH]; intros k pre post n1 n2 n3 s Hn Hcs Hpos Hl Hj.
  - destruct n2; [|discriminate]. cbn. now rewrite !Nat.add_0_r.
  - destruct n2 as [|y n2]; [discriminate|]. cbn [length] in *.
    apply Forall_cons in Hcs as (Hc & Hcs).
    change (S (length cs) + k)%nat with (S (length cs + k)).
    change (n1 ++ (y :: n2) ++ n3) with (n1 ++ y :: (n2 ++ n3)).
    rewrite (make_readable_entry_from_char _ dir pre (cs ++ post) n1 (n2 ++ n3) c y s);
      [|exact Hn|exact Hc|lia|lia].
    assert (E1 : Z.of_nat (length pre) + 1 = Z.of_nat (length (pre ++ [c])))
      by (rewrite length_app; cbn [length]; lia).
    assert (E2 : Z.of_nat (length n1) + 1 = Z.of_nat (length (n1 ++ [c])))
      by (rewrite length_app; cbn [length]; lia).
    assert (E3 : n1 ++ c :: n2 ++ n3 = (n1 ++ [c]) ++ n2 ++ n3)
      by (now rewrite <- app_assoc).
    rewrite E1, E2, E3.
    rewrite (IH k (pre ++ [c]) post (n1 ++ [c]) n2 n3 s);
      try assumption; try (rewrite ?length_app; cbn [length]; lia).
    + rewrite !length_app. cbn [length]. rewrite <- app_assoc. cbn [app].
      f_equal; lia.
    + rewrite Hn, <- app_assoc. reflexivity.
Qed.

(** A run of spaces, none of them at position 7. *)
Lemma make_readable_entry_from_spaces dir (m : nat) :
  forall (k : nat) (pre post nm : list Z) j s,
  DIR_Name dir = pre ++ replicate m 0x20 ++ post ->
  (length pre + m <= 7 \/ 8 <= length pre)%nat ->
  make_readable_entry_from (m + k) dir (Z.of_nat (length pre)) j nm s
  = make_readable_entry_from k dir (Z.of_nat (length pre + m)) j nm s.
Proof.
  induction m as [|m IH]; intros k pre post nm j s Hn Hpos.
  - cbn. now rewrite Nat.add_0_r.
  - cbn [replicate app] in Hn. change (S m + k)%nat with (S (m + k)).
    rewrite (make_readable_entry_from_space _ dir pre (replicate m 32 ++ post) nm j s);
      [|exact Hn|lia].
    replace (Z.of_nat (length pre) + 1) with (Z.of_nat (length (pre ++ [32])))
      by (rewrite length_app; cbn [length]; lia).
    rewrite (IH k (pre ++ [32]) post nm j s).
    + rewrite length_app. cbn [length]. f_equal. lia.
    + rewrite Hn, <- app_assoc. reflexivity.
    + rewrite length_app. cbn [length]. lia.
Qed.

Ltac list_len := rewrite ?length_app, ?length_replicate, ?length_take; cbn [length]; lia.

Lemma make_readable_entry_from_layout dir (B E old rest : list Z) s :
  DIR_Name dir
  = B ++ replicate (8 - length B) 0x20 ++ E ++ replicate (3 - length E) 0x20 ->
  (length B <= 8)%nat -> (length E <= 3)%nat ->
  Forall (fun c => c <> 0x20) B -> Forall (fun c => c <> 0x20) E ->
  length old = (length B + 1 + length E)%nat ->
  make_readable_entry_from 11 dir 0 0 (old ++ rest) s
  = Ok (B ++ 46 :: E ++ rest) s.
Proof.
  intros Hn HB HE FB FE Hold.
  set (pad3 := replicate (3 - length E) 32) in *.
  (* the old bytes under the base, the dot and the extension *)
  assert (Ho : exists o1 od o2, old = o1 ++ od :: o2 /\ length o1 = length B /\
                                length o2 = length E).
  { exists (take (length B) old).
    destruct (drop (length B) old) as [|od o2] eqn:Ed.
    - apply (f_equal length) in Ed. rewrite length_drop in Ed. cbn in Ed. lia.
    - exists od, o2. rewrite <- Ed, take_drop. split; [reflexivity|].
      split; [rewrite length_take; lia|].
      apply (f_equal length) in Ed. rewrite length_drop in Ed. cbn in Ed. lia. }
  destruct Ho as (o1 & od & o2 & -> & Lo1 & Lo2). clear Hold.
  rewrite <- app_assoc. cbn [app].
  change 0 with (Z.of_nat (@length Z [])).
  destruct (Nat.eq_dec (length B) 8%nat) as [E8|N8].
  - (* the base fills its field: its last character sits at position 7 *)
    rewrite E8 in Hn. cbn [Nat.sub replicate app] in Hn.
    assert (HB7 : exists B7 c7, B = B7 ++ [c7] /\ length B7 = 7%nat).
    { exists (take 7 B). destruct (drop 7 B) as [|c7 [|? ?]] eqn:Ed;
        apply (f_equal length) in Ed as El; rewrite length_drop in El; cbn in El;
        try lia.
      exists c7. rewrite <- Ed, take_drop. split; [reflexivity|].
      rewrite length_take. lia. }
    destruct HB7 as (B7 & c7 & -> & L7).
    apply Forall_app in FB as (FB7 & Fc7). apply Forall_cons in Fc7 as (Hc7 & _).
    assert (Ho17 : exists o17 y1, o1 = o17 ++ [y1] /\ length o17 = 7%nat).
    { rewrite length_app in Lo1. cbn in Lo1.
      exists (take 7 o1). destruct (drop 7 o1) as [|y1 [|? ?]] eqn:Ed;
        apply (f_equal length) in Ed as El; rewrite length_drop in El; cbn in El;
        try lia.
      exists y1. rewrite <- Ed, take_drop. split; [reflexivity|].
      rewrite length_take. lia. }
    destruct Ho17 as (o17 & y1 & -> & Lo17).
    rewrite <- !app_assoc in Hn. cbn [app] in Hn.
    rewrite <- !app_assoc. cbn [app].
    replace 11%nat with (length B7 + S (length E + ((3 - length E) + 0)))%nat by lia.
    change (o17 ++ y1 :: od :: o2 ++ rest)
      with ([] ++ o17 ++ y1 :: od :: o2 ++ rest).
    rewrite (make_readable_entry_from_chars dir B7 _ [] (c7 :: E ++ pad3) []
               o17 (y1 :: od :: o2 ++ rest) s Hn FB7);
      [|list_len|list_len|list_len].
    cbn [length app Nat.add].
    rewrite (make_readable_entry_from_char_dot _ dir B7 (E ++ pad3) B7
               (o2 ++ rest) c7 y1 od s Hn Hc7 L7 ltac:(lia)).
    replace 8 with (Z.of_nat (length (B7 ++ [c7]))) by list_len.
    replace (Z.of_nat (length B7) + 2) with (Z.of_nat (length (B7 ++ [c7; 46])))
      by list_len.
    replace (B7 ++ c7 :: 46 :: o2 ++ rest) with ((B7 ++ [c7; 46]) ++ o2 ++ rest)
      by (now rewrite <- app_assoc).
    rewrite (make_readable_entry_from_chars dir E _ (B7 ++ [c7]) pad3
               (B7 ++ [c7; 46]) o2 rest s);
      [|rewrite Hn, <- app_assoc; reflexivity|exact FE|list_len|exact Lo2|list_len].
    replace (Z.of_nat (length (B7 ++ [c7]) + length E))
      with (Z.of_nat (length ((B7 ++ [c7]) ++ E))) by list_len.
    rewrite (make_readable_entry_from_spaces dir (3 - length E) 0
               ((B7 ++ [c7]) ++ E) [] _ _ s);
      [|rewrite Hn, <- !app_assoc, app_nil_r; reflexivity|list_len].
    cbn [make_readable_entry_from]. unfold ret. rewrite <- !app_assoc. reflexivity.
  - (* a shorter base: position 7 holds a space *)
    assert (Hpad : replicate (8 - length B) 32
                   = replicate (7 - length B) 32 ++ [32]).
    { replace (8 - length B)%nat with ((7 - length B) + 1)%nat by lia.
      now rewrite replicate_add. }
    rewrite Hpad, <- !app_assoc in Hn. cbn [app] in Hn.
    replace 11%nat
      with (length B + ((7 - length B) + S (length E + ((3 - length E) + 0))))%nat
      by lia.
    change (o1 ++ od :: o2 ++ rest) with ([] ++ o1 ++ od :: o2 ++ rest).
    rewrite (make_readable_entry_from_chars dir B _ []
               (replicate (7 - length B) 32 ++ 32 :: E ++ pad3) []
               o1 (od :: o2 ++ rest) s Hn FB);
      [|list_len|exact Lo1|list_len].
    cbn [length app Nat.add].
    rewrite (make_readable_entry_from_spaces dir (7 - length B) _ B
               (32 :: E ++ pad3) _ _ s Hn ltac:(lia)).
    replace (Z.of_nat (length B + (7 - length B)))
      with (Z.of_nat (length (B ++ replicate (7 - length B) 32))) by list_len.
    rewrite (make_readable_entry_from_dot _ dir (B ++ replicate (7 - length B) 32)
               (E ++ pad3) B (o2 ++ rest) od s);
      [|rewrite Hn, <- app_assoc; reflexivity|list_len|lia].
    replace 8 with (Z.of_nat (length (B ++ replicate (7 - length B) 32 ++ [32])))
      by list_len.
    replace (Z.of_nat (length B) + 1) with (Z.of_nat (length (B ++ [46])))
      by list_len.
    replace (B ++ 46 :: o2 ++ rest) with ((B ++ [46]) ++ o2 ++ rest)
      by (now rewrite <- app_assoc).
    rewrite (make_readable_entry_from_chars dir E _
               (B ++ replicate (7 - length B) 32 ++ [32]) pad3
               (B ++ [46]) o2 rest s);
      [|rewrite Hn, <- !app_assoc; reflexivity|exact FE|list_len|exact Lo2|list_len].
    replace (Z.of_nat (length (B ++ replicate (7 - length B) 32 ++ [32]) + length E))
      with (Z.of_nat (length ((B ++ replicate (7 - length B) 32 ++ [32]) ++ E)))
      by list_len.
    rewrite (make_readable_entry_from_spaces dir (3 - length E) 0
               ((B ++ replicate (7 - length B) 32 ++ [32]) ++ E) [] _ _ s);
      [|rewrite Hn, <- !app_assoc, app_nil_r; reflexivity|list_len].
    cbn [make_readable_entry_from]. unfold ret. rewrite <- !app_assoc. reflexivity.
Qed.

(** What [make_readable_entry] writes.  For an entry whose name field
    holds [base] and [ext] padded with spaces, the caller's name buffer
    receives [base], a dot and [ext].  The dot is written also when the
    extension is empty, and no terminator follows: the bytes of the
    buffer behind the name are left as they were. *)
Theorem make_readable_entry_layout dir dirent (B E old rest : list Z) s :
  DIR_Name dir
  = B ++ replicate (8 - length B) 0x20 ++ E ++ replicate (3 - length E) 0x20 ->
  (length B <= 8)%nat -> (length E <= 3)%nat ->
  Forall (fun c => c <> 0x20) B -> Forall (fun c => c <> 0x20) E ->
  name dirent = old ++ rest -> length old = (length B + 1 + length E)%nat ->
  make_readable_entry dir dirent s
  = Ok {| name := B ++ 46 :: E ++ rest; size := size dirent |} s.
Proof.
  intros Hn HB HE FB FE Hname Hold. unfold make_readable_entry. rewrite Hname.
  rewrite (bind_Ok _ _ _ _ _
             (make_readable_entry_from_layout dir B E old rest s Hn HB HE FB FE Hold)).
  reflexivity.
Qed.

End Readable.

Lemma make_readable_entry_layout_witness :
  make_readable_entry (plain_file "BAR     TXT" 0 0)
    {| name := c_str "LONGNAME.DAT" ++ [0]; size := 7 |} demo_state
  = Ok {| name := c_str "BAR" ++ 46 :: c_str "TXT" ++ c_str "E.DAT" ++ [0];
          size := 7 |} demo_state.
Proof.
  apply (make_readable_entry_layout (plain_file "BAR     TXT" 0 0)
           {| name := c_str "LONGNAME.DAT" ++ [0]; size := 7 |}
           (c_str "BAR") (c_str "TXT") (c_str "LONGNAM") (c_str "E.DAT" ++ [0])
           demo_state).
  - reflexivity.
  - cbn. lia.
  - cbn. lia.
  - repeat constructor; discriminate.
  - repeat constructor; discriminate.
  - reflexivity.
  - reflexivity.
Defined.

(** ** Looking a name up *)

Section Lookup.
Context {D : Type} {blockdev : BlockDevice D}.
Implicit Types s : State D.

Lemma sb_get_range_run i len s :
  0 <= i -> 0 <= len -> i + len <= 512 ->
  i + len <= Z.of_nat (length (sector_buffer s)) ->
  sb_get_range i len s
  = Ok (take (Z.to_nat len) (drop (Z.to_nat i) (sector_buffer s))) s.
Proof.
  intros H0 Hl H1 H2. unfold sb_get_range.
  destruct (Z.leb_spec 0 i); [|lia].
  destruct (Z.leb_spec (i + len) 512); [|lia].
  destruct (Z.leb_spec (i + len) (Z.of_nat (length (sector_buffer s)))); [|lia].
  reflexivity.
Qed.

Lemma lookup_sector_skip (n j : nat) nm out s :
  length (sector_buffer s) = 512%nat -> (j < 16)%nat ->
  slot_name s j <> take 11 nm -> slot_mark s j <> Some 0 ->
  lookup_sector (S n) nm (32 * Z.of_nat j) out s
  = lookup_sector n nm (32 * Z.of_nat (S j)) out s.
Proof.
  intros Hl Hj Hn Hm. cbn [lookup_sector].
  rewrite (bind_Ok _ _ _ _ _ (sb_get_range_run (32 * Z.of_nat j) 11 s
             ltac:(lia) ltac:(lia) ltac:(lia) ltac:(lia))).
  replace (Z.to_nat (32 * Z.of_nat j)) with (32 * j)%nat by lia.
  change (Z.to_nat 11) with 11%nat.
  rewrite bool_decide_eq_false_2 by (intros E; apply Hn; symmetry; exact E).
  unfold bind at 1, sb_get, in_bounds.
  destruct (Z.leb_spec 0 (32 * Z.of_nat j)); [|lia].
  destruct (Z.ltb_spec (32 * Z.of_nat j) 512); [|lia]. cbn [andb].
  replace (Z.to_nat (32 * Z.of_nat j)) with (32 * j)%nat by lia.
  unfold slot_mark in Hm.
  destruct (sector_buffer s !! (32 * j)%nat) as [b|] eqn:Eb.
  - destruct (Z.eqb_spec b 0) as [->|N]; [contradiction|].
    f_equal. lia.
  - apply lookup_ge_None in Eb. lia.
Qed.

Lemma lookup_sector_skips (k : nat) nm out s : forall (d j n : nat),
  length (sector_buffer s) = 512%nat -> (k < 16)%nat -> (j + d = k)%nat ->
  (forall i, (j <= i < k)%nat ->
     slot_name s i <> take 11 nm /\ slot_mark s i <> Some 0) ->
  lookup_sector (d + n) nm (32 * Z.of_nat j) out s
  = lookup_sector n nm (32 * Z.of_nat k) out s.
Proof.
  induction d as [|d IH]; intros j n Hl Hk Hd Hskip.
  - replace j with k by lia. reflexivity.
  - change (S d + n)%nat with (S (d + n)).
    destruct (Hskip j ltac:(lia)) as (S1 & S2).
    rewrite lookup_sector_skip by (assumption || lia).
    apply IH; [assumption|assumption|lia|]. intros i Hi. apply Hskip. lia.
Qed.

(** [lookup] in the buffered sector: the first slot whose eleven name
    bytes equal the name wins, and a slot that starts with a zero byte
    ends the search with answer 1.  Slots before it that neither match
    nor start with zero are passed over, deleted ones (E5) like any
    other.  With a match the caller gets the 32 bytes of the slot as
    entry, the buffer's sector and the slot's offset; nothing is read
    from the device. *)
Theorem lookup_first_match fuel nm out s (k : nat) :
  length (sector_buffer s) = 512%nat -> (k < 16)%nat ->
  (forall i, (i < k)%nat ->
     slot_name s i <> take 11 nm /\ slot_mark s i <> Some 0) ->
  (slot_name s k = take 11 nm ->
   lookup (S fuel) nm out s
   = Ok (0, (dir_entry_of_bytes (take 32 (drop (32 * k) (sector_buffer s))),
             sector_buffer_addr s, 32 * Z.of_nat k)) s) /\
  (slot_name s k <> take 11 nm -> slot_mark s k = Some 0 ->
   lookup (S fuel) nm out s = Ok (1, out) s).
Proof.
  intros Hl Hk Hskip.
  assert (Hrun : lookup_sector 16 nm 0 out s
                 = lookup_sector (S (15 - k)) nm (32 * Z.of_nat k) out s).
  { replace 16%nat with (k + S (15 - k))%nat by lia.
    change 0 with (32 * Z.of_nat 0).
    apply lookup_sector_skips; [assumption|assumption|lia|].
    intros i Hi. apply Hskip. lia. }
  assert (Hname : sb_get_range (32 * Z.of_nat k) 11 s = Ok (slot_name s k) s).
  { rewrite sb_get_range_run by lia. unfold slot_name.
    replace (Z.to_nat (32 * Z.of_nat k)) with (32 * k)%nat by lia. reflexivity. }
  split.
  - intros Hm. cbn [lookup]. unfold bind at 1. rewrite Hrun.
    cbn [lookup_sector]. rewrite (bind_Ok _ _ _ _ _ Hname).
    rewrite bool_decide_eq_true_2 by (symmetry; exact Hm).
    rewrite (bind_Ok _ _ _ _ _ (sb_get_range_run (32 * Z.of_nat k) 32 s
               ltac:(lia) ltac:(lia) ltac:(lia) ltac:(lia))).
    rewrite bind_gets. unfold ret. cbn [Z.eqb].
    replace (Z.to_nat (32 * Z.of_nat k)) with (32 * k)%nat by lia.
    reflexivity.
  - intros Hm Hz. cbn [lookup]. unfold bind at 1. rewrite Hrun.
    cbn [lookup_sector]. rewrite (bind_Ok _ _ _ _ _ Hname).
    rewrite bool_decide_eq_false_2 by (intros E; apply Hm; symmetry; exact E).
    unfold bind at 1, sb_get, in_bounds.
    destruct (Z.leb_spec 0 (32 * Z.of_nat k)); [|lia].
    destruct (Z.ltb_spec (32 * Z.of_nat k) 512); [|lia]. cbn [andb].
    replace (Z.to_nat (32 * Z.of_nat k)) with (32 * k)%nat by lia.
    unfold slot_mark in Hz. rewrite Hz. reflexivity.
Qed.

End Lookup.

Lemma lookup_first_match_witness :
  let nm := c_str "BAR     TXT" in
  (slot_name demo_state_545 1 = take 11 nm ->
   lookup 1 nm uninitialised demo_state_545
   = Ok (0, (dir_entry_of_bytes (take 32 (drop (32 * 1) (sector_buffer demo_state_545))),
             sector_buffer_addr demo_state_545, 32 * Z.of_nat 1)) demo_state_545) /\
  (slot_name demo_state_545 1 <> take 11 nm -> slot_mark demo_state_545 1 = Some 0 ->
   lookup 1 nm uninitialised demo_state_545 = Ok (1, uninitialised) demo_state_545).
Proof.
  apply (lookup_first_match 0 (c_str "BAR     TXT") uninitialised demo_state_545 1).
  - reflexivity.
  - lia.
  - intros i Hi. assert (i = 0%nat) as -> by lia.
    split; vm_compute; discriminate.
Defined.

(** ** Writing *)

Section WriteCopy.
Context {D : Type} {blockdev : BlockDevice D} {platform : Platform}.
Implicit Types s : State D.

Lemma in_sint_mono w a b :
  0 <= a <= b -> in_sint w b = true -> in_sint w a = true.
Proof.
  unfold in_sint. intros Hab H. apply andb_true_iff in H as (H1 & H2).
  apply Z.leb_le in H1. apply Z.ltb_lt in H2.
  assert (0 < 2 ^ (bits w - 1)) by (destruct w; cbn; lia).
  apply andb_true_iff. split; [apply Z.leb_le|apply Z.ltb_lt]; lia.
Qed.

Lemma in_sint_bound w a : in_sint w a = true -> a < 2^31.
Proof.
  unfold in_sint. intros H. apply andb_true_iff in H as (_ & H).
  apply Z.ltb_lt in H.
  assert (2 ^ (bits w - 1) <= 2^31) by (destruct w; cbn; lia). lia.
Qed.

Lemma with_fat_file_pool_id s : with_fat_file_pool (fat_file_pool s) s = s.
Proof. now destruct s. Qed.

Lemma set_file_size_id e : set_file_size (DIR_FileSize e) e = e.
Proof. now destruct e. Qed.

Lemma set_dir_entry_id f : set_dir_entry (f_dir_entry f) f = f.
Proof. now destruct f. Qed.

Lemma set_offset_id d : set_offset (offset d) d = d.
Proof. now destruct d. Qed.

Lemma set_hint_id f : set_hint (cluster f) (nth_cluster f) (n f) f = f.
Proof. now destruct f. Qed.

Lemma sb_set_run i v s :
  0 <= i < 512 -> i < Z.of_nat (length (sector_buffer s)) ->
  sb_set i v s = Ok tt (with_sector_buffer (<[Z.to_nat i := u8 v]> (sector_buffer s)) s).
Proof.
  intros H0 H1. unfold sb_set, in_bounds.
  destruct (Z.leb_spec 0 i); [|lia]. destruct (Z.ltb_spec i 512); [|lia].
  destruct (Z.ltb_spec i (Z.of_nat (length (sector_buffer s)))); [|lia]. reflexivity.
Qed.

(** One round of the copy loop of [cfs_write]. *)
Lemma cfs_write_copy_step (k : nat) fd i j len buf s d f :
  let o := offset d in
  let sz := DIR_FileSize (f_dir_entry f) in
  BPB_BytesPerSec (info (mounted s)) = 512 ->
  0 <= i < 512 -> i < Z.of_nat (length (sector_buffer s)) ->
  0 <= j < len -> j < Z.of_nat (length buf) -> j + 1 < 65536 ->
  0 <= fd -> fat_fd_pool s !! Z.to_nat fd = Some d ->
  fat_file_pool s !! Z.to_nat fd = Some f ->
  0 <= o -> in_sint cfs_offset_width (o + 1) = true ->
  cfs_write_copy (S k) fd i j len buf s
  = cfs_write_copy k fd (i + 1) (j + 1) len buf
      (with_fat_fd_pool (<[Z.to_nat fd := set_offset (o + 1) d]> (fat_fd_pool s))
         (with_fat_file_pool
            (<[Z.to_nat fd := set_dir_entry
                                (set_file_size (if o <=? sz then Z.max sz (o + 1) else o)
                                   (f_dir_entry f)) f]>
               (fat_file_pool s))
            (with_sector_buffer
               (<[Z.to_nat i := u8 (nth (Z.to_nat j) buf 0)]> (sector_buffer s)) s))).
Proof.
  intros o sz Hb Hi Hil Hj Hjl Hj16 Hfd Hd Hf Ho Hin.
  pose proof (in_sint_bound _ _ Hin) as Hb31.
  cbn [cfs_write_copy]. unfold mounted_info. rewrite bind_gets, Hb.
  destruct (Z.ltb_spec i 512); [|lia]. destruct (Z.ltb_spec j len); [|lia].
  destruct (Z.leb_spec 0 j); [|lia].
  destruct (Z.ltb_spec j (Z.of_nat (length buf))); [|lia]. cbn [andb].
  rewrite (bind_Ok _ _ _ _ _ (sb_set_run i _ s Hi Hil)).
  set (sa := with_sector_buffer _ s).
  rewrite (bind_Ok _ _ _ _ _ (get_fd_Ok sa fd d Hfd Hd)).
  rewrite (bind_Ok _ _ _ _ _ (get_file_Ok sa fd f Hfd Hf)).
  fold o sz.
  assert (Eo : u32 o = o).
  { unfold u32. apply Z.mod_small. lia. }
  pose proof (lookup_lt_Some _ _ _ Hd) as Ld.
  pose proof (lookup_lt_Some _ _ _ Hf) as Lf.
  assert (Hfile :
    (if u32 o =? sz
     then set_file fd (set_dir_entry (set_file_size (u32 (sz + 1)) (f_dir_entry f)) f)
     else if sz <? u32 o
          then set_file fd (set_dir_entry (set_file_size (u32 o) (f_dir_entry f)) f)
          else ret tt) sa
    = Ok tt (with_fat_file_pool
               (<[Z.to_nat fd := set_dir_entry
                                   (set_file_size (if o <=? sz then Z.max sz (o + 1) else o)
                                      (f_dir_entry f)) f]>
                  (fat_file_pool s)) sa)).
  { rewrite Eo. destruct (Z.eqb_spec o sz) as [E|N].
    - unfold set_file. cbn [fat_file_pool sa with_sector_buffer].
      destruct (Z.leb_spec 0 fd); [|lia].
      destruct (Z.ltb_spec fd (Z.of_nat (length (fat_file_pool s)))); [|lia].
      destruct (Z.leb_spec o sz); [|lia].
      cbn [andb]. do 5 f_equal. unfold u32. rewrite Z.mod_small by lia. lia.
    - destruct (Z.ltb_spec sz o).
      + unfold set_file. cbn [fat_file_pool sa with_sector_buffer].
        destruct (Z.leb_spec 0 fd); [|lia].
        destruct (Z.ltb_spec fd (Z.of_nat (length (fat_file_pool s)))); [|lia].
        destruct (Z.leb_spec o sz); [lia|]. reflexivity.
      + destruct (Z.leb_spec o sz); [|lia]. unfold ret. f_equal.
        replace (Z.max sz (o + 1)) with sz by lia. unfold sz.
        rewrite set_file_size_id, set_dir_entry_id.
        rewrite list_insert_id by exact Hf.
        symmetry. apply (with_fat_file_pool_id sa). }
  rewrite (bind_Ok _ _ _ _ _ Hfile).
  unfold offset_add, bind at 1. fold o. rewrite Hin. unfold ret at 1.
  unfold bind at 1, set_fd. cbn [fat_fd_pool with_fat_file_pool sa with_sector_buffer].
  destruct (Z.leb_spec 0 fd); [|lia].
  destruct (Z.ltb_spec fd (Z.of_nat (length (fat_fd_pool s)))); [|lia].
  cbn [andb]. unfold u16. rewrite !Z.mod_small by lia. reflexivity.
Qed.

Lemma list_inserts_snoc_front (l xs : list Z) (i : nat) x :
  list_inserts (S i) xs (<[i := x]> l) = list_inserts i (x :: xs) l.
Proof.
  cbn [list_inserts]. symmetry. apply list_insert_inserts_lt. lia.
Qed.

(** The copy loop for [m] bytes that fit the sector. *)
Lemma cfs_write_copy_run (m : nat) : forall (k : nat) fd i j len buf s d f,
  let o := offset d in
  let sz := DIR_FileSize (f_dir_entry f) in
  BPB_BytesPerSec (info (mounted s)) = 512 ->
  0 <= i -> i + Z.of_nat m <= 512 ->
  i + Z.of_nat m <= Z.of_nat (length (sector_buffer s)) ->
  0 <= j -> j + Z.of_nat m = len -> len <= Z.of_nat (length buf) -> len < 65536 ->
  0 <= fd -> fat_fd_pool s !! Z.to_nat fd = Some d ->
  fat_file_pool s !! Z.to_nat fd = Some f ->
  0 <= o -> in_sint cfs_offset_width (o + Z.of_nat m) = true ->
  exists s1,
    cfs_write_copy (m + S k) fd i j len buf s = Ok len s1 /\
    sector_buffer s1
    = list_inserts (Z.to_nat i) (u8 <$> take m (drop (Z.to_nat j) buf))
        (sector_buffer s) /\
    fat_fd_pool s1
    = <[Z.to_nat fd := set_offset (o + Z.of_nat m) d]> (fat_fd_pool s) /\
    fat_file_pool s1
    = <[Z.to_nat fd := set_dir_entry
                         (set_file_size (written_size sz o (Z.of_nat m))
                            (f_dir_entry f)) f]>
        (fat_file_pool s) /\
    copy_only s s1.
Proof.
  induction m as [|m IH]; intros k fd i j len buf s d f o sz
    Hb Hi Him Hil Hj Hjm Hlen H16 Hfd Hd Hf Ho Hin.
  - exists s. split; [|split; [|split; [|split]]].
    + cbn [Nat.add cfs_write_copy]. unfold mounted_info. rewrite bind_gets.
      destruct (Z.ltb_spec j len); [lia|]. rewrite andb_false_r.
      unfold ret. f_equal. lia.
    + reflexivity.
    + rewrite Z.add_0_r. unfold o. rewrite set_offset_id.
      symmetry. now apply list_insert_id.
    + change (written_size sz o (Z.of_nat 0)) with sz. unfold sz.
      rewrite set_file_size_id, set_dir_entry_id.
      symmetry. now apply list_insert_id.
    + repeat split.
  - change (S m + S k)%nat with (S (m + S k)).
    assert (Hin1 : in_sint cfs_offset_width (o + 1) = true)
      by (apply (in_sint_mono _ _ (o + Z.of_nat (S m))); [lia|exact Hin]).
    rewrite (cfs_write_copy_step _ fd i j len buf s d f); try assumption; try lia.
    fold o sz.
    set (d' := set_offset (o + 1) d).
    set (f' := set_dir_entry
                 (set_file_size (if o <=? sz then Z.max sz (o + 1) else o)
                    (f_dir_entry f)) f).
    set (s' := with_fat_fd_pool _ _).
    pose proof (lookup_lt_Some _ _ _ Hd) as Ld.
    pose proof (lookup_lt_Some _ _ _ Hf) as Lf.
    destruct (IH k fd (i + 1) (j + 1) len buf s' d' f') as (s1 & Hrun & B1 & P1 & F1 & C1).
    + exact Hb.
    + lia.
    + lia.
    + subst s'. cbn. rewrite length_insert. lia.
    + lia.
    + lia.
    + exact Hlen.
    + exact H16.
    + exact Hfd.
    + subst s'. cbn. apply list_lookup_insert_eq. lia.
    + subst s'. cbn. apply list_lookup_insert_eq. lia.
    + subst d'. cbn. fold o. lia.
    + subst d'. cbn. fold o.
      replace (o + 1 + Z.of_nat m) with (o + Z.of_nat (S m)) by lia. exact Hin.
    + exists s1. split; [exact Hrun|]. split; [|split; [|split]].
      * rewrite B1. subst s'. cbn [sector_buffer with_fat_fd_pool with_fat_file_pool
                                    with_sector_buffer].
        replace (Z.to_nat (i + 1)) with (S (Z.to_nat i)) by lia.
        replace (Z.to_nat (j + 1)) with (S (Z.to_nat j)) by lia.
        rewrite list_inserts_snoc_front. f_equal.
        assert (Hnth : buf !! Z.to_nat j = Some (nth (Z.to_nat j) buf 0)).
        { destruct (lookup_lt_is_Some_2 buf (Z.to_nat j) ltac:(lia)) as [x Hx].
          rewrite (nth_lookup_Some _ _ 0 _ Hx). exact Hx. }
        rewrite (drop_S _ _ _ Hnth). reflexivity.
      * rewrite P1. subst s' d'. cbn. rewrite list_insert_insert_eq.
        fold o. f_equal. unfold set_offset. cbn. f_equal. lia.
      * rewrite F1. subst s' f'. cbn. rewrite list_insert_insert_eq.
        fold sz o. f_equal. unfold set_dir_entry, set_file_size. cbn.
        fold sz. do 2 f_equal. unfold written_size.
        destruct (Z.eqb_spec (Z.of_nat (S m)) 0); [lia|].
        destruct (Z.eqb_spec (Z.of_nat m) 0);
          destruct (Z.leb_spec o sz);
          repeat match goal with
                 | |- context [?a <=? ?b] => destruct (Z.leb_spec a b)
                 end; lia.
      * destruct C1 as (A1 & A2 & A3 & A4 & A5 & A6). repeat split; assumption.
Qed.

End WriteCopy.

Section WriteArith.
Context {D : Type} {platform : Platform}.
Implicit Types s : State D.

Lemma offset_div_nonneg a d s :
  0 <= a -> in_sint cfs_offset_width a = true -> 0 < d ->
  offset_div a d s = Ok (a / d) s.
Proof.
  intros Ha Hin Hd. unfold offset_div. destruct (Z.eqb_spec d 0); [lia|].
  unfold in_sint in Hin. apply andb_true_iff in Hin as (_ & Hin).
  apply Z.ltb_lt in Hin.
  destruct int_width, cfs_offset_width; unfold ret; f_equal;
    try (apply Z.quot_div_nonneg; lia).
  unfold u16. cbn in Hin. rewrite (Z.mod_small a) by lia. reflexivity.
Qed.

Lemma offset_rem_nonneg a d s :
  0 <= a -> in_sint cfs_offset_width a = true -> 0 < d ->
  offset_rem a d s = Ok (a mod d) s.
Proof.
  intros Ha Hin Hd. unfold offset_rem. destruct (Z.eqb_spec d 0); [lia|].
  unfold in_sint in Hin. apply andb_true_iff in Hin as (_ & Hin).
  apply Z.ltb_lt in Hin.
  destruct int_width, cfs_offset_width; unfold ret; f_equal;
    try (apply Z.rem_mod_nonneg; lia).
  unfold u16. cbn in Hin. rewrite (Z.mod_small a) by lia. reflexivity.
Qed.

End WriteArith.

Section WriteSector.
Context {platform : Platform}.
Implicit Types s : State (gmap Z (list Z)).

(** What a sector load can do to the RAM disk: nothing, or the write-back
    of the dirty buffer at the buffer's address. *)
Lemma fat_read_block_device a s st s1 :
  fat_read_block a s = Ok st s1 ->
  device s1 = device s \/
  sector_buffer_dirty s <> 0 /\
  device s1 = <[sector_buffer_addr s := sector_buffer s]> (device s).
Proof.
  unfold fat_read_block. rewrite bind_gets.
  destruct (_ && _); [intros [= <- <-]; now left|]. intros H.
  apply bind_Ok_inv in H as ([] & sa & Hf & H).
  apply bind_Ok_inv in H as ([] & sb & Hm & H). apply modify_inv in Hm.
  apply bind_Ok_inv in H as (st' & sc & Hr & H). injection H as <- <-.
  assert (Hsc : device sc = device sb).
  { unfold dev_read in Hr. cbn in Hr.
    destruct (device sb !! a); injection Hr as <- <-; reflexivity. }
  rewrite Hsc. subst sb. cbn [device with_sector_buffer_addr].
  unfold fat_flush in Hf. rewrite bind_gets in Hf.
  destruct (Z.eqb_spec (sector_buffer_dirty s) 0) as [E|N];
    [injection Hf as <-; now left|].
  rewrite bind_gets in Hf. apply bind_Ok_inv in Hf as (sw & sd & Hw & Hf).
  apply modify_inv in Hf. subst sa. cbn [device with_sector_buffer_dirty].
  unfold dev_write in Hw. cbn in Hw.
  destruct (device s !! sector_buffer_addr s); injection Hw as <- <-; cbn; auto.
Qed.

(** [cfs_write] of bytes that fit the sector under the cursor, for a
    descriptor whose record knows the cluster of that sector.  The bytes
    go into the sector buffer at the cursor's place in the sector, which
    is left dirty.  None of them has reached the device when the call
    returns: the device is as it was, or has taken the write-back of what
    the dirty buffer held before the call.  The cursor moves on by [len].
    The size in the record becomes the larger of the old size and the new
    cursor when the cursor was not behind the size, and one less than
    the new cursor when it was.  Neither the descriptor's flags nor its
    open mark are looked at. *)
Theorem cfs_write_within_sector fuel fd buf len s d f b :
  let inf := info (mounted s) in
  let spc := BPB_SecPerClus inf in
  let o := offset d in
  let sz := DIR_FileSize (f_dir_entry f) in
  let sec :=
    u32 (u32 (u32 (u32 (nth_cluster f - 2) * spc) + first_data_sector (mounted s))
         + (o / 512) mod spc) in
  coherent s -> BPB_BytesPerSec inf = 512 -> 0 < spc < 256 ->
  0 <= fd -> fat_fd_pool s !! Z.to_nat fd = Some d ->
  fat_file_pool s !! Z.to_nat fd = Some f ->
  0 <= o -> in_sint cfs_offset_width (o + len) = true ->
  n f = (o / 512) / spc -> nth_cluster f <> 0 ->
  eoc_value (type inf) (nth_cluster f) = false ->
  view s sec = Some b -> length b = 512%nat ->
  0 < len -> o mod 512 + len <= 512 -> len <= Z.of_nat (length buf) ->
  exists s1,
    cfs_write (S fuel) fd buf len s = Ok len s1 /\
    sector_buffer_addr s1 = sec /\ sector_buffer_dirty s1 = 1 /\
    sector_buffer s1
    = list_inserts (Z.to_nat (o mod 512)) (u8 <$> take (Z.to_nat len) buf) b /\
    fat_fd_pool s1 = <[Z.to_nat fd := set_offset (o + len) d]> (fat_fd_pool s) /\
    fat_file_pool s1
    = <[Z.to_nat fd := set_dir_entry
                         (set_file_size
                            (if o <=? sz then Z.max sz (o + len) else o + len - 1)
                            (f_dir_entry f)) f]>
        (fat_file_pool s) /\
    mounted s1 = mounted s /\
    (device s1 = device s \/
     sector_buffer_dirty s <> 0 /\
     device s1 = <[sector_buffer_addr s := sector_buffer s]> (device s)).
Proof.
  intros inf spc o sz sec Hc Hb Hspc Hfd Hd Hf Ho Hin Hn Hnz Heoc Hv Hlb
    Hlen Hfit Hbuf.
  assert (Hino : in_sint cfs_offset_width o = true)
    by (apply (in_sint_mono _ _ (o + len)); [lia|exact Hin]).
  pose proof (in_sint_bound _ _ Hin) as Hb31.
  assert (Hq : 0 <= o / 512 <= o).
  { split; [apply Z.div_pos; lia|].
    apply Z.div_le_upper_bound; lia. }
  assert (Hinq : in_sint cfs_offset_width (o / 512) = true)
    by (apply (in_sint_mono _ _ o); [lia|exact Hino]).
  assert (Hqc : 0 <= (o / 512) / spc <= (o / 512)).
  { split; [apply Z.div_pos; lia|]. apply Z.div_le_upper_bound; nia. }
  pose proof (Z.mod_pos_bound (o / 512) spc ltac:(lia)) as Hqm.
  pose proof (Z.mod_pos_bound o 512 ltac:(lia)) as Hom.
  unfold cfs_write.
  rewrite (bind_Ok _ _ _ _ _ (get_fd_Ok s fd d Hfd Hd)).
  unfold mounted_info. rewrite bind_gets. fold inf. rewrite Hb. fold spc o.
  unfold umod at 1, bind at 1. cbn [Z.eqb]. unfold ret at 1.
  rewrite (bind_Ok _ _ _ _ _ (offset_div_nonneg o 512 s Ho Hino ltac:(lia))).
  rewrite (bind_Ok _ _ _ _ _ (offset_div_nonneg (o / 512) spc s (proj1 Hq) Hinq ltac:(lia))).
  rewrite (bind_Ok _ _ _ _ _ (offset_rem_nonneg (o / 512) spc s (proj1 Hq) Hinq ltac:(lia))).
  assert (E1 : u16 (u32 o mod 512) = o mod 512).
  { unfold u32, u16. rewrite (Z.mod_small o) by lia. apply Z.mod_small. lia. }
  assert (E2 : u32 ((o / 512) / spc) = (o / 512) / spc) by (unfold u32; apply Z.mod_small; lia).
  assert (E3 : u8 ((o / 512) mod spc) = (o / 512) mod spc) by (unfold u8; apply Z.mod_small; lia).
  rewrite E1, E2, E3.
  (* the sector under the cursor *)
  assert (Hload : exists sa,
    load_next_sector_of_file fuel fd ((o / 512) / spc) ((o / 512) mod spc) true s = Ok 0 sa /\
    cache_only s sa /\ sector_buffer sa = b /\ sector_buffer_addr sa = sec /\
    (device sa = device s \/
     sector_buffer_dirty s <> 0 /\
     device sa = <[sector_buffer_addr s := sector_buffer s]> (device s))).
  { unfold load_next_sector_of_file.
    rewrite (bind_Ok _ _ _ _ _ (get_file_Ok s fd f Hfd Hf)).
    rewrite <- Hn, Z.eqb_refl. unfold ret at 1, bind at 1.
    rewrite (bind_Ok _ _ _ _ _ (is_EOC_run (nth_cluster f) s)). fold inf.
    rewrite Heoc. destruct (Z.eqb_spec (nth_cluster f) 0); [contradiction|].
    cbn [orb].
    rewrite (bind_Ok _ _ s (Some (nth_cluster f)) s).
    2:{ rewrite (bind_Ok _ _ _ _ _ (get_file_Ok s fd f Hfd Hf)).
        rewrite set_hint_id. unfold bind, set_file.
        pose proof (lookup_lt_Some _ _ _ Hf).
        destruct (Z.leb_spec 0 fd); [|lia].
        destruct (Z.ltb_spec fd (Z.of_nat (length (fat_file_pool s)))); [|lia].
        cbn [andb]. rewrite list_insert_id by exact Hf.
        unfold ret. now rewrite with_fat_file_pool_id. }
    assert (Hcs : CLUSTER_TO_SECTOR (nth_cluster f) s
                  = Ok (u32 (u32 (u32 (nth_cluster f - 2) * spc)
                             + first_data_sector (mounted s))) s)
      by (unfold CLUSTER_TO_SECTOR; rewrite bind_gets; reflexivity).
    rewrite (bind_Ok _ _ _ _ _ Hcs). fold sec.
    destruct (fat_read_block_total sec s) as (st & sa & Hr).
    destruct (fat_read_block_spec _ _ _ _ Hc Hr) as (_ & Ha & Hbf).
    destruct (Hbf b Hv) as (-> & Eb).
    exists sa. split; [exact Hr|]. split; [exact (keeps_fat_read_block _ _ _ _ Hr)|].
    split; [exact Eb|]. split; [exact Ha|]. exact (fat_read_block_device _ _ _ _ Hr). }
  destruct Hload as (sa & Hload & (Ma & Fa & Pa & _) & Ba & Aa & Da).
  assert (Hloop : exists s1,
    cfs_write_loop (S fuel) fd (o mod 512) ((o / 512) / spc) ((o / 512) mod spc)
      0 len buf s = Ok len s1 /\
    sector_buffer_addr s1 = sec /\ sector_buffer_dirty s1 = 1 /\
    sector_buffer s1
    = list_inserts (Z.to_nat (o mod 512)) (u8 <$> take (Z.to_nat len) buf) b /\
    fat_fd_pool s1 = <[Z.to_nat fd := set_offset (o + len) d]> (fat_fd_pool s) /\
    fat_file_pool s1
    = <[Z.to_nat fd := set_dir_entry
                         (set_file_size
                            (if o <=? sz then Z.max sz (o + len) else o + len - 1)
                            (f_dir_entry f)) f]>
        (fat_file_pool s) /\
    mounted s1 = mounted s /\
    (device s1 = device s \/
     sector_buffer_dirty s <> 0 /\
     device s1 = <[sector_buffer_addr s := sector_buffer s]> (device s))).
  { cbn [cfs_write_loop]. rewrite (bind_Ok _ _ _ _ _ Hload). cbn [Z.eqb].
    replace (Z.to_nat 65536) with (Z.to_nat len + S (Z.to_nat (65535 - len)))%nat
      by lia.
    destruct (cfs_write_copy_run (Z.to_nat len) (Z.to_nat (65535 - len)) fd
                (o mod 512) 0 len buf sa d f)
      as (s2 & Hrun & B2 & P2 & F2 & (C1 & C2 & C3 & C4 & C5 & C6));
      rewrite ?Ma, ?Fa, ?Pa, ?Ba, ?Hlb; fold inf o sz; try assumption; try lia.
    { replace (o + Z.of_nat (Z.to_nat len)) with (o + len) by lia. exact Hin. }
    rewrite (bind_Ok _ _ _ _ _ Hrun).
    unfold modify at 1, bind at 1.
    unfold mounted_info. rewrite bind_gets.
    cbn [mounted with_sector_buffer_dirty]. rewrite C6, Ma. fold inf spc.
    unfold umod, bind at 1. destruct (Z.eqb_spec spc 0); [lia|]. unfold ret at 1.
    destruct (Z.leb_spec len len); [|lia].
    unfold ret. eexists. split; [reflexivity|].
    cbn. rewrite C1, C3, Aa, B2, Ba, P2, Pa, F2, Fa, C6, Ma.
    replace (Z.of_nat (Z.to_nat len)) with len by lia.
    change (Z.to_nat 0) with 0%nat. rewrite drop_0.
    unfold written_size. destruct (Z.eqb_spec len 0); [lia|].
    repeat split; try reflexivity. exact Da. }
  destruct Hloop as (s1 & Hloop & Props).
  rewrite (bind_Ok _ _ _ _ _ Hloop).
  assert (Es : sint int_width len = len).
  { unfold sint. destruct int_width; cbn; rewrite Z.mod_small; lia. }
  unfold ret. rewrite Es. exists s1. split; [reflexivity|exact Props].
Qed.

End WriteSector.

Lemma cfs_write_within_sector_witness :
  exists s1,
    cfs_write (platform := avr) 1 0 (c_str "ABCDEFGH") 8 write_state = Ok 8 s1 /\
    sector_buffer_addr s1 = 584 /\ sector_buffer_dirty s1 = 1 /\
    sector_buffer s1
    = list_inserts (Z.to_nat (4 mod 512)) (u8 <$> take (Z.to_nat 8) (c_str "ABCDEFGH"))
        (sector_of (c_str "0123456789")) /\
    fat_fd_pool s1
    = <[Z.to_nat 0 := set_offset (4 + 8)
                        {| offset := 4; file_ptr := true; flags := CFS_READ |}]>
        (fat_fd_pool write_state) /\
    fat_file_pool s1
    = <[Z.to_nat 0 := set_dir_entry
                        (set_file_size (if 4 <=? 10 then Z.max 10 (4 + 8) else 4 + 8 - 1)
                           (f_dir_entry seek_file))
                        seek_file]>
        (fat_file_pool write_state) /\
    mounted s1 = mounted write_state /\
    (device s1 = device write_state \/
     sector_buffer_dirty write_state <> 0 /\
     device s1 = <[sector_buffer_addr write_state := sector_buffer write_state]>
                   (device write_state)).
Proof.
  apply (cfs_write_within_sector (platform := avr) 0 0 (c_str "ABCDEFGH") 8 write_state
           {| offset := 4; file_ptr := true; flags := CFS_READ |} seek_file
           (sector_of (c_str "0123456789"))).
  - intros _ Ha. exfalso. apply Ha. reflexivity.
  - reflexivity.
  - cbn. lia.
  - lia.
  - reflexivity.
  - reflexivity.
  - cbn. lia.
  - reflexivity.
  - reflexivity.
  - discriminate.
  - reflexivity.
  - vm_compute. reflexivity.
  - reflexivity.
  - lia.
  - apply Z.leb_le. reflexivity.
  - apply Z.leb_le. reflexivity.
Defined.

(** ** Reading *)

Section ReadCopy.
Context {D : Type} {blockdev : BlockDevice D} {platform : Platform}.
Implicit Types s : State D.

(** One round of the copy loop of [cfs_read]. *)
Lemma cfs_read_copy_step (k : nat) fd i j len (buf : list Z) s d x :
  0 <= i < 512 -> sector_buffer s !! Z.to_nat i = Some x ->
  0 <= j < len -> j < Z.of_nat (length buf) -> j + 1 < 65536 ->
  0 <= fd -> fat_fd_pool s !! Z.to_nat fd = Some d ->
  in_sint cfs_offset_width (offset d + 1) = true ->
  cfs_read_copy (S k) fd i j len buf s
  = cfs_read_copy k fd (i + 1) (j + 1) len (<[Z.to_nat j := x]> buf)
      (with_fat_fd_pool
         (<[Z.to_nat fd := set_offset (offset d + 1) d]> (fat_fd_pool s)) s).
Proof.
  intros Hi Hx Hj Hjl Hj16 Hfd Hd Hin. cbn [cfs_read_copy].
  destruct (Z.ltb_spec i 512); [|lia]. destruct (Z.ltb_spec j len); [|lia].
  cbn [andb].
  assert (Hget : sb_get i s = Ok x s).
  { unfold sb_get, in_bounds. destruct (Z.leb_spec 0 i); [|lia].
    destruct (Z.ltb_spec i 512); [|lia]. cbn [andb]. now rewrite Hx. }
  rewrite (bind_Ok _ _ _ _ _ Hget).
  destruct (Z.ltb_spec j (Z.of_nat (length buf))); [|lia].
  rewrite (bind_Ok _ _ _ _ _ (get_fd_Ok s fd d Hfd Hd)).
  unfold offset_add, bind at 1. rewrite Hin. unfold ret at 1.
  pose proof (lookup_lt_Some _ _ _ Hd) as Ld.
  unfold bind at 1, set_fd.
  destruct (Z.leb_spec 0 fd); [|lia].
  destruct (Z.ltb_spec fd (Z.of_nat (length (fat_fd_pool s)))); [|lia].
  cbn [andb]. unfold u16. rewrite !Z.mod_small by lia. reflexivity.
Qed.

(** The copy loop for [m] bytes, up to the end of the sector or of the
    request. *)
Lemma cfs_read_copy_run (m : nat) : forall (k : nat) fd i j len (buf : list Z) s d,
  0 <= i -> i + Z.of_nat m <= 512 ->
  i + Z.of_nat m <= Z.of_nat (length (sector_buffer s)) ->
  0 <= j -> j + Z.of_nat m <= len -> len <= Z.of_nat (length buf) -> len < 65536 ->
  i + Z.of_nat m = 512 \/ j + Z.of_nat m = len ->
  0 <= fd -> fat_fd_pool s !! Z.to_nat fd = Some d ->
  0 <= offset d -> in_sint cfs_offset_width (offset d + Z.of_nat m) = true ->
  cfs_read_copy (m + k) fd i j len buf s
  = Ok (j + Z.of_nat m,
        list_inserts (Z.to_nat j) (take m (drop (Z.to_nat i) (sector_buffer s))) buf)
      (with_fat_fd_pool
         (<[Z.to_nat fd := set_offset (offset d + Z.of_nat m) d]> (fat_fd_pool s)) s).
Proof.
  induction m as [|m IH]; intros k fd i j len buf s d
    Hi Him Hil Hj Hjm Hlen H16 Hend Hfd Hd Ho Hin.
  - cbn [Nat.add take list_inserts]. rewrite !Z.add_0_r, set_offset_id.
    rewrite list_insert_id by exact Hd.
    assert (Es : with_fat_fd_pool (fat_fd_pool s) s = s) by (now destruct s).
    rewrite Es. destruct k as [|k]; [reflexivity|]. cbn [cfs_read_copy].
    cbn in Hend. rewrite !Z.add_0_r in Hend.
    destruct Hend as [->| ->].
    + cbn [Z.ltb Z.compare Pos.compare Pos.compare_cont andb]. reflexivity.
    + rewrite Z.ltb_irrefl, andb_false_r. reflexivity.
  - change (S m + k)%nat with (S (m + k)).
    destruct (lookup_lt_is_Some_2 (sector_buffer s) (Z.to_nat i) ltac:(lia)) as [x Hx].
    assert (Hin1 : in_sint cfs_offset_width (offset d + 1) = true)
      by (apply (in_sint_mono _ _ (offset d + Z.of_nat (S m))); [lia|exact Hin]).
    rewrite (cfs_read_copy_step _ fd i j len buf s d x); try assumption; try lia.
    pose proof (lookup_lt_Some _ _ _ Hd) as Ld.
    rewrite (IH k fd (i + 1) (j + 1) len (<[Z.to_nat j := x]> buf) _
               (set_offset (offset d + 1) d)); cbn [sector_buffer with_fat_fd_pool
                                                    fat_fd_pool offset set_offset];
      try lia; try (rewrite ?length_insert; lia).
    + f_equal.
      * f_equal; [lia|].
        replace (Z.to_nat (i + 1)) with (S (Z.to_nat i)) by lia.
        replace (Z.to_nat (j + 1)) with (S (Z.to_nat j)) by lia.
        rewrite list_inserts_snoc_front. rewrite (drop_S _ _ _ Hx). reflexivity.
      * rewrite list_insert_insert_eq. destruct s. unfold with_fat_fd_pool. cbn.
        do 2 f_equal. unfold set_offset. cbn. f_equal. lia.
    + apply list_lookup_insert_eq. lia.
    + replace (offset d + 1 + Z.of_nat m) with (offset d + Z.of_nat (S m)) by lia.
      exact Hin.
Qed.

End ReadCopy.

Section ReadSector.
Context {platform : Platform}.
Implicit Types s : State (gmap Z (list Z)).

(** [load_next_sector_of_file] when the record already knows the cluster
    asked for and that cluster is a data cluster. *)
Lemma load_next_sector_known fuel fd clusters co w s f b :
  let inf := info (mounted s) in
  let sec :=
    u32 (u32 (u32 (u32 (nth_cluster f - 2) * BPB_SecPerClus inf)
              + first_data_sector (mounted s)) + co) in
  coherent s -> 0 <= fd -> fat_file_pool s !! Z.to_nat fd = Some f ->
  n f = clusters -> nth_cluster f <> 0 ->
  eoc_value (type inf) (nth_cluster f) = false ->
  view s sec = Some b ->
  exists sa,
    load_next_sector_of_file fuel fd clusters co w s = Ok 0 sa /\
    stable s sa /\ cache_only s sa /\ sector_buffer sa = b /\
    sector_buffer_addr sa = sec.
Proof.
  intros inf sec Hc Hfd Hf Hn Hnz Heoc Hv. unfold load_next_sector_of_file.
  rewrite (bind_Ok _ _ _ _ _ (get_file_Ok s fd f Hfd Hf)).
  rewrite <- Hn, Z.eqb_refl. unfold ret at 1, bind at 1.
  rewrite (bind_Ok _ _ _ _ _ (is_EOC_run (nth_cluster f) s)). fold inf.
  rewrite Heoc. destruct (Z.eqb_spec (nth_cluster f) 0); [contradiction|].
  cbn [orb].
  rewrite (bind_Ok _ _ s (Some (nth_cluster f)) s).
  2:{ destruct w.
      - rewrite (bind_Ok _ _ _ _ _ (get_file_Ok s fd f Hfd Hf)).
        rewrite set_hint_id. unfold bind, set_file.
        pose proof (lookup_lt_Some _ _ _ Hf).
        destruct (Z.leb_spec 0 fd); [|lia].
        destruct (Z.ltb_spec fd (Z.of_nat (length (fat_file_pool s)))); [|lia].
        cbn [andb]. rewrite list_insert_id by exact Hf.
        unfold ret. now rewrite with_fat_file_pool_id.
      - rewrite (bind_Ok _ _ _ _ _ (get_file_Ok s fd f Hfd Hf)).
        rewrite set_hint_id. unfold bind, set_file.
        pose proof (lookup_lt_Some _ _ _ Hf).
        destruct (Z.leb_spec 0 fd); [|lia].
        destruct (Z.ltb_spec fd (Z.of_nat (length (fat_file_pool s)))); [|lia].
        cbn [andb]. rewrite list_insert_id by exact Hf.
        unfold ret. now rewrite with_fat_file_pool_id. }
  assert (Hcs : CLUSTER_TO_SECTOR (nth_cluster f) s
                = Ok (u32 (u32 (u32 (nth_cluster f - 2) * BPB_SecPerClus inf)
                           + first_data_sector (mounted s))) s)
    by (unfold CLUSTER_TO_SECTOR; rewrite bind_gets; reflexivity).
  rewrite (bind_Ok _ _ _ _ _ Hcs). fold sec.
  destruct (fat_read_block_total sec s) as (st & sa & Hr).
  destruct (fat_read_block_spec _ _ _ _ Hc Hr) as (Hst & Ha & Hbf).
  destruct (Hbf b Hv) as (-> & Eb).
  exists sa. split; [exact Hr|]. split; [exact Hst|].
  split; [exact (keeps_fat_read_block _ _ _ _ Hr)|]. auto.
Qed.

(** [cfs_read] of bytes that lie in the sector under the cursor, for a
    descriptor opened for reading whose record knows the cluster of
    that sector: the caller gets the bytes of the sector from the
    cursor's place on, and the cursor moves on by [len].  The size of
    the file is not looked at: a request that reaches behind the end of
    the file is served from the rest of the sector. *)
Theorem cfs_read_within_sector fuel fd buf len s d f b :
  let inf := info (mounted s) in
  let spc := BPB_SecPerClus inf in
  let o := offset d in
  let sec :=
    u32 (u32 (u32 (u32 (nth_cluster f - 2) * spc) + first_data_sector (mounted s))
         + (o / 512) mod spc) in
  coherent s -> BPB_BytesPerSec inf = 512 -> 0 < spc < 256 ->
  0 <= fd < FAT_FD_POOL_SIZE -> fat_fd_pool s !! Z.to_nat fd = Some d ->
  fat_file_pool s !! Z.to_nat fd = Some f ->
  Z.land (flags d) CFS_READ <> 0 -> cluster f <> 0 ->
  0 <= o -> in_sint cfs_offset_width (o + len) = true ->
  n f = (o / 512) / spc -> nth_cluster f <> 0 ->
  eoc_value (type inf) (nth_cluster f) = false ->
  view s sec = Some b -> length b = 512%nat ->
  0 < len -> o mod 512 + len <= 512 -> len <= Z.of_nat (length buf) ->
  exists s1,
    cfs_read (S fuel) fd buf len s
    = Ok (len, list_inserts 0 (take (Z.to_nat len) (drop (Z.to_nat (o mod 512)) b)) buf)
        s1 /\
    fat_fd_pool s1 = <[Z.to_nat fd := set_offset (o + len) d]> (fat_fd_pool s) /\
    fat_file_pool s1 = fat_file_pool s /\
    sector_buffer s1 = b /\ sector_buffer_addr s1 = sec /\ mounted s1 = mounted s.
Proof.
  intros inf spc o sec Hc Hb Hspc Hfd Hd Hf Hfl Hcl Ho Hin Hn Hnz Heoc Hv Hlb
    Hlen Hfit Hbuf.
  assert (Hino : in_sint cfs_offset_width o = true)
    by (apply (in_sint_mono _ _ (o + len)); [lia|exact Hin]).
  pose proof (in_sint_bound _ _ Hin) as Hb31.
  assert (Hq : 0 <= o / 512 <= o).
  { split; [apply Z.div_pos; lia|]. apply Z.div_le_upper_bound; lia. }
  assert (Hinq : in_sint cfs_offset_width (o / 512) = true)
    by (apply (in_sint_mono _ _ o); [lia|exact Hino]).
  assert (Hqc : 0 <= (o / 512) / spc <= o / 512).
  { split; [apply Z.div_pos; lia|]. apply Z.div_le_upper_bound; nia. }
  pose proof (Z.mod_pos_bound (o / 512) spc ltac:(lia)) as Hqm.
  pose proof (Z.mod_pos_bound o 512 ltac:(lia)) as Hom.
  unfold cfs_read.
  rewrite (bind_Ok _ _ _ _ _ (get_fd_Ok s fd d (proj1 Hfd) Hd)).
  unfold mounted_info. rewrite bind_gets. fold inf. rewrite Hb. fold spc o.
  rewrite (bind_Ok _ _ _ _ _ (offset_rem_nonneg o 512 s Ho Hino ltac:(lia))).
  rewrite (bind_Ok _ _ _ _ _ (offset_div_nonneg o 512 s Ho Hino ltac:(lia))).
  rewrite (bind_Ok _ _ _ _ _
             (offset_div_nonneg (o / 512) spc s (proj1 Hq) Hinq ltac:(lia))).
  rewrite (bind_Ok _ _ _ _ _
             (offset_rem_nonneg (o / 512) spc s (proj1 Hq) Hinq ltac:(lia))).
  destruct (Z.ltb_spec fd 0); [lia|].
  destruct (Z.leb_spec FAT_FD_POOL_SIZE fd); [lia|]. cbn [orb].
  rewrite (bind_Ok _ _ _ _ _ (get_file_Ok s fd f (proj1 Hfd) Hf)).
  destruct (Z.eqb_spec (cluster f) 0); [contradiction|].
  destruct (Z.eqb_spec (Z.land (flags d) CFS_READ) 0); [contradiction|].
  assert (E1 : u32 (o mod 512) = o mod 512) by (unfold u32; apply Z.mod_small; lia).
  assert (E2 : u32 ((o / 512) / spc) = (o / 512) / spc)
    by (unfold u32; apply Z.mod_small; lia).
  assert (E3 : u8 ((o / 512) mod spc) = (o / 512) mod spc)
    by (unfold u8; apply Z.mod_small; lia).
  rewrite E1, E2, E3.
  assert (Hloop : exists s1,
    cfs_read_loop (S fuel) fd (o mod 512) ((o / 512) / spc) ((o / 512) mod spc)
      0 len buf s
    = Ok (len, list_inserts 0 (take (Z.to_nat len) (drop (Z.to_nat (o mod 512)) b)) buf)
        s1 /\
    fat_fd_pool s1 = <[Z.to_nat fd := set_offset (o + len) d]> (fat_fd_pool s) /\
    fat_file_pool s1 = fat_file_pool s /\
    sector_buffer s1 = b /\ sector_buffer_addr s1 = sec /\ mounted s1 = mounted s).
  { destruct (load_next_sector_known fuel fd ((o / 512) / spc) ((o / 512) mod spc)
                false s f b Hc (proj1 Hfd) Hf Hn Hnz Heoc Hv)
      as (sa & Hload & _ & (Ma & Fa & Pa & _) & Ba & Aa).
    cbn [cfs_read_loop]. rewrite (bind_Ok _ _ _ _ _ Hload). cbn [Z.eqb].
    assert (E4 : u16 (o mod 512) = o mod 512) by (unfold u16; apply Z.mod_small; lia).
    rewrite E4.
    replace 512%nat with (Z.to_nat len + Z.to_nat (512 - len))%nat by lia.
    rewrite (bind_Ok _ _ _ _ _
               (cfs_read_copy_run (Z.to_nat len) (Z.to_nat (512 - len)) fd (o mod 512)
                  0 len buf sa d ltac:(lia) ltac:(lia)
                  ltac:(rewrite Ba, Hlb; lia) ltac:(lia) ltac:(lia) Hbuf ltac:(lia)
                  ltac:(right; lia) (proj1 Hfd) ltac:(rewrite Pa; exact Hd) Ho
                  ltac:(fold o; replace (o + Z.of_nat (Z.to_nat len)) with (o + len)
                          by lia; exact Hin))).
    unfold mounted_info. rewrite bind_gets.
    cbn [mounted with_fat_fd_pool]. rewrite Ma. fold inf spc.
    unfold umod, bind at 1. destruct (Z.eqb_spec spc 0); [lia|]. unfold ret at 1.
    replace (0 + Z.of_nat (Z.to_nat len)) with len by lia.
    destruct (Z.leb_spec len len); [|lia].
    rewrite Ba. change (Z.to_nat 0) with 0%nat.
    match goal with |- context [let '(_, _) := ?c in _] => destruct c end.
    unfold ret. eexists. split; [reflexivity|].
    cbn. fold o. rewrite Pa, Fa, Aa, Ma, ?Ba.
    replace (Z.of_nat (Z.to_nat len)) with len by lia.
    repeat split; reflexivity. }
  destruct Hloop as (s1 & Hloop & Props).
  rewrite (bind_Ok _ _ _ _ _ Hloop).
  assert (Es : sint int_width len = len).
  { unfold sint. destruct int_width; cbn; rewrite Z.mod_small; lia. }
  unfold ret. rewrite Es. exists s1. split; [reflexivity|exact Props].
Qed.

(** [cfs_read] across a sector boundary.  The place in the sector where
    the copy starts is computed once, from the cursor, and is used again
    for every following sector: a request that starts [p] bytes into a
    sector and runs into the next sector of the cluster gets the rest of
    the first sector and then the bytes of the next sector from [p] on,
    not from its beginning.  The answer is still [len] and the cursor
    moves on by [len]. *)
Theorem cfs_read_across_sectors fuel fd buf len s d f b1 b2 :
  let inf := info (mounted s) in
  let spc := BPB_SecPerClus inf in
  let o := offset d in
  let p := o mod 512 in
  let co := (o / 512) mod spc in
  let base :=
    u32 (u32 (u32 (nth_cluster f - 2) * spc) + first_data_sector (mounted s)) in
  coherent s -> BPB_BytesPerSec inf = 512 -> 0 < spc < 256 ->
  0 <= fd < FAT_FD_POOL_SIZE -> fat_fd_pool s !! Z.to_nat fd = Some d ->
  fat_file_pool s !! Z.to_nat fd = Some f ->
  Z.land (flags d) CFS_READ <> 0 -> cluster f <> 0 ->
  0 <= o -> in_sint cfs_offset_width (o + len) = true ->
  n f = (o / 512) / spc -> nth_cluster f <> 0 ->
  eoc_value (type inf) (nth_cluster f) = false ->
  co + 1 < spc ->
  view s (u32 (base + co)) = Some b1 -> length b1 = 512%nat ->
  view s (u32 (base + (co + 1))) = Some b2 -> length b2 = 512%nat ->
  0 < p -> 512 - p < len -> len <= 2 * (512 - p) -> len <= Z.of_nat (length buf) ->
  exists s1,
    cfs_read (S (S fuel)) fd buf len s
    = Ok (len,
          list_inserts (Z.to_nat (512 - p))
            (take (Z.to_nat (len - (512 - p))) (drop (Z.to_nat p) b2))
            (list_inserts 0 (take (Z.to_nat (512 - p)) (drop (Z.to_nat p) b1)) buf))
        s1 /\
    fat_fd_pool s1 = <[Z.to_nat fd := set_offset (o + len) d]> (fat_fd_pool s).
Proof.
  intros inf spc o p co base Hc Hb Hspc Hfd Hd Hf Hfl Hcl Ho Hin Hn Hnz Heoc Hco
    Hv1 Hl1 Hv2 Hl2 Hp Hlen1 Hlen2 Hbuf.
  assert (Hino : in_sint cfs_offset_width o = true)
    by (apply (in_sint_mono _ _ (o + len)); [lia|exact Hin]).
  pose proof (in_sint_bound _ _ Hin) as Hb31.
  assert (Hq : 0 <= o / 512 <= o).
  { split; [apply Z.div_pos; lia|]. apply Z.div_le_upper_bound; lia. }
  assert (Hinq : in_sint cfs_offset_width (o / 512) = true)
    by (apply (in_sint_mono _ _ o); [lia|exact Hino]).
  assert (Hqc : 0 <= (o / 512) / spc <= o / 512).
  { split; [apply Z.div_pos; lia|]. apply Z.div_le_upper_bound; nia. }
  pose proof (Z.mod_pos_bound (o / 512) spc ltac:(lia)) as Hqm. fold co in Hqm.
  pose proof (Z.mod_pos_bound o 512 ltac:(lia)) as Hom. fold p in Hom.
  unfold cfs_read.
  rewrite (bind_Ok _ _ _ _ _ (get_fd_Ok s fd d (proj1 Hfd) Hd)).
  unfold mounted_info. rewrite bind_gets. fold inf. rewrite Hb. fold spc o.
  rewrite (bind_Ok _ _ _ _ _ (offset_rem_nonneg o 512 s Ho Hino ltac:(lia))).
  rewrite (bind_Ok _ _ _ _ _ (offset_div_nonneg o 512 s Ho Hino ltac:(lia))).
  rewrite (bind_Ok _ _ _ _ _
             (offset_div_nonneg (o / 512) spc s (proj1 Hq) Hinq ltac:(lia))).
  rewrite (bind_Ok _ _ _ _ _
             (offset_rem_nonneg (o / 512) spc s (proj1 Hq) Hinq ltac:(lia))).
  destruct (Z.ltb_spec fd 0); [lia|].
  destruct (Z.leb_spec FAT_FD_POOL_SIZE fd); [lia|]. cbn [orb].
  rewrite (bind_Ok _ _ _ _ _ (get_file_Ok s fd f (proj1 Hfd) Hf)).
  destruct (Z.eqb_spec (cluster f) 0); [contradiction|].
  destruct (Z.eqb_spec (Z.land (flags d) CFS_READ) 0); [contradiction|].
  fold p co.
  assert (E1 : u32 p = p) by (unfold u32; apply Z.mod_small; lia).
  assert (E2 : u32 ((o / 512) / spc) = (o / 512) / spc)
    by (unfold u32; apply Z.mod_small; lia).
  assert (E3 : u8 co = co) by (unfold u8; apply Z.mod_small; lia).
  assert (E4 : u16 p = p) by (unfold u16; apply Z.mod_small; lia).
  assert (E5 : u8 (co + 1) = co + 1) by (unfold u8; apply Z.mod_small; lia).
  rewrite E1, E2, E3.
  set (m1 := 512 - p) in *. set (m2 := len - m1).
  assert (Hloop : exists s1,
    cfs_read_loop (S (S fuel)) fd p ((o / 512) / spc) co 0 len buf s
    = Ok (len,
          list_inserts (Z.to_nat m1) (take (Z.to_nat m2) (drop (Z.to_nat p) b2))
            (list_inserts 0 (take (Z.to_nat m1) (drop (Z.to_nat p) b1)) buf)) s1 /\
    fat_fd_pool s1 = <[Z.to_nat fd := set_offset (o + len) d]> (fat_fd_pool s)).
  { (* the first sector, up to its end *)
    destruct (load_next_sector_known (S fuel) fd ((o / 512) / spc) co
                false s f b1 Hc (proj1 Hfd) Hf Hn Hnz Heoc Hv1)
      as (sa & Hload & Hsta & (Ma & Fa & Pa & _) & Ba & Aa).
    cbn [cfs_read_loop]. rewrite (bind_Ok _ _ _ _ _ Hload). cbn [Z.eqb].
    rewrite ?E4.
    replace 512%nat with (Z.to_nat m1 + Z.to_nat p)%nat by (unfold m1; lia).
    rewrite (bind_Ok _ _ _ _ _
               (cfs_read_copy_run (Z.to_nat m1) (Z.to_nat p) fd p 0 len buf sa d
                  ltac:(lia) ltac:(unfold m1; lia)
                  ltac:(rewrite Ba, Hl1; unfold m1; lia) ltac:(lia)
                  ltac:(unfold m1 in *; lia) Hbuf ltac:(unfold m1 in *; lia)
                  ltac:(left; unfold m1; lia) (proj1 Hfd)
                  ltac:(rewrite Pa; exact Hd) Ho
                  ltac:(fold o; apply (in_sint_mono _ _ (o + len));
                        [unfold m1 in *; lia|exact Hin]))).
    set (buf1 := list_inserts (Z.to_nat 0) _ buf).
    set (sb := with_fat_fd_pool _ sa).
    unfold mounted_info. rewrite bind_gets.
    assert (Mb : mounted sb = mounted s) by (rewrite <- Ma; reflexivity).
    rewrite Mb. fold inf spc.
    unfold umod, bind at 1. destruct (Z.eqb_spec spc 0); [lia|]. unfold ret at 1.
    rewrite (Z.mod_small (co + 1)) by lia.
    destruct (Z.eqb_spec (co + 1) 0); [lia|].
    replace (0 + Z.of_nat (Z.to_nat m1)) with m1 by (unfold m1; lia).
    destruct (Z.leb_spec len m1); [lia|].
    rewrite E5.
    (* the next sector of the cluster *)
    assert (Cb : coherent sb) by (destruct Hsta as (Ca & _); exact Ca).
    assert (Fb : fat_file_pool sb !! Z.to_nat fd = Some f)
      by (change (fat_file_pool sb) with (fat_file_pool sa); rewrite Fa; exact Hf).
    assert (Vb : view sb (u32 (u32 (u32 (u32 (nth_cluster f - 2)
                                         * BPB_SecPerClus (info (mounted sb)))
                                    + first_data_sector (mounted sb)) + (co + 1)))
                 = Some b2).
    { rewrite Mb. fold inf spc base. destruct Hsta as (_ & _ & Va).
      change (view sb (u32 (base + (co + 1))))
        with (view sa (u32 (base + (co + 1)))).
      rewrite Va. exact Hv2. }
    destruct (load_next_sector_known fuel fd ((o / 512) / spc) (co + 1)
                false sb f b2 Cb (proj1 Hfd) Fb Hn Hnz
                ltac:(rewrite Mb; exact Heoc) Vb)
      as (sc & Hload2 & _ & (Mc & Fc & Pc & _) & Bc & Ac).
    cbn [cfs_read_loop]. rewrite (bind_Ok _ _ _ _ _ Hload2). cbn [Z.eqb].
    rewrite ?E4.
    assert (Ld : (Z.to_nat fd < length (fat_fd_pool s))%nat)
      by (exact (lookup_lt_Some _ _ _ Hd)).
    assert (Dc : fat_fd_pool sc !! Z.to_nat fd
                 = Some (set_offset (o + Z.of_nat (Z.to_nat m1)) d)).
    { rewrite Pc. subst sb. cbn. rewrite Pa. fold o.
      apply list_lookup_insert_eq. exact Ld. }
    replace (Z.to_nat m1 + Z.to_nat p)%nat
      with (Z.to_nat m2 + Z.to_nat (512 - m2))%nat
      by (unfold m2, m1 in *; lia).
    rewrite (bind_Ok _ _ _ _ _
               (cfs_read_copy_run (Z.to_nat m2) (Z.to_nat (512 - m2)) fd p m1 len
                  buf1 sc _ ltac:(lia) ltac:(unfold m2, m1 in *; lia)
                  ltac:(rewrite Bc, Hl2; unfold m2, m1 in *; lia)
                  ltac:(unfold m1; lia) ltac:(unfold m2, m1 in *; lia)
                  ltac:(subst buf1; rewrite length_inserts; exact Hbuf)
                  ltac:(unfold m1 in *; lia)
                  ltac:(right; unfold m2, m1 in *; lia) (proj1 Hfd) Dc
                  ltac:(cbn; unfold m1; lia)
                  ltac:(cbn; replace (o + Z.of_nat (Z.to_nat m1) + Z.of_nat (Z.to_nat m2))
                          with (o + len) by (unfold m2, m1 in *; lia); exact Hin))).
    unfold mounted_info. rewrite bind_gets.
    cbn [mounted with_fat_fd_pool]. rewrite Mc, Mb. fold inf spc.
    unfold umod, bind at 1. destruct (Z.eqb_spec spc 0); [lia|]. unfold ret at 1.
    replace (m1 + Z.of_nat (Z.to_nat m2)) with len by (unfold m2, m1 in *; lia).
    destruct (Z.leb_spec len len); [|lia].
    match goal with |- context [let '(_, _) := ?c in _] => destruct c end.
    unfold ret. eexists. split.
    - rewrite Bc. subst buf1. change (Z.to_nat 0) with 0%nat. rewrite Ba.
      reflexivity.
    - cbn [fat_fd_pool with_fat_fd_pool set_offset offset]. rewrite Pc.
      subst sb. cbn [fat_fd_pool with_fat_fd_pool]. rewrite Pa.
      rewrite list_insert_insert_eq. f_equal. unfold set_offset. cbn.
      fold o. f_equal. unfold m2, m1 in *. lia. }
  destruct Hloop as (s1 & Hloop & Props).
  rewrite (bind_Ok _ _ _ _ _ Hloop).
  assert (Es : sint int_width len = len).
  { unfold sint. destruct int_width; cbn; rewrite Z.mod_small; lia. }
  unfold ret. rewrite Es. exists s1. split; [reflexivity|exact Props].
Qed.

End ReadSector.

Lemma cfs_read_within_sector_witness :
  exists s1,
    cfs_read (platform := avr) 1 0 (replicate 20 255) 20 write_state
    = Ok (20, list_inserts 0
                (take (Z.to_nat 20)
                   (drop (Z.to_nat (4 mod 512)) (sector_of (c_str "0123456789"))))
                (replicate 20 255)) s1 /\
    fat_fd_pool s1
    = <[Z.to_nat 0 := set_offset (4 + 20)
                        {| offset := 4; file_ptr := true; flags := CFS_READ |}]>
        (fat_fd_pool write_state) /\
    fat_file_pool s1 = fat_file_pool write_state /\
    sector_buffer s1 = sector_of (c_str "0123456789") /\
    sector_buffer_addr s1 = 584 /\ mounted s1 = mounted write_state.
Proof.
  apply (cfs_read_within_sector (platform := avr) 0 0 (replicate 20 255) 20 write_state
           {| offset := 4; file_ptr := true; flags := CFS_READ |} seek_file
           (sector_of (c_str "0123456789"))).
  - intros _ Ha. exfalso. apply Ha. reflexivity.
  - reflexivity.
  - cbn. lia.
  - cbn. lia.
  - reflexivity.
  - reflexivity.
  - discriminate.
  - discriminate.
  - cbn. lia.
  - reflexivity.
  - reflexivity.
  - discriminate.
  - reflexivity.
  - vm_compute. reflexivity.
  - reflexivity.
  - lia.
  - apply Z.leb_le. reflexivity.
  - apply Z.leb_le. reflexivity.
Defined.

Lemma cfs_read_across_sectors_witness :
  exists s1,
    cfs_read (platform := avr) 2 0 (replicate 4 255) 4 read_state
    = Ok (4, list_inserts (Z.to_nat (512 - 510 mod 512))
               (take (Z.to_nat (4 - (512 - 510 mod 512)))
                  (drop (Z.to_nat (510 mod 512)) (replicate 510 1 ++ [2; 3])))
               (list_inserts 0
                  (take (Z.to_nat (512 - 510 mod 512))
                     (drop (Z.to_nat (510 mod 512)) (sector_of (c_str "0123456789"))))
                  (replicate 4 255))) s1 /\
    fat_fd_pool s1
    = <[Z.to_nat 0 := set_offset (510 + 4)
                        {| offset := 510; file_ptr := true; flags := CFS_READ |}]>
        (fat_fd_pool read_state).
Proof.
  apply (cfs_read_across_sectors (platform := avr) 0 0 (replicate 4 255) 4 read_state
           {| offset := 510; file_ptr := true; flags := CFS_READ |} seek_file
           (sector_of (c_str "0123456789")) (replicate 510 1 ++ [2; 3])).
  - intros _ Ha. exfalso. apply Ha. reflexivity.
  - reflexivity.
  - cbn. lia.
  - cbn. lia.
  - reflexivity.
  - reflexivity.
  - discriminate.
  - discriminate.
  - cbn. lia.
  - reflexivity.
  - reflexivity.
  - discriminate.
  - reflexivity.
  - reflexivity.
  - vm_compute. reflexivity.
  - reflexivity.
  - vm_compute. reflexivity.
  - reflexivity.
  - reflexivity.
  - reflexivity.
  - apply Z.leb_le. reflexivity.
  - apply Z.leb_le. reflexivity.
Defined.
